(** * CRDP multiplexor: a shallow embedding of crdpMultiplexor.ts

    One Chrome-Remote-Debugging-Protocol socket is shared by up to ten
    channels.  The embedding keeps the names of the source: the helper
    functions, the methods of [CRDPChannel] that stay inside the channel,
    [CRDPMultiplexor], then the methods of [CRDPChannel] that call it.

    Modelling conventions.
    - A JavaScript [number] is a binary64 floating-point number.  The ids
      are integer-valued numbers and are modelled by that integer ([Z]);
      every arithmetic operation on them rounds its exact result to the
      nearest number binary64 holds ([round64], [divide]).  [%] is exact:
      the truncated remainder ([Z.rem]).
    - A serialized JSON text is identified with the object it parses to, so
      [JSON.parse] and [JSON.stringify] are the identity on [Message].
    - An object used as a dictionary is a [gmap] with [string] keys holding
      its own properties; reading a key ([get]) also finds the properties
      that every object inherits from [Object.prototype].
    - The clock counts milliseconds; a timer set by [setTimeout] runs when
      the clock reaches its due time.
    - A callback is an opaque function value, compared by identity; calling
      it is recorded in the [calls] trace of the world.
    - An exception leaves the mutations made before it in place: a
      computation returns an [Outcome] together with the world it reached.
    - [logger] output is not part of the model. *)

From Stdlib Require Import ZArith Ascii String List Lia DecimalString.
From stdpp Require Import base option list strings gmap fin_maps.

Open Scope string_scope.
Open Scope Z_scope.

(** ** String primitives of the JavaScript runtime used by the source *)

(** [s.split(sep)] for a one-character separator. *)
Fixpoint split (sep : ascii) (s : string) : list string :=
  match s with
  | EmptyString => [EmptyString]
  | String a s' =>
      if Ascii.eqb a sep then EmptyString :: split sep s'
      else match split sep s' with
           | p :: ps => String a p :: ps
           | [] => [String a EmptyString]
           end
  end.

(** [s.indexOf(pat)]: position of the first occurrence, or -1. *)
Definition indexOf (s pat : string) : Z :=
  match String.index 0 pat s with
  | Some n => Z.of_nat n
  | None => -1
  end.

(** [s.endsWith(suffix)]. *)
Definition endsWith (s suffix : string) : bool :=
  let n := String.length s in
  let k := String.length suffix in
  if (k <=? n)%nat then String.eqb (substring (n - k) k s) suffix else false.

(** Truthiness of a possibly undefined string. *)
Definition truthy (s : option string) : bool :=
  match s with
  | Some s => negb (String.eqb s "")
  | None => false
  end.

(** ** Numbers

    An integer-valued number is modelled by the integer it equals.  Binary64
    has 53 significant bits: the integers up to [MAX_SAFE_INTEGER] in
    magnitude are all numbers, beyond it only the multiples of a power of
    two are; an integer that is not a number, such as 2^53 + 1, is the
    value of no id.  A sum, product or quotient is the exact result rounded
    to the nearest number, a tie going to the even significand.  The
    exponent range of binary64 is not modelled: an id of 308 digits, whose
    tenfold is [Infinity], is outside the model. *)

(** [Number.MAX_SAFE_INTEGER], 2^53 - 1. *)
Definition MAX_SAFE_INTEGER : Z := 9007199254740991.

(** The number nearest to the integer [z]. *)
Definition round64 (z : Z) : Z :=
  let a := Z.abs z in
  if a <=? MAX_SAFE_INTEGER then z
  else
    let e := Z.log2 a - 52 in
    let q := a / 2 ^ e in
    let r := a mod 2 ^ e in
    let q' := if (2 ^ (e - 1) <? r) || ((r =? 2 ^ (e - 1)) && Z.odd q)
              then q + 1 else q in
    Z.sgn z * (q' * 2 ^ e).

(** A number that need not be an integer: [(m, k)] is m / 2^k for a
    non-negative [k], and m * 2^(-k) for a negative one. *)
Definition scaled : Type := Z * Z.

(** [n / d] for integers [n] and [d], [d] positive: the quotient rounded to
    53 significant bits, 2^52 <= |m| <= 2^53. *)
Definition divide (n d : Z) : scaled :=
  let a := Z.abs n in
  if a =? 0 then (0, 0)
  else
    let k0 := 52 - (Z.log2 a - Z.log2 d) in
    let k := if a * 2 ^ Z.max k0 0 <? d * 2 ^ Z.max (- k0) 0 * 2 ^ 52
             then k0 + 1 else k0 in
    let N := a * 2 ^ Z.max k 0 in
    let D := d * 2 ^ Z.max (- k) 0 in
    let q := N / D in
    let r := N mod D in
    let m := if (D <? 2 * r) || ((2 * r =? D) && Z.odd q) then q + 1 else q in
    (Z.sgn n * m, k).

(** [Math.floor(x)]. *)
Definition Math_floor (x : scaled) : Z :=
  let (m, k) := x in
  if 0 <=? k then m / 2 ^ k else m * 2 ^ (- k).

(** ** Identifier arithmetic (source lines 41-50) *)

Definition encodifyChannel (channelId id : Z) : Z :=
  round64 (round64 (id * 10) + channelId).

Definition decodifyChannelId (encodifiedId : Z) : Z := Z.rem encodifiedId 10.

Definition decodifyId (encodifiedId : Z) : Z :=
  Math_floor (divide encodifiedId 10).

(** ** Objects used as dictionaries

    [_enabledDomains] and [_pendingMessagesForDomain] start as the literal
    [{}], whose prototype is [Object.prototype].  Reading [dictionary[key]]
    gives the own property if there is one, and otherwise what the prototype
    has under that name: a function, or for [__proto__] the prototype
    itself; either is truthy and is not [undefined]. *)

Definition ObjectPrototype : list string :=
  ["constructor"; "hasOwnProperty"; "isPrototypeOf"; "propertyIsEnumerable";
   "toLocaleString"; "toString"; "valueOf"; "__proto__";
   "__defineGetter__"; "__defineSetter__";
   "__lookupGetter__"; "__lookupSetter__"].

Definition inherited (key : string) : bool :=
  existsb (String.eqb key) ObjectPrototype.

Inductive Property (V : Type) :=
| Own (value : V)
| Inherited
| Undefined.
Arguments Own {V} value.
Arguments Inherited {V}.
Arguments Undefined {V}.

(** [dictionary[key]]. *)
Definition get {V} (dictionary : gmap string V) (key : string) : Property V :=
  match dictionary !! key with
  | Some value => Own value
  | None => if inherited key then Inherited else Undefined
  end.

(** ** Data model *)

(** A protocol message.  [msg_id] and [msg_method] are the two fields the
    multiplexor inspects ([None] is [undefined]); an id is an
    integer-valued number.  [msg_rest] stands for every other field
    ([params], [result], [error]), which the code never reads or writes. *)
Record Message := mkMessage {
  msg_id : option Z;
  msg_method : option string;
  msg_rest : string
}.

Definition with_id (message : Message) (i : Z) : Message :=
  {| msg_id := Some i; msg_method := msg_method message;
     msg_rest := msg_rest message |}.

(** A function value; [indexOf] on an array of callbacks compares them by
    identity. *)
Definition Callback := nat.

(** The wrapped socket is an external object.  The model keeps what the
    multiplexor asked of it: the messages written with [send], and the
    [on] / [removeListener] calls forwarded to it. *)
Inductive SocketCall :=
| SocketOn (event : string) (cb : Callback)
| SocketRemoveListener (event : string) (cb : Callback).

Record LikeSocket := mkLikeSocket {
  sent : list Message;
  forwarded : list SocketCall
}.

Record CRDPChannel := mkCRDPChannel {
  name : string;
  id : Z;
  _messageCallbacks : list Callback;
  _enabledDomains : gmap string bool;
  (** [None] is the [null] written by [discardUnsentPendingMessages]. *)
  _pendingMessagesForDomain : option (gmap string (list Message))
}.

Record CRDPMultiplexor := mkCRDPMultiplexor {
  _channels : list CRDPChannel;
  _wrappedLikeSocket : LikeSocket;
  _channelWithNoDebuggerNotification : option string
}.

(** The multiplexor together with the part of the runtime it acts on:
    the trace of callback invocations (channel index, callback, argument),
    the clock in milliseconds and the timers set by [setTimeout] (due time,
    channel whose [discardUnsentPendingMessages] is to run). *)
Record World := mkWorld {
  mux : CRDPMultiplexor;
  calls : list (nat * Callback * Message);
  now : N;
  timeouts : list (N * nat)
}.

(** What a call can throw: the four [throwCriticalError] sites, the [Error]
    of [addChannel], and the [TypeError] of the runtime. *)
Inductive Thrown :=
| MalformedMessage             (* "Message didn't have id nor method" *)
| UnknownChannelForResponse    (* "Didn't find channel for message with id" *)
| MalformedMethodName          (* "The method ... didn't have exactly two parts" *)
| ChannelSentMessageWithoutId  (* "Channel [...] sent a message without an id" *)
| ChannelLimitExceeded         (* "Only 10 channels are supported" *)
| TypeError.

Inductive Outcome (A : Type) :=
| Returned (a : A)
| Threw (e : Thrown).
Arguments Returned {A} a.
Arguments Threw {A} e.

(** ** The monad of the embedding: state that survives an exception *)

Definition M (A : Type) : Type := World -> Outcome A * World.

Definition ret {A} (a : A) : M A := fun w => (Returned a, w).

Definition bind {A B} (m : M A) (k : A -> M B) : M B := fun w =>
  match m w with
  | (Returned a, w') => k a w'
  | (Threw e, w') => (Threw e, w')
  end.

Definition throw {A} (e : Thrown) : M A := fun w => (Threw e, w).

Declare Scope crdp_scope.
Delimit Scope crdp_scope with crdp.
Notation "x <- m ;; k" := (bind m (fun x => k))
  (at level 100, m at next level, right associativity) : crdp_scope.
Notation "m ;;; k" := (bind m (fun _ => k))
  (at level 100, right associativity) : crdp_scope.
Open Scope crdp_scope.

(** [array.forEach(f)]. *)
Fixpoint forEach {A} (l : list A) (f : A -> M unit) : M unit :=
  match l with
  | [] => ret tt
  | x :: l' => f x ;;; forEach l' f
  end.

(** An uncaught exception of a timer callback ends that callback only. *)
Definition uncaught (m : M unit) : M unit := fun w => (Returned tt, snd (m w)).

Definition getMux : M CRDPMultiplexor := fun w => (Returned (mux w), w).

Definition putMux (m : CRDPMultiplexor) : M unit := fun w =>
  (Returned tt,
   {| mux := m; calls := calls w; now := now w; timeouts := timeouts w |}).

(** [array[k]] for a numeric index. *)
Definition arrayAt {A} (l : list A) (k : Z) : option A :=
  if k <? 0 then None else l !! Z.to_nat k.

(** The receiver [this] of a channel method is the channel object stored at
    index [c] of [_channels]; a method called on [undefined] is a
    [TypeError]. *)
Definition channelAt (c : nat) : M CRDPChannel :=
  m <- getMux ;;
  match _channels m !! c with
  | Some channel => ret channel
  | None => throw TypeError
  end.

Definition setChannel (c : nat) (channel : CRDPChannel) : M unit :=
  m <- getMux ;;
  putMux {| _channels := <[c := channel]> (_channels m);
            _wrappedLikeSocket := _wrappedLikeSocket m;
            _channelWithNoDebuggerNotification :=
              _channelWithNoDebuggerNotification m |}.

(** Calling one callback of channel [c] with [data]. *)
Definition invoke (c : nat) (data : Message) (callback : Callback) : M unit :=
  fun w =>
  (Returned tt,
   {| mux := mux w; calls := calls w ++ [(c, callback, data)];
      now := now w; timeouts := timeouts w |}).

(** [this._wrappedLikeSocket.send(data)]. *)
Definition socket_send (data : Message) : M unit :=
  m <- getMux ;;
  putMux {| _channels := _channels m;
            _wrappedLikeSocket :=
              {| sent := sent (_wrappedLikeSocket m) ++ [data];
                 forwarded := forwarded (_wrappedLikeSocket m) |};
            _channelWithNoDebuggerNotification :=
              _channelWithNoDebuggerNotification m |}.

(** [this._wrappedLikeSocket.on(event, cb)] and
    [this._wrappedLikeSocket.removeListener(event, cb)]. *)
Definition socket_call (call : SocketCall) : M unit :=
  m <- getMux ;;
  putMux {| _channels := _channels m;
            _wrappedLikeSocket :=
              {| sent := sent (_wrappedLikeSocket m);
                 forwarded := forwarded (_wrappedLikeSocket m) ++ [call] |};
            _channelWithNoDebuggerNotification :=
              _channelWithNoDebuggerNotification m |}.

(** [array.indexOf(x)]: first index holding [x], or -1. *)
Fixpoint array_indexOf (l : list Callback) (x : Callback) : Z :=
  match l with
  | [] => -1
  | y :: l' =>
      if Nat.eqb y x then 0
      else let r := array_indexOf l' x in if r <? 0 then -1 else r + 1
  end.

(** [array.splice(start, deleteCount)]: a negative [start] counts from the
    end of the array. *)
Definition splice {A} (l : list A) (start : Z) (deleteCount : nat) : list A :=
  let len := Z.of_nat (length l) in
  let actualStart :=
    if start <? 0 then Z.max (len + start) 0 else Z.min start len in
  take (Z.to_nat actualStart) l ++ drop (Z.to_nat actualStart + deleteCount) l.

(** [setTimeout(() => this.discardUnsentPendingMessages(), delay)] called by
    channel [c]. *)
Definition setTimeout (c : nat) (delay : N) : M unit := fun w =>
  (Returned tt,
   {| mux := mux w; calls := calls w; now := now w;
      timeouts := timeouts w ++ [((now w + delay)%N, c)] |}).

(** ** Helper functions of the source (lines 31-55) *)

Definition throwCriticalError {A} (e : Thrown) : M A := throw e.

Definition extractDomain (method : string) : M string :=
  let methodParts := split "." method in
  if (length methodParts =? 2)%nat
  then ret (nth 0 methodParts "")
  else throwCriticalError MalformedMethodName.

(** ** class CRDPChannel (lines 133-226)

    A method of the channel stored at index [c] takes [c] as its first
    argument. *)

Definition timeToPreserveMessagesInMillis : N := 60 * 1000.

Definition with_messageCallbacks (this : CRDPChannel) (l : list Callback) :=
  {| name := name this; id := id this; _messageCallbacks := l;
     _enabledDomains := _enabledDomains this;
     _pendingMessagesForDomain := _pendingMessagesForDomain this |}.

Definition with_enabledDomains (this : CRDPChannel) (e : gmap string bool) :=
  {| name := name this; id := id this;
     _messageCallbacks := _messageCallbacks this;
     _enabledDomains := e;
     _pendingMessagesForDomain := _pendingMessagesForDomain this |}.

Definition with_pendingMessagesForDomain (this : CRDPChannel)
    (p : option (gmap string (list Message))) :=
  {| name := name this; id := id this;
     _messageCallbacks := _messageCallbacks this;
     _enabledDomains := _enabledDomains this;
     _pendingMessagesForDomain := p |}.

(** [this._enabledDomains[domain]] in a condition.  The assignment
    [this._enabledDomains[domain] = true] is the insertion of an own
    property; for [__proto__], where the runtime ignores it, the value read
    is truthy with and without it. *)
Definition isEnabled (this : CRDPChannel) (domain : string) : bool :=
  match get (_enabledDomains this) domain with
  | Own b => b
  | Inherited => true
  | Undefined => false
  end.

Definition callMessageCallbacks (c : nat) (messageData : Message) : M unit :=
  this <- channelAt c ;;
  forEach (_messageCallbacks this) (invoke c messageData).

(** The code calls [storeMessageForLater] only for a domain that
    [_enabledDomains] does not hold as truthy.  A name that the two
    dictionaries inherit is truthy there unless an own property [false]
    hides it, and the code writes no [false] ([onlyTrue] holds of every
    channel it can reach): the property read here is an own one or
    [undefined]. *)
Definition storeMessageForLater (c : nat) (domain : string)
    (messageData : Message) : M unit :=
  this <- channelAt c ;;
  match _pendingMessagesForDomain this with
  | None => throw TypeError
  | Some pending =>
      let messagesForDomain :=
        match pending !! domain with
        | Some l => l
        | None => []
        end in
      setChannel c
        (with_pendingMessagesForDomain this
           (Some (<[domain := (messagesForDomain ++ [messageData])%list]> pending)))
  end.

Definition callDomainMessageCallbacks (c : nat) (domain : string)
    (messageData : Message) : M unit :=
  this <- channelAt c ;;
  if isEnabled this domain then callMessageCallbacks c messageData
  else match _pendingMessagesForDomain this with
       | Some _ => storeMessageForLater c domain messageData
       | None => ret tt
       end.

(** For an inherited name [pendingMessagesData] is a function: it is not
    [undefined], the [delete] removes nothing, and the call of its
    [forEach], which it does not have, is a [TypeError]. *)
Definition sendUnsentPendingMessages (c : nat) (domain : string) : M unit :=
  this <- channelAt c ;;
  match _pendingMessagesForDomain this with
  | Some pending =>
      match get pending domain with
      | Own pendingMessagesData =>
          if negb (length (_messageCallbacks this) =? 0)%nat then
            setChannel c
              (with_pendingMessagesForDomain this (Some (delete domain pending))) ;;;
            forEach pendingMessagesData (callDomainMessageCallbacks c domain)
          else ret tt
      | Inherited =>
          if negb (length (_messageCallbacks this) =? 0)%nat then throw TypeError
          else ret tt
      | Undefined => ret tt
      end
  | None => ret tt
  end.

(** [Object.keys(null)], evaluated for the log line, is a [TypeError]. *)
Definition discardUnsentPendingMessages (c : nat) : M unit :=
  this <- channelAt c ;;
  match _pendingMessagesForDomain this with
  | Some _ => setChannel c (with_pendingMessagesForDomain this None)
  | None => throw TypeError
  end.

(** ** class CRDPMultiplexor (lines 57-131) *)

Definition CRDPMultiplexor_send (channel : CRDPChannel) (data : Message)
    : M unit :=
  let message := data in
  data' <- match msg_id message with
           | Some i => ret (with_id message (encodifyChannel (id channel) i))
           | None => throwCriticalError ChannelSentMessageWithoutId
           end ;;
  socket_send data'.

Definition addListenerOfNonMultiplexedEvent (event : string) (cb : Callback)
    : M unit :=
  socket_call (SocketOn event cb).

Definition removeListenerOfNonMultiplexedEvent (event : string)
    (cb : Callback) : M unit :=
  socket_call (SocketRemoveListener event cb).

Definition addChannel (channelName : string) : M CRDPChannel :=
  m <- getMux ;;
  if (10 <=? length (_channels m))%nat then throw ChannelLimitExceeded
  else
    let channel :=
      {| name := channelName; id := Z.of_nat (length (_channels m));
         _messageCallbacks := []; _enabledDomains := ∅;
         _pendingMessagesForDomain := Some ∅ |} in
    putMux {| _channels := _channels m ++ [channel];
              _wrappedLikeSocket := _wrappedLikeSocket m;
              _channelWithNoDebuggerNotification :=
                _channelWithNoDebuggerNotification m |} ;;;
    ret channel.

(** [undefined % 10] is [NaN], and [this._channels[NaN]] is [undefined]. *)
Definition onResponseMessage (message data : Message) : M unit :=
  m <- getMux ;;
  match msg_id message with
  | Some i =>
      match arrayAt (_channels m) (decodifyChannelId i) with
      | Some _ =>
          let message := with_id message (decodifyId i) in
          let data := message in
          callMessageCallbacks (Z.to_nat (decodifyChannelId i)) data
      | None => throwCriticalError UnknownChannelForResponse
      end
  | None => throwCriticalError UnknownChannelForResponse
  end.

(** The test that makes the loop of [onDomainNotification] skip a channel. *)
Definition breaksNotification (noDebugger : option string)
    (channelName method : string) : bool :=
  match noDebugger with
  | Some s =>
      truthy (Some s) && (0 <=? indexOf channelName s)
      && (0 <=? indexOf method "Debugger")
  | None => false
  end.

Definition onDomainNotification (message data : Message) : M unit :=
  match msg_method message with
  | Some method =>
      domain <- extractDomain method ;;
      m <- getMux ;;
      forEach (seq 0 (length (_channels m))) (fun c =>
        channel <- channelAt c ;;
        if breaksNotification (_channelWithNoDebuggerNotification m)
             (name channel) method
        then ret tt
        else callDomainMessageCallbacks c domain data)
  | None => throw TypeError
  end.

Definition onMessage (data : Message) : M unit :=
  let message := data in
  match msg_id message with
  | Some _ => onResponseMessage message data
  | None =>
      if truthy (msg_method message)
      then onDomainNotification message data
      else throwCriticalError MalformedMessage
  end.

(** ** CRDPChannel, continued: the methods that call the multiplexor *)

Definition CRDPChannel_send (c : nat) (messageData : Message) : M unit :=
  let message := messageData in
  let method := msg_method message in
  let isEnableMethod :=
    truthy method && endsWith (default "" method) ".enable" in
  domain <- (if isEnableMethod then
               domain <- extractDomain (default "" method) ;;
               this <- channelAt c ;;
               setChannel c
                 (with_enabledDomains this
                    (<[domain := true]> (_enabledDomains this))) ;;;
               ret (Some domain)
             else ret None) ;;
  this <- channelAt c ;;
  CRDPMultiplexor_send this messageData ;;;
  match domain with
  | Some domain => sendUnsentPendingMessages c domain
  | None => ret tt
  end.

Definition CRDPChannel_on (c : nat) (event : string) (cb : Callback)
    : M unit :=
  this <- channelAt c ;;
  if String.eqb event "message" then
    (if (length (_messageCallbacks this) =? 0)%nat
     then setTimeout c timeToPreserveMessagesInMillis
     else ret tt) ;;;
    setChannel c (with_messageCallbacks this (_messageCallbacks this ++ [cb]))
  else addListenerOfNonMultiplexedEvent event cb.

Definition CRDPChannel_removeListener (c : nat) (event : string)
    (cb : Callback) : M unit :=
  this <- channelAt c ;;
  if String.eqb event "message" then
    let index := array_indexOf (_messageCallbacks this) cb in
    setChannel c
      (with_messageCallbacks this (splice (_messageCallbacks this) index 1))
  else removeListenerOfNonMultiplexedEvent event cb.

(** ** The runtime around the multiplexor *)

(** [new CRDPMultiplexor(socket, channelWithNoDebuggerNotification)] on a
    fresh socket, at time 0. *)
Definition newWorld (noDebugger : option string) : World :=
  {| mux := {| _channels := [];
               _wrappedLikeSocket := {| sent := []; forwarded := [] |};
               _channelWithNoDebuggerNotification := noDebugger |};
     calls := []; now := 0; timeouts := [] |}.

(** The clock advances by [dt] milliseconds; the timers that are due run,
    oldest first, and are forgotten. *)
Definition isDue (t : N) (timer : N * nat) : bool := (fst timer <=? t)%N.

Definition elapse (dt : N) : M unit := fun w =>
  let t := (now w + dt)%N in
  forEach (List.filter (isDue t) (timeouts w))
    (fun timer => uncaught (discardUnsentPendingMessages (snd timer)))
    {| mux := mux w; calls := calls w; now := t;
       timeouts := List.filter (fun timer => negb (isDue t timer)) (timeouts w) |}.

(** What the environment can do to a multiplexor. *)
Inductive Action :=
| DoAddChannel (channelName : string)
| DoSend (c : nat) (messageData : Message)
| DoOn (c : nat) (event : string) (cb : Callback)
| DoRemoveListener (c : nat) (event : string) (cb : Callback)
| DoReceive (data : Message)
| DoElapse (dt : N).

Definition perform (a : Action) : M unit :=
  match a with
  | DoAddChannel channelName => addChannel channelName ;;; ret tt
  | DoSend c messageData => CRDPChannel_send c messageData
  | DoOn c event cb => CRDPChannel_on c event cb
  | DoRemoveListener c event cb => CRDPChannel_removeListener c event cb
  | DoReceive data => onMessage data
  | DoElapse dt => elapse dt
  end.

(** The world after a sequence of actions; an exception is the caller's
    business and leaves the world as the throwing call made it. *)
Fixpoint run (actions : list Action) (w : World) : World :=
  match actions with
  | [] => w
  | a :: actions' => run actions' (snd (perform a w))
  end.

(** ** Worlds used to state effects *)

Definition addCalls (new : list (nat * Callback * Message)) (w : World)
    : World :=
  {| mux := mux w; calls := calls w ++ new; now := now w;
     timeouts := timeouts w |}.

Definition replaceChannel (c : nat) (channel : CRDPChannel) (w : World)
    : World :=
  {| mux := {| _channels := <[c := channel]> (_channels (mux w));
               _wrappedLikeSocket := _wrappedLikeSocket (mux w);
               _channelWithNoDebuggerNotification :=
                 _channelWithNoDebuggerNotification (mux w) |};
     calls := calls w; now := now w; timeouts := timeouts w |}.

Definition addSent (data : Message) (w : World) : World :=
  {| mux := {| _channels := _channels (mux w);
               _wrappedLikeSocket :=
                 {| sent := sent (_wrappedLikeSocket (mux w)) ++ [data];
                    forwarded := forwarded (_wrappedLikeSocket (mux w)) |};
               _channelWithNoDebuggerNotification :=
                 _channelWithNoDebuggerNotification (mux w) |};
     calls := calls w; now := now w; timeouts := timeouts w |}.

(** The invocations made when channel [c] hands [data] to [callbacks]. *)
Definition deliveries (c : nat) (callbacks : list Callback) (data : Message)
    : list (nat * Callback * Message) :=
  map (fun callback => (c, callback, data)) callbacks.

(** The buffer of a channel for one domain. *)
Definition pendingAt (this : CRDPChannel) (domain : string)
    : option (list Message) :=
  match _pendingMessagesForDomain this with
  | Some pending => pending !! domain
  | None => None
  end.

(** A notification as it arrives from the socket. *)
Definition notification (method rest : string) : Message :=
  {| msg_id := None; msg_method := Some method; msg_rest := rest |}.

(** A request as a client writes it to its channel. *)
Definition request (i : Z) (method rest : string) : Message :=
  {| msg_id := Some i; msg_method := Some method; msg_rest := rest |}.

(** The channel that [addChannel] creates as the [k]-th one. *)
Definition freshChannel (channelName : string) (k : nat) : CRDPChannel :=
  {| name := channelName; id := Z.of_nat k; _messageCallbacks := [];
     _enabledDomains := ∅; _pendingMessagesForDomain := Some ∅ |}.

Definition appendChannel (channel : CRDPChannel) (w : World) : World :=
  {| mux := {| _channels := _channels (mux w) ++ [channel];
               _wrappedLikeSocket := _wrappedLikeSocket (mux w);
               _channelWithNoDebuggerNotification :=
                 _channelWithNoDebuggerNotification (mux w) |};
     calls := calls w; now := now w; timeouts := timeouts w |}.

(** [pat] occurs in [s]. *)
Definition contains (s pat : string) : Prop :=
  exists before after, s = before ++ pat ++ after.

(** What [callDomainMessageCallbacks] does to the channel [this] stored at
    index [c]: the channel afterwards and the invocations made. *)
Definition gate (c : nat) (this : CRDPChannel) (domain : string)
    (data : Message) : CRDPChannel * list (nat * Callback * Message) :=
  if isEnabled this domain then (this, deliveries c (_messageCallbacks this) data)
  else match _pendingMessagesForDomain this with
       | Some pending =>
           (with_pendingMessagesForDomain this
              (Some (<[domain := (default [] (pending !! domain) ++ [data])%list]>
                       pending)), [])
       | None => (this, [])
       end.

(** One turn of the loop of [onDomainNotification], for the channel [this]
    stored at index [c]. *)
Definition fanOutChannel (noDebugger : option string) (method domain : string)
    (data : Message) (c : nat) (this : CRDPChannel)
    : CRDPChannel * list (nat * Callback * Message) :=
  if breaksNotification noDebugger (name this) method then (this, [])
  else gate c this domain data.

(** The world after the whole loop. *)
Definition fanOut (method domain : string) (data : Message) (w : World)
    : World :=
  let turn := fanOutChannel (_channelWithNoDebuggerNotification (mux w))
                method domain data in
  {| mux := {| _channels := imap (fun c this => fst (turn c this))
                              (_channels (mux w));
               _wrappedLikeSocket := _wrappedLikeSocket (mux w);
               _channelWithNoDebuggerNotification :=
                 _channelWithNoDebuggerNotification (mux w) |};
     calls := calls w ++
              concat (imap (fun c this => snd (turn c this)) (_channels (mux w)));
     now := now w; timeouts := timeouts w |}.

(** ** Orders and invariants on worlds *)

(** What never goes back in the life of a channel: its name and id, the
    discarding of its buffers, an enabled domain, and the absence of a
    buffer for a domain that is enabled. *)
Record chan_le (this that : CRDPChannel) : Prop := mk_chan_le {
  le_name : name that = name this;
  le_id : id that = id this;
  le_discarded :
    _pendingMessagesForDomain this = None ->
    _pendingMessagesForDomain that = None;
  le_enabled :
    forall domain, isEnabled this domain = true -> isEnabled that domain = true;
  le_flushed :
    forall domain, isEnabled this domain = true ->
                   pendingAt this domain = None -> pendingAt that domain = None
}.

Definition world_le (w w' : World) : Prop :=
  forall c this, _channels (mux w) !! c = Some this ->
  exists that, _channels (mux w') !! c = Some that /\ chan_le this that.

(** A computation under which channels only move forward. *)
Definition grows {A} (m : M A) : Prop := forall w, world_le w (snd (m w)).

(** A computation that leaves the clock alone and cancels no timer. *)
Definition steady {A} (m : M A) : Prop :=
  forall w, now (snd (m w)) = now w /\
            exists more, timeouts (snd (m w)) = (timeouts w ++ more)%list.

(** A computation that calls no subscriber. *)
Definition silent {A} (m : M A) : Prop :=
  forall w, calls (snd (m w)) = calls w.

(** The buffers of channel [c] have been discarded. *)
Definition tombstoned (c : nat) (w : World) : Prop :=
  exists this, _channels (mux w) !! c = Some this /\
               _pendingMessagesForDomain this = None.

(** Channel [c] has lost its buffers, or will when the clock reaches [due]. *)
Definition armed (due : N) (c : nat) (w : World) : Prop :=
  tombstoned c w \/
  (is_Some (_channels (mux w) !! c) /\ (due, c) ∈ timeouts w /\ (now w < due)%N).

(** ** Where the argument of a callback comes from *)

(** [data] sits in a buffer of the channel. *)
Definition buffered (this : CRDPChannel) (data : Message) : Prop :=
  exists domain l, pendingAt this domain = Some l /\ data ∈ l.

Definition bufferedAt (w : World) (c : nat) (data : Message) : Prop :=
  exists this, _channels (mux w) !! c = Some this /\ buffered this data.

(** What an action brings in from the socket: the raw message, and for a
    response the message with its id decoded. *)
Definition inbound (a : Action) : list Message :=
  match a with
  | DoReceive data =>
      data :: match msg_id data with
              | Some i => [with_id data (decodifyId i)]
              | None => []
              end
  | _ => []
  end.

Definition arriving (actions : list Action) : list Message :=
  flat_map inbound actions.

(** A computation that keeps buffers and callback arguments within the
    payloads [allowed] for each channel. *)
Definition within (allowed : nat -> Message -> Prop) {A} (m : M A) : Prop :=
  forall w,
    (forall c d, bufferedAt w c d -> allowed c d) ->
    (forall c d, bufferedAt (snd (m w)) c d -> allowed c d) /\
    exists new, calls (snd (m w)) = (calls w ++ new)%list /\
                forall c cb d, (c, cb, d) ∈ new -> allowed c d.

(** ** Sample worlds *)

(** A multiplexor with the channels "debugger" and "tools", Debugger
    notifications withheld from "tools". *)
Definition twoChannels : World :=
  run [DoAddChannel "debugger"; DoAddChannel "tools"] (newWorld (Some "tools")).

(** The same, after two subscribers have registered on "debugger". *)
Definition twoSubscribers : World :=
  run [DoOn 0 "message" 1%nat; DoOn 0 "message" 2%nat] twoChannels.


(** Two notifications of the Network domain arrive before any channel has
    enabled it; "debugger" has two subscribers, "tools" has none. *)
Definition buffering : World :=
  run [DoAddChannel "debugger"; DoAddChannel "tools";
       DoOn 0 "message" 1%nat; DoOn 0 "message" 2%nat;
       DoReceive (notification "Network.requestWillBeSent" "1");
       DoReceive (notification "Network.requestWillBeSent" "2")]
    (newWorld (Some "tools")).

(** The buffers of both channels in [buffering], and the channel
    "debugger" there. *)
Definition networkBacklog : gmap string (list Message) :=
  {[ "Network" := [notification "Network.requestWillBeSent" "1";
                   notification "Network.requestWillBeSent" "2"] ]}.

Definition bufferingDebugger : CRDPChannel :=
  {| name := "debugger"; id := 0; _messageCallbacks := [1; 2]%nat;
     _enabledDomains := ∅;
     _pendingMessagesForDomain := Some networkBacklog |}.

Definition sameLength (w w' : World) : Prop :=
  length (_channels (mux w')) = length (_channels (mux w)).

(** ** chromeConnection.ts: setting up the channels (lines 113-126)

    [attachToWebsocketUrl] creates the multiplexor when at least one extra
    port is given, adds one channel per extra port and then the channel
    "debugger".  A port is a non-negative integer (below 10^21, where
    JavaScript prints a number in plain decimal notation).  What the
    constructors of [WebSocketToLikeSocketProxy] and [Client] do with the
    channel they are given is outside this repository: [startProxy] and
    [newClient] stand for it. *)

(** [n.toString()], also the text of a number in a template literal. *)
Definition toString (n : N) : string := NilZero.string_of_uint (N.to_uint n).

(** [channelWithNoDebuggerNotification ?
     channelWithNoDebuggerNotification.toString() : ''] *)
Definition noDebuggerSetting (channelWithNoDebuggerNotification : option N)
    : string :=
  match channelWithNoDebuggerNotification with
  | Some n => if (n =? 0)%N then "" else toString n
  | None => ""
  end.

(** [`extraCRDPEndpoint ${extraCRDPChannelPort}`] *)
Definition extraChannelName (extraCRDPChannelPort : N) : string :=
  "extraCRDPEndpoint " ++ toString extraCRDPChannelPort.

(** The multiplexed branch of [attachToWebsocketUrl], run on the multiplexor
    just constructed; [None] when no extra port is given and the client
    talks to the socket directly. *)
Definition attachToWebsocketUrl
    (startProxy : N -> CRDPChannel -> M unit)
    (newClient : CRDPChannel -> M unit)
    (extraCRDPChannelPorts : option (list N))
    (channelWithNoDebuggerNotification : option N)
    : option (Outcome unit * World) :=
  match extraCRDPChannelPorts with
  | Some (port :: ports) =>
      Some ((forEach (port :: ports) (fun extraCRDPChannelPort =>
               channel <- addChannel (extraChannelName extraCRDPChannelPort) ;;
               startProxy extraCRDPChannelPort channel) ;;;
             channel <- addChannel "debugger" ;;
             newClient channel)
              (newWorld (Some (noDebuggerSetting
                                 channelWithNoDebuggerNotification))))
  | _ => None
  end.

(** An external constructor that returns normally and neither adds a
    channel nor moves one backwards. *)
Definition wellBehaved (m : M unit) : Prop :=
  forall w, fst (m w) = Returned tt /\
            sameLength w (snd (m w)) /\ world_le w (snd (m w)).

Definition isDigit (a : ascii) : bool :=
  (48 <=? nat_of_ascii a)%nat && (nat_of_ascii a <=? 57)%nat.

Fixpoint allDigits (s : string) : bool :=
  match s with
  | EmptyString => true
  | String a s' => isDigit a && allDigits s'
  end.

Fixpoint noDigits (s : string) : bool :=
  match s with
  | EmptyString => true
  | String a s' => negb (isDigit a) && noDigits s'
  end.

(** ** Further vocabulary *)

(** The character [a] occurs in [s]. *)
Fixpoint occurs (a : ascii) (s : string) : bool :=
  match s with
  | EmptyString => false
  | String b s' => Ascii.eqb b a || occurs a s'
  end.

(** A computation all of whose runs are related by [R]. *)
Definition respects (R : World -> World -> Prop) {A} (m : M A) : Prop :=
  forall w, R w (snd (m w)).

(** The channel list is within capacity and every channel sits at the index
    that is its id. *)
Definition wellFormed (w : World) : Prop :=
  (length (_channels (mux w)) <= 10)%nat /\
  forall c this, _channels (mux w) !! c = Some this -> id this = Z.of_nat c.

(** The world at the moment [elapse] has moved the clock and taken the due
    timers off the list, before their callbacks run. *)
Definition tick (dt : N) (w : World) : World :=
  {| mux := mux w; calls := calls w; now := (now w + dt)%N;
     timeouts :=
       List.filter (fun timer => negb (isDue (now w + dt) timer)) (timeouts w) |}.

(** From [w] to [w'] the socket has only been written messages that carry
    an id. *)
Definition writesIds (w w' : World) : Prop :=
  exists more,
    sent (_wrappedLikeSocket (mux w')) =
      (sent (_wrappedLikeSocket (mux w)) ++ more)%list /\
    forall data, data ∈ more -> is_Some (msg_id data).

(** From [w] to [w'] every channel has kept its enabled domains. *)
Definition sameEnabled (w w' : World) : Prop :=
  forall c this, _channels (mux w) !! c = Some this ->
  exists that, _channels (mux w') !! c = Some that /\
               _enabledDomains that = _enabledDomains this.

(** [data] is a notification of [domain] that the fan-out hands to a
    channel named [channelName] under the suppression setting
    [noDebugger]. *)
Definition handedOver (noDebugger : option string) (channelName domain : string)
    (data : Message) : Prop :=
  msg_id data = None /\
  exists method,
    msg_method data = Some method /\
    (forall w, extractDomain method w = (Returned domain, w)) /\
    breaksNotification noDebugger channelName method = false.

(** From [w] to [w'] the channel at index [c] has moved along [rel]. *)
Definition lifted (c : nat) (rel : CRDPChannel -> CRDPChannel -> Prop)
    (w w' : World) : Prop :=
  forall this, _channels (mux w) !! c = Some this ->
  exists that, _channels (mux w') !! c = Some that /\ rel this that.

(** No timer is set for channel [c], and its buffers, if the channel
    exists, have not been discarded. *)
Definition neverArmed (c : nat) (w : World) : Prop :=
  (forall due, (due, c) ∉ timeouts w) /\
  forall this, _channels (mux w) !! c = Some this ->
               _pendingMessagesForDomain this <> None.

(** Every own property of [_enabledDomains] is [true]: the value the code
    writes there. *)
Definition onlyTrue (this : CRDPChannel) : Prop :=
  forall domain b, _enabledDomains this !! domain = Some b -> b = true.

(** * Properties *)

(** ** Worlds are records: eta and the basic updates *)

Lemma World_eta w :
  {| mux := mux w; calls := calls w; now := now w; timeouts := timeouts w |} = w.
Proof. by destruct w. Qed.

Lemma CRDPMultiplexor_eta m :
  {| _channels := _channels m; _wrappedLikeSocket := _wrappedLikeSocket m;
     _channelWithNoDebuggerNotification :=
       _channelWithNoDebuggerNotification m |} = m.
Proof. by destruct m. Qed.

Lemma bind_Returned {A B} (m : M A) (k : A -> M B) w a w' :
  m w = (Returned a, w') -> bind m k w = k a w'.
Proof. unfold bind. by intros ->. Qed.

Lemma bind_Threw {A B} (m : M A) (k : A -> M B) w e w' :
  m w = (Threw e, w') -> bind m k w = (Threw e, w').
Proof. unfold bind. by intros ->. Qed.

Lemma addCalls_nil w : addCalls [] w = w.
Proof. unfold addCalls. rewrite app_nil_r. apply World_eta. Qed.

Lemma addCalls_addCalls l1 l2 w :
  addCalls l2 (addCalls l1 w) = addCalls (l1 ++ l2) w.
Proof. unfold addCalls; simpl. by rewrite app_assoc. Qed.

Lemma replaceChannel_id c this w :
  _channels (mux w) !! c = Some this -> replaceChannel c this w = w.
Proof.
  intros H. unfold replaceChannel. rewrite list_insert_id by done.
  rewrite CRDPMultiplexor_eta. apply World_eta.
Qed.

Lemma channelAt_Some w c this :
  _channels (mux w) !! c = Some this -> channelAt c w = (Returned this, w).
Proof. intros H. unfold channelAt, bind, getMux. by rewrite H. Qed.

Lemma channelAt_None w c :
  _channels (mux w) !! c = None -> channelAt c w = (Threw TypeError, w).
Proof. intros H. unfold channelAt, bind, getMux. by rewrite H. Qed.

Lemma setChannel_eq c channel w :
  setChannel c channel w = (Returned tt, replaceChannel c channel w).
Proof. reflexivity. Qed.

Lemma replaceChannel_lookup c channel w :
  (c < length (_channels (mux w)))%nat ->
  _channels (mux (replaceChannel c channel w)) !! c = Some channel.
Proof. intros H. simpl. by apply list_lookup_insert_eq. Qed.

Lemma replaceChannel_twice c ch1 ch2 w :
  replaceChannel c ch2 (replaceChannel c ch1 w) = replaceChannel c ch2 w.
Proof. unfold replaceChannel; simpl. by rewrite list_insert_insert_eq. Qed.

Lemma forEach_invoke c data callbacks w :
  forEach callbacks (invoke c data) w =
  (Returned tt, addCalls (deliveries c callbacks data) w).
Proof.
  revert w. induction callbacks as [|cb l IH]; intros w; simpl.
  - unfold ret. by rewrite addCalls_nil.
  - unfold bind at 1. simpl. rewrite IH. f_equal.
    unfold addCalls; simpl. by rewrite <- app_assoc.
Qed.

Lemma callMessageCallbacks_eq w c this data :
  _channels (mux w) !! c = Some this ->
  callMessageCallbacks c data w =
  (Returned tt, addCalls (deliveries c (_messageCallbacks this) data) w).
Proof.
  intros H. unfold callMessageCallbacks, bind.
  rewrite (channelAt_Some _ _ _ H). apply forEach_invoke.
Qed.

Lemma storeMessageForLater_eq w c this pending domain data :
  _channels (mux w) !! c = Some this ->
  _pendingMessagesForDomain this = Some pending ->
  storeMessageForLater c domain data w =
  (Returned tt,
   replaceChannel c
     (with_pendingMessagesForDomain this
        (Some (<[domain := (default [] (pending !! domain) ++ [data])%list]>
                 pending))) w).
Proof.
  intros H Hp. unfold storeMessageForLater, bind.
  rewrite (channelAt_Some _ _ _ H), Hp, setChannel_eq.
  by destruct (pending !! domain).
Qed.

(** ** Reading the dictionaries *)

Lemma get_insert {V} (dictionary : gmap string V) key value :
  get (<[key := value]> dictionary) key = Own value.
Proof. unfold get. by rewrite lookup_insert_eq. Qed.

Lemma get_insert_ne {V} (dictionary : gmap string V) key key' value :
  key <> key' -> get (<[key := value]> dictionary) key' = get dictionary key'.
Proof. intros H. unfold get. by rewrite lookup_insert_ne. Qed.

Lemma get_own {V} (dictionary : gmap string V) key value :
  dictionary !! key = Some value -> get dictionary key = Own value.
Proof. unfold get. by intros ->. Qed.

Lemma get_Own_inv {V} (dictionary : gmap string V) key value :
  get dictionary key = Own value -> dictionary !! key = Some value.
Proof.
  unfold get. destruct (dictionary !! key); [by intros [= ->]|].
  by destruct (inherited key).
Qed.

Lemma get_absent {V} (dictionary : gmap string V) key :
  dictionary !! key = None ->
  get dictionary key = if inherited key then Inherited else Undefined.
Proof. unfold get. by intros ->. Qed.

Lemma isEnabled_absent this domain :
  _enabledDomains this !! domain = None ->
  isEnabled this domain = inherited domain.
Proof.
  intros H. unfold isEnabled. rewrite (get_absent _ _ H).
  by destruct (inherited domain).
Qed.

Lemma isEnabled_enable this domain :
  isEnabled
    (with_enabledDomains this (<[domain := true]> (_enabledDomains this)))
    domain = true.
Proof. unfold isEnabled. simpl. by rewrite get_insert. Qed.

Lemma isEnabled_enable_ne this domain domain' :
  domain <> domain' ->
  isEnabled
    (with_enabledDomains this (<[domain := true]> (_enabledDomains this)))
    domain' = isEnabled this domain'.
Proof. intros H. unfold isEnabled. simpl. by rewrite get_insert_ne. Qed.

(** ** Numbers: where the arithmetic is exact *)

Lemma round64_safe z : Z.abs z <= MAX_SAFE_INTEGER -> round64 z = z.
Proof. intros H. unfold round64. by rewrite (proj2 (Z.leb_le _ _)). Qed.

Lemma encodifyChannel_safe c i :
  Z.abs i * 10 + Z.abs c <= MAX_SAFE_INTEGER ->
  encodifyChannel c i = i * 10 + c.
Proof.
  intros H. unfold encodifyChannel. rewrite (round64_safe (i * 10)) by lia.
  apply round64_safe. lia.
Qed.

(** A significand m within half a unit of e * p / 10, for a scale p of at
    least 8, has the floor of e / 10. *)
Lemma floor_of_rounded_quotient e p m :
  0 <= e -> 8 <= p ->
  e * p / 10 <= m ->
  m * 10 <= e * p + 5 ->
  m / p = e / 10.
Proof.
  intros He Hp Hlow Hup.
  pose proof (Z.div_mod e 10 ltac:(lia)) as Hdm.
  pose proof (Z.mod_pos_bound e 10 ltac:(lia)) as Hr.
  pose proof (Z.div_mod (e * p) 10 ltac:(lia)) as Hdm'.
  pose proof (Z.mod_pos_bound (e * p) 10 ltac:(lia)) as Hr'.
  symmetry. apply (Z.div_unique m p (e / 10) (m - p * (e / 10))); [|lia].
  left. nia.
Qed.

Lemma decodifyId_safe e :
  0 <= e <= MAX_SAFE_INTEGER -> decodifyId e = e / 10.
Proof.
  intros [He Hmax]. unfold decodifyId, divide.
  rewrite Z.abs_eq by lia.
  destruct (Z.eqb_spec e 0) as [->|Hne]; [reflexivity|].
  change (Z.log2 10) with 3.
  assert (Hlog : 0 <= Z.log2 e < 53).
  { split; [apply Z.log2_nonneg|]. apply Z.log2_lt_pow2; [lia|].
    unfold MAX_SAFE_INTEGER in Hmax. change (2 ^ 53) with 9007199254740992. lia. }
  set (k0 := 52 - (Z.log2 e - 3)).
  set (k := if e * 2 ^ Z.max k0 0 <? 10 * 2 ^ Z.max (- k0) 0 * 2 ^ 52
            then k0 + 1 else k0).
  assert (Hk : 3 <= k) by (unfold k, k0; destruct (_ <? _); lia).
  rewrite (Z.max_l k 0), (Z.max_r (- k) 0) by lia.
  change (2 ^ 0) with 1. rewrite Z.mul_1_r.
  rewrite Z.sgn_pos by lia. rewrite Z.mul_1_l.
  unfold Math_floor. rewrite (proj2 (Z.leb_le 0 k)) by lia.
  assert (Hp : 8 <= 2 ^ k).
  { change 8 with (2 ^ 3). apply Z.pow_le_mono_r; lia. }
  pose proof (Z.div_mod (e * 2 ^ k) 10 ltac:(lia)) as Hdm.
  pose proof (Z.mod_pos_bound (e * 2 ^ k) 10 ltac:(lia)) as Hr.
  apply floor_of_rounded_quotient; [lia|done|..].
  - destruct (_ || _); lia.
  - destruct ((10 <? 2 * ((e * 2 ^ k) mod 10))
              || ((2 * ((e * 2 ^ k) mod 10) =? 10)
                  && Z.odd (e * 2 ^ k / 10))) eqn:Hround; [|lia].
    apply orb_true_iff in Hround as [Hlt|Heq].
    + apply Z.ltb_lt in Hlt. lia.
    + apply andb_true_iff in Heq as [Heq _]. apply Z.eqb_eq in Heq. lia.
Qed.

Lemma decodify_encoded c i :
  0 <= c <= 9 -> 0 <= i ->
  Z.rem (i * 10 + c) 10 = c /\ (i * 10 + c) / 10 = i.
Proof.
  intros Hc Hi. split.
  - rewrite Z.rem_mod_nonneg by lia.
    rewrite Z.add_comm, Z.mod_add by lia. apply Z.mod_small. lia.
  - rewrite Z.add_comm, Z.div_add by lia. rewrite Z.div_small by lia. lia.
Qed.

(** ** C1 *)

(** C1 as the code has it: for a channel id c in [0,9] and a non-negative
    request id i whose encoding i*10 + c does not exceed
    [Number.MAX_SAFE_INTEGER], the encoded id is i*10 + c and decoding it
    gives back both components. *)
Theorem encodify_roundtrip (c i : Z) :
  0 <= c <= 9 -> 0 <= i -> i * 10 + c <= MAX_SAFE_INTEGER ->
  encodifyChannel c i = i * 10 + c /\
  decodifyChannelId (encodifyChannel c i) = c /\
  decodifyId (encodifyChannel c i) = i.
Proof.
  intros Hc Hi Hmax. rewrite encodifyChannel_safe by lia.
  destruct (decodify_encoded c i Hc Hi) as [Hrem Hdiv].
  split; [done|]. split; [done|].
  rewrite decodifyId_safe by lia. done.
Qed.

Lemma encodify_roundtrip_witness :
  encodifyChannel 1 5 = 51 /\
  decodifyChannelId (encodifyChannel 1 5) = 1 /\
  decodifyId (encodifyChannel 1 5) = 5.
Proof. apply (encodify_roundtrip 1 5); unfold MAX_SAFE_INTEGER; lia. Defined.

(** C1 as stated fails: for the channel id 9 and the request id
    900719925474100 the sum 9007199254741009 is not a number; the encoded
    id is the neighbour 9007199254741008, which decodes to channel 8. *)
Lemma encodify_roundtrip_beyond_safe_integers :
  let c := 9 in
  let i := 900719925474100 in
  0 <= c <= 9 /\ 0 <= i /\
  i * 10 + c = 9007199254741009 /\
  encodifyChannel c i = 9007199254741008 /\
  decodifyChannelId (encodifyChannel c i) = 8 /\
  decodifyChannelId (encodifyChannel c i) <> c /\
  decodifyId (encodifyChannel c i) = i.
Proof. vm_compute. repeat split; try reflexivity; discriminate. Qed.

(** ** C5: the domain gate of a channel *)

(** C5 as the code has it: the gate of [callDomainMessageCallbacks] reads
    [this._enabledDomains[domain]] from a plain object.  For a domain D
    that is the name of a property of [Object.prototype] the value read is
    truthy although the channel has never enabled D: the notification is
    delivered to every subscriber, in registration order, and is neither
    buffered nor dropped.  For every other D the notification is delivered
    to every subscriber when D is enabled; is appended to the buffer of D
    (created if absent), with nothing delivered, when D is not enabled and
    the buffers have not been discarded; and is dropped, the world
    unchanged, when D is not enabled and the buffers have been discarded. *)
Theorem callDomainMessageCallbacks_gate w c this domain data :
  _channels (mux w) !! c = Some this ->
  (inherited domain = true ->
   _enabledDomains this !! domain = None ->
   isEnabled this domain = true /\
   callDomainMessageCallbacks c domain data w =
   (Returned tt, addCalls (deliveries c (_messageCallbacks this) data) w)) /\
  (inherited domain = false ->
   (isEnabled this domain = true ->
    callDomainMessageCallbacks c domain data w =
    (Returned tt, addCalls (deliveries c (_messageCallbacks this) data) w)) /\
   (isEnabled this domain = false ->
    forall pending, _pendingMessagesForDomain this = Some pending ->
    callDomainMessageCallbacks c domain data w =
    (Returned tt,
     replaceChannel c
       (with_pendingMessagesForDomain this
          (Some (<[domain := (default [] (pending !! domain) ++ [data])%list]>
                   pending))) w)) /\
   (isEnabled this domain = false ->
    _pendingMessagesForDomain this = None ->
    callDomainMessageCallbacks c domain data w = (Returned tt, w))).
Proof.
  intros H. unfold callDomainMessageCallbacks, bind.
  rewrite (channelAt_Some _ _ _ H). split.
  - intros Hin Hnone.
    assert (He : isEnabled this domain = true)
      by (by rewrite (isEnabled_absent _ _ Hnone)).
    split; [done|]. rewrite He. by apply callMessageCallbacks_eq.
  - intros _. repeat split.
    + intros ->. by apply callMessageCallbacks_eq.
    + intros -> pending Hp. rewrite Hp. by apply storeMessageForLater_eq.
    + intros -> ->. reflexivity.
Qed.

Lemma callDomainMessageCallbacks_gate_witness :
  let data := notification "constructor.prototype" "" in
  _enabledDomains <$> _channels (mux twoSubscribers) !! 0%nat = Some ∅ /\
  callDomainMessageCallbacks 0 "constructor" data twoSubscribers =
  (Returned tt, addCalls [(0%nat, 1%nat, data); (0%nat, 2%nat, data)]
                  twoSubscribers).
Proof.
  split; [reflexivity|].
  apply (proj1 (callDomainMessageCallbacks_gate twoSubscribers 0
                  (with_messageCallbacks (freshChannel "debugger" 0)
                     [1; 2]%nat)
                  "constructor" (notification "constructor.prototype" "")
                  eq_refl));
    reflexivity.
Defined.

(** ** C7: the multiplexor's send *)




(** ** C10: an enable request without an id *)

Lemma extractDomain_pure method w :
  extractDomain method w =
  (fst (extractDomain method (newWorld None)), w).
Proof.
  unfold extractDomain. by destruct (length (split "." method) =? 2)%nat.
Qed.

Lemma extractDomain_any method domain w w' :
  extractDomain method w = (Returned domain, w) ->
  extractDomain method w' = (Returned domain, w').
Proof.
  rewrite (extractDomain_pure method w), (extractDomain_pure method w').
  intros [= ->]. reflexivity.
Qed.

Lemma endsWith_truthy method suffix :
  suffix <> "" -> endsWith method suffix = true -> truthy (Some method) = true.
Proof.
  intros Hs H. destruct method; [|reflexivity].
  destruct suffix; [done|]. discriminate H.
Qed.



(** ** C9: removing a subscriber *)

Lemma array_indexOf_absent l cb : cb ∉ l -> array_indexOf l cb = -1.
Proof.
  induction l as [|y l IH]; intros H; simpl; [reflexivity|].
  apply not_elem_of_cons in H as [Hne Hl].
  destruct (Nat.eqb_spec y cb); [congruence|].
  rewrite (IH Hl). reflexivity.
Qed.

Lemma array_indexOf_present l cb :
  cb ∈ l ->
  exists k, array_indexOf l cb = Z.of_nat k /\ l !! k = Some cb /\
            forall j, (j < k)%nat -> l !! j <> Some cb.
Proof.
  induction l as [|y l IH]; intros H; [by apply elem_of_nil in H|].
  simpl. destruct (Nat.eqb_spec y cb) as [->|Hne].
  - exists 0%nat. split; [done|]. split; [done|]. intros j Hj. lia.
  - apply elem_of_cons in H as [->|H]; [done|].
    destruct (IH H) as (k & -> & Hk & Hfirst).
    exists (S k). rewrite (proj2 (Z.ltb_ge _ _)) by lia.
    cbv zeta iota. split; [lia|]. split; [done|].
    intros [|j] Hj; simpl; [congruence|]. apply Hfirst. lia.
Qed.

Lemma splice_minus_one {A} (l : list A) : splice l (-1) 1 = removelast l.
Proof.
  unfold splice. change (-1 <? 0) with true. cbv iota zeta.
  rewrite removelast_firstn_len.
  destruct l as [|x l]; [reflexivity|].
  replace (Z.to_nat (Z.max (Z.of_nat (length (x :: l)) + -1) 0))
    with (Nat.pred (length (x :: l))) by (simpl length; lia).
  rewrite drop_ge by (simpl; lia). by rewrite app_nil_r.
Qed.

Lemma splice_at {A} (l : list A) (k : nat) :
  (k < length l)%nat -> splice l (Z.of_nat k) 1 = delete k l.
Proof.
  intros H. unfold splice.
  rewrite (proj2 (Z.ltb_ge _ _)) by lia.
  replace (Z.to_nat (Z.min (Z.of_nat k) (Z.of_nat (length l)))) with k by lia.
  rewrite delete_take_drop. do 2 f_equal. lia.
Qed.

Lemma CRDPChannel_removeListener_eq w c this cb :
  _channels (mux w) !! c = Some this ->
  CRDPChannel_removeListener c "message" cb w =
  (Returned tt,
   replaceChannel c
     (with_messageCallbacks this
        (splice (_messageCallbacks this)
           (array_indexOf (_messageCallbacks this) cb) 1)) w).
Proof.
  intros H. unfold CRDPChannel_removeListener.
  by rewrite (bind_Returned _ _ _ this w) by (by apply channelAt_Some).
Qed.

(** A registered callback is removed at its first occurrence. *)
Lemma removeListener_registered w c this cb :
  _channels (mux w) !! c = Some this ->
  cb ∈ _messageCallbacks this ->
  exists k,
    _messageCallbacks this !! k = Some cb /\
    (forall j, (j < k)%nat -> _messageCallbacks this !! j <> Some cb) /\
    CRDPChannel_removeListener c "message" cb w =
    (Returned tt,
     replaceChannel c
       (with_messageCallbacks this (delete k (_messageCallbacks this))) w).
Proof.
  intros H Hin. destruct (array_indexOf_present _ _ Hin) as (k & Hk & Hat & Hfirst).
  exists k. repeat split; [done..|].
  rewrite (CRDPChannel_removeListener_eq _ _ _ _ H), Hk.
  rewrite splice_at by (eapply lookup_lt_Some; eassumption). reflexivity.
Qed.

(** C9 as the code has it: [removeListener("message", cb)] with a callback
    that is not registered takes the last subscriber off the list, since
    [indexOf] answers -1 and [splice(-1, 1)] counts from the end. *)
Theorem removeListener_unregistered_removes_last w c this cb :
  _channels (mux w) !! c = Some this ->
  cb ∉ _messageCallbacks this ->
  CRDPChannel_removeListener c "message" cb w =
  (Returned tt,
   replaceChannel c
     (with_messageCallbacks this (removelast (_messageCallbacks this))) w).
Proof.
  intros H Hnot. rewrite (CRDPChannel_removeListener_eq _ _ _ _ H).
  by rewrite array_indexOf_absent, splice_minus_one.
Qed.

Lemma removeListener_unregistered_removes_last_witness :
  _messageCallbacks <$> _channels (mux twoSubscribers) !! 0%nat = Some [1; 2]%nat /\
  _messageCallbacks <$>
    _channels
      (mux (snd (CRDPChannel_removeListener 0 "message" 3%nat twoSubscribers)))
      !! 0%nat = Some [1]%nat.
Proof.
  split; [reflexivity|].
  rewrite (removeListener_unregistered_removes_last twoSubscribers 0
             (with_messageCallbacks (freshChannel "debugger" 0) [1; 2]%nat)
             3%nat).
  - reflexivity.
  - reflexivity.
  - simpl. intros Hin.
    apply elem_of_cons in Hin as [Hin|Hin]; [discriminate|].
    apply elem_of_cons in Hin as [Hin|Hin]; [discriminate|].
    by apply elem_of_nil in Hin.
Defined.

(** ** C6: the ten-channel limit *)

Lemma addChannel_room channelName w :
  (length (_channels (mux w)) < 10)%nat ->
  addChannel channelName w =
  (Returned (freshChannel channelName (length (_channels (mux w)))),
   appendChannel (freshChannel channelName (length (_channels (mux w)))) w).
Proof.
  intros H. unfold addChannel, bind, getMux.
  destruct (Nat.leb_spec 10 (length (_channels (mux w)))); [lia|].
  reflexivity.
Qed.

Lemma addChannel_full channelName w :
  (10 <= length (_channels (mux w)))%nat ->
  addChannel channelName w = (Threw ChannelLimitExceeded, w).
Proof.
  intros H. unfold addChannel, bind, getMux.
  destruct (Nat.leb_spec 10 (length (_channels (mux w)))); [|lia].
  reflexivity.
Qed.

Lemma run_addChannels_length names w :
  (length (_channels (mux w)) + length names <= 10)%nat ->
  length (_channels (mux (run (DoAddChannel <$> names) w))) =
  (length (_channels (mux w)) + length names)%nat.
Proof.
  revert w. induction names as [|nm names IH]; intros w H; simpl in *; [lia|].
  unfold bind at 1. rewrite addChannel_room by lia. simpl snd.
  rewrite IH; simpl; rewrite length_app; simpl; lia.
Qed.

(** C6: starting from a multiplexor without channels, each of the first ten
    calls of [addChannel] returns a channel whose id is the number of
    channels at that moment and appends it to the channel list, nothing
    else changing; the eleventh call throws the only-10-channels error and
    leaves the world as it was. *)
Theorem addChannel_ten_then_limit noDebugger (names : list string) extra :
  length names = 10%nat ->
  (forall k channelName, names !! k = Some channelName ->
     let w := run (DoAddChannel <$> take k names) (newWorld noDebugger) in
     length (_channels (mux w)) = k /\
     addChannel channelName w =
     (Returned (freshChannel channelName k),
      appendChannel (freshChannel channelName k) w)) /\
  (let w := run (DoAddChannel <$> names) (newWorld noDebugger) in
   length (_channels (mux w)) = 10%nat /\
   addChannel extra w = (Threw ChannelLimitExceeded, w)).
Proof.
  intros Hlen. split.
  - intros k nm Hk w.
    assert (Hlt : (k < 10)%nat)
      by (rewrite <- Hlen; eapply lookup_lt_Some; eassumption).
    assert (Hw : length (_channels (mux w)) = k).
    { unfold w. rewrite run_addChannels_length; simpl; rewrite length_take; lia. }
    split; [done|]. rewrite addChannel_room by lia. by rewrite Hw.
  - intros w.
    assert (Hw : length (_channels (mux w)) = 10%nat).
    { unfold w. rewrite run_addChannels_length; simpl; lia. }
    split; [done|]. apply addChannel_full. lia.
Qed.

Lemma addChannel_ten_then_limit_witness :
  let names := ["c0"; "c1"; "c2"; "c3"; "c4"; "c5"; "c6"; "c7"; "c8"; "c9"] in
  let w := run (DoAddChannel <$> names) (newWorld None) in
  length (_channels (mux w)) = 10%nat /\
  addChannel "c10" w = (Threw ChannelLimitExceeded, w).
Proof.
  exact (proj2 (addChannel_ten_then_limit None
           ["c0"; "c1"; "c2"; "c3"; "c4"; "c5"; "c6"; "c7"; "c8"; "c9"]
           "c10" eq_refl)).
Defined.

(** ** C4: routing a response *)

(** C4 as the code has it: an inbound message with id e is handed, its id
    rewritten to [decodifyId e], to the subscribers of the channel at index
    [decodifyChannelId e] and to nobody else, whatever domains that channel
    has enabled; when there is no channel at that index [onMessage] throws
    the unknown-channel error.  For an e from 0 to
    [Number.MAX_SAFE_INTEGER] the index is e mod 10 and the rewritten id is
    e div 10.  For a negative e that is not a multiple of 10 the index is
    negative and no channel is found. *)
Theorem onMessage_response w data e :
  msg_id data = Some e ->
  (forall channel,
     arrayAt (_channels (mux w)) (decodifyChannelId e) = Some channel ->
     onMessage data w =
     (Returned tt,
      addCalls
        (deliveries (Z.to_nat (decodifyChannelId e))
           (_messageCallbacks channel) (with_id data (decodifyId e))) w)) /\
  (arrayAt (_channels (mux w)) (decodifyChannelId e) = None ->
   onMessage data w = (Threw UnknownChannelForResponse, w)) /\
  (0 <= e <= MAX_SAFE_INTEGER ->
   decodifyChannelId e = e mod 10 /\ decodifyId e = e / 10 /\
   arrayAt (_channels (mux w)) (decodifyChannelId e) =
   _channels (mux w) !! Z.to_nat (e mod 10)) /\
  (e < 0 -> e mod 10 <> 0 ->
   onMessage data w = (Threw UnknownChannelForResponse, w)).
Proof.
  intros He.
  assert (Hnone : arrayAt (_channels (mux w)) (decodifyChannelId e) = None ->
                  onMessage data w = (Threw UnknownChannelForResponse, w)).
  { unfold onMessage, onResponseMessage. rewrite He.
    unfold bind at 1. unfold getMux. by intros ->. }
  split; [|split; [done|split]].
  - unfold onMessage, onResponseMessage. rewrite He.
    unfold bind at 1. unfold getMux.
    intros channel Hc. rewrite Hc. apply callMessageCallbacks_eq.
    unfold arrayAt in Hc. by destruct (decodifyChannelId e <? 0).
  - intros [Hpos Hmax]. split; [|split].
    + unfold decodifyChannelId. apply Z.rem_mod_nonneg; lia.
    + by apply decodifyId_safe.
    + unfold arrayAt, decodifyChannelId. rewrite Z.rem_mod_nonneg by lia.
      pose proof (Z.mod_pos_bound e 10 ltac:(lia)).
      by rewrite (proj2 (Z.ltb_ge _ _)) by lia.
  - intros Hneg Hmod. apply Hnone. unfold arrayAt, decodifyChannelId.
    assert (Hrem : Z.rem e 10 < 0).
    { pose proof (Z.rem_bound_pos (- e) 10 ltac:(lia) ltac:(lia)) as Hb.
      rewrite Z.rem_opp_l in Hb by lia.
      assert (Z.rem e 10 <> 0); [|lia].
      intros H0. by apply Hmod, Z.rem_mod_eq_0. }
    by rewrite (proj2 (Z.ltb_lt _ _) Hrem).
Qed.

Lemma onMessage_response_witness :
  onMessage {| msg_id := Some 50; msg_method := None; msg_rest := "r" |}
    twoSubscribers =
  (Returned tt,
   addCalls
     (deliveries 0 [1; 2]%nat
        {| msg_id := Some 5; msg_method := None; msg_rest := "r" |})
     twoSubscribers).
Proof.
  exact (proj1 (onMessage_response twoSubscribers
                  {| msg_id := Some 50; msg_method := None; msg_rest := "r" |}
                  50 eq_refl)
           (with_messageCallbacks (freshChannel "debugger" 0) [1; 2]%nat)
           eq_refl).
Defined.

(** C4 as stated fails: channel 1 exists and has a subscriber; an inbound
    message has the id -9, for which e mod 10 = 1 and e div 10 = -1.  The
    code looks for a channel at index -9 and throws the unknown-channel
    error, calling nobody.  And for the id 2^56 the rewritten id is not
    e div 10. *)
Lemma response_with_negative_id :
  let w := run [DoOn 1 "message" 7%nat] twoChannels in
  let data := {| msg_id := Some (-9); msg_method := None; msg_rest := "r" |} in
  (-9) mod 10 = 1 /\ (-9) / 10 = -1 /\
  _messageCallbacks <$> _channels (mux w) !! Z.to_nat ((-9) mod 10) =
    Some [7%nat] /\
  onMessage data w = (Threw UnknownChannelForResponse, w) /\
  decodifyId (2 ^ 56) = 7205759403792794 /\
  2 ^ 56 / 10 = 7205759403792793.
Proof. vm_compute. repeat split; reflexivity. Qed.

(** ** C2: which channels the fan-out of a notification skips *)

Lemma append_nil s : "" ++ s = s.
Proof. reflexivity. Qed.

Lemma append_cons a s t : String a s ++ t = String a (s ++ t).
Proof. reflexivity. Qed.

Lemma prefix_nil s : String.prefix "" s = true.
Proof. by destruct s. Qed.

Lemma prefix_cons a p b s :
  String.prefix (String a p) (String b s) =
  if ascii_dec a b then String.prefix p s else false.
Proof. reflexivity. Qed.

Lemma index_nil pat :
  String.index 0 pat "" = match pat with "" => Some 0%nat | _ => None end.
Proof. reflexivity. Qed.

Lemma index_cons pat b s :
  String.index 0 pat (String b s) =
  if String.prefix pat (String b s) then Some 0%nat
  else match String.index 0 pat s with
       | Some n => Some (S n)
       | None => None
       end.
Proof. reflexivity. Qed.

Lemma prefix_app p s :
  String.prefix p s = true <-> exists after, s = p ++ after.
Proof.
  revert s. induction p as [|a p IH]; intros s.
  - rewrite prefix_nil. split; [intros _; by exists s|done].
  - destruct s as [|b s].
    + split; [done|]. intros [after H]. discriminate H.
    + rewrite prefix_cons. destruct (ascii_dec a b) as [->|Hne].
      * rewrite IH. split; intros [after H]; exists after;
          rewrite append_cons in *; congruence.
      * split; [done|]. intros [after H]. rewrite append_cons in H. congruence.
Qed.

Lemma index_contains pat s :
  (exists n, String.index 0 pat s = Some n) <-> contains s pat.
Proof.
  unfold contains. induction s as [|b s IH].
  - rewrite index_nil. destruct pat as [|a pat].
    + split; [intros _; by exists "", ""|by exists 0%nat].
    + split; [by intros [n H]|].
      intros (before & after & H). destruct before; discriminate H.
  - rewrite index_cons. destruct (String.prefix pat (String b s)) eqn:Hp.
    + split; [|by exists 0%nat]. intros _.
      apply prefix_app in Hp as [after H]. by exists "", after.
    + split.
      * intros [n H]. destruct (String.index 0 pat s) as [k|] eqn:Hk; [|done].
        destruct (proj1 IH (ex_intro _ k eq_refl)) as (before & after & ->).
        by exists (String b before), after.
      * intros (before & after & H). destruct before as [|b' before].
        -- rewrite append_nil in H.
           assert (String.prefix pat (String b s) = true)
             by (apply prefix_app; by exists after). congruence.
        -- rewrite append_cons in H. injection H as -> ->.
           destruct (proj2 IH (ex_intro _ before (ex_intro _ after eq_refl)))
             as [k ->]. by exists (S k).
Qed.

Lemma indexOf_contains s pat : (0 <=? indexOf s pat) = true <-> contains s pat.
Proof.
  rewrite <- index_contains. unfold indexOf.
  destruct (String.index 0 pat s) as [n|].
  - split; [by exists n|]. intros _. apply Z.leb_le. lia.
  - split; [done|]. by intros [n H].
Qed.

Lemma split_nonempty sep s : split sep s <> [].
Proof.
  destruct s as [|a s]; simpl; [done|].
  destruct (Ascii.eqb a sep); [done|]. by destruct (split sep s).
Qed.

Lemma split_one sep s b : split sep s = [b] -> s = b.
Proof.
  revert b. induction s as [|a s IH]; intros b; simpl.
  - by intros [= <-].
  - destruct (Ascii.eqb a sep).
    + intros [= _ H]. by destruct (split_nonempty _ _ H).
    + destruct (split sep s) as [|p ps] eqn:Hs;
        [by destruct (split_nonempty _ _ Hs)|].
      intros [= <- ->]. by rewrite (IH p).
Qed.

Lemma split_two sep s a b : split sep s = [a; b] -> s = a ++ String sep b.
Proof.
  revert a. induction s as [|x s IH]; intros a; simpl; [done|].
  destruct (Ascii.eqb_spec x sep) as [->|Hne].
  - intros [= <- H]. rewrite append_nil. by rewrite (split_one _ _ _ H).
  - destruct (split sep s) as [|p ps] eqn:Hs;
      [by destruct (split_nonempty _ _ Hs)|].
    intros [= <- ->]. rewrite append_cons. by rewrite (IH p).
Qed.

Lemma extractDomain_Returned method domain w w' :
  extractDomain method w = (Returned domain, w') ->
  w' = w /\ exists member, method = domain ++ String "." member.
Proof.
  unfold extractDomain.
  destruct (split "." method) as [|a [|b [|? ?]]] eqn:Hs; simpl; try done.
  intros [= <- <-]. split; [done|]. exists b. by apply split_two.
Qed.

(** A notification of the Debugger domain has "Debugger" in its method. *)
Lemma Debugger_domain_contains method w w' :
  extractDomain method w = (Returned "Debugger", w') ->
  contains method "Debugger".
Proof.
  intros H. apply extractDomain_Returned in H as [_ [member ->]].
  by exists "", (String "." member).
Qed.

Lemma breaksNotification_iff noDebugger channelName method :
  breaksNotification noDebugger channelName method = true <->
  exists s, noDebugger = Some s /\ s <> "" /\
            contains channelName s /\ contains method "Debugger".
Proof.
  unfold breaksNotification. destruct noDebugger as [s|].
  - rewrite !andb_true_iff, !indexOf_contains. simpl.
    rewrite negb_true_iff, String.eqb_neq. split.
    + intros [[? ?] ?]. by exists s.
    + intros (s' & [= <-] & ? & ? & ?). done.
  - split; [done|]. by intros (s & ? & _).
Qed.

Lemma callDomainMessageCallbacks_eq w c this domain data :
  _channels (mux w) !! c = Some this ->
  callDomainMessageCallbacks c domain data w =
  (Returned tt,
   addCalls (snd (gate c this domain data))
     (replaceChannel c (fst (gate c this domain data)) w)).
Proof.
  intros H. unfold callDomainMessageCallbacks, gate.
  rewrite (bind_Returned _ _ _ this w) by (by apply channelAt_Some).
  destruct (isEnabled this domain).
  - rewrite (callMessageCallbacks_eq _ _ _ _ H). simpl.
    by rewrite (replaceChannel_id _ _ _ H).
  - destruct (_pendingMessagesForDomain this) as [pending|] eqn:Hp; simpl.
    + rewrite (storeMessageForLater_eq _ _ _ _ _ _ H Hp).
      by rewrite addCalls_nil.
    + by rewrite (replaceChannel_id _ _ _ H), addCalls_nil.
Qed.

Section FanOut.
Variables (noDebugger : option string) (method domain : string)
          (data : Message).

Let turn := fanOutChannel noDebugger method domain data.

Let body (c : nat) : M unit :=
  channel <- channelAt c ;;
  if breaksNotification noDebugger (name channel) method then ret tt
  else callDomainMessageCallbacks c domain data.

Lemma turn_eq w c this :
  _channels (mux w) !! c = Some this ->
  body c w =
  (Returned tt,
   addCalls (snd (turn c this)) (replaceChannel c (fst (turn c this)) w)).
Proof.
  intros H. unfold body, turn, fanOutChannel.
  rewrite (bind_Returned _ _ _ this w) by (by apply channelAt_Some).
  destruct (breaksNotification noDebugger (name this) method).
  - simpl. by rewrite (replaceChannel_id _ _ _ H), addCalls_nil.
  - by apply callDomainMessageCallbacks_eq.
Qed.

Lemma forEach_turns rest : forall done w,
  _channels (mux w) = (done ++ rest)%list ->
  forEach (seq (length done) (length rest)) body w =
  (Returned tt,
   {| mux := {| _channels :=
                  (done ++ imap (fun i this =>
                                   fst (turn (length done + i) this)) rest)%list;
                _wrappedLikeSocket := _wrappedLikeSocket (mux w);
                _channelWithNoDebuggerNotification :=
                  _channelWithNoDebuggerNotification (mux w) |};
      calls := calls w ++
               concat (imap (fun i this =>
                               snd (turn (length done + i) this)) rest);
      now := now w; timeouts := timeouts w |}).
Proof.
  induction rest as [|this rest IH]; intros done w Hw.
  - simpl. unfold ret. rewrite app_nil_r in Hw. rewrite !app_nil_r, <- Hw.
    by rewrite CRDPMultiplexor_eta, World_eta.
  - simpl length. simpl seq. simpl forEach.
    assert (Hat : _channels (mux w) !! length done = Some this)
      by (rewrite Hw; apply list_lookup_middle; reflexivity).
    rewrite (bind_Returned _ _ _ tt _ (turn_eq _ _ _ Hat)).
    specialize (IH (done ++ [fst (turn (length done) this)])%list).
    rewrite length_app in IH. simpl length in IH.
    replace (length done + 1)%nat with (S (length done)) in IH by lia.
    rewrite IH.
    + f_equal. simpl. rewrite Nat.add_0_r, <- !app_assoc. simpl.
      assert (Hfst :
        imap (fun i this0 => fst (turn (S (length done + i)) this0)) rest =
        imap ((fun i this0 => fst (turn (length done + i) this0)) ∘ S) rest).
      { apply imap_ext. intros i x _. simpl. do 2 f_equal. lia. }
      assert (Hsnd :
        imap (fun i this0 => snd (turn (S (length done + i)) this0)) rest =
        imap ((fun i this0 => snd (turn (length done + i) this0)) ∘ S) rest).
      { apply imap_ext. intros i x _. simpl. do 2 f_equal. lia. }
      by rewrite Hfst, Hsnd.
    + simpl. rewrite Hw. rewrite insert_app_r_alt by lia.
      rewrite Nat.sub_diag. simpl. by rewrite <- app_assoc.
Qed.
End FanOut.

Lemma extractDomain_truthy method domain w w' :
  extractDomain method w = (Returned domain, w') -> truthy (Some method) = true.
Proof.
  intros H. destruct method; [|reflexivity]. discriminate H.
Qed.

Lemma onMessage_notification w data method domain :
  msg_id data = None ->
  msg_method data = Some method ->
  extractDomain method w = (Returned domain, w) ->
  onMessage data w = (Returned tt, fanOut method domain data w).
Proof.
  intros Hid Hm Hd. unfold onMessage, onDomainNotification.
  rewrite Hid, Hm, (extractDomain_truthy _ _ _ _ Hd).
  rewrite (bind_Returned _ _ _ domain w Hd).
  rewrite (bind_Returned _ _ _ (mux w) w) by reflexivity.
  apply (forEach_turns _ method domain data (_channels (mux w)) [] w).
  reflexivity.
Qed.

Lemma gate_calls_tag c this domain data c' cb d :
  (c', cb, d) ∈ snd (gate c this domain data) -> c' = c.
Proof.
  unfold gate. destruct (isEnabled this domain); simpl.
  - unfold deliveries. intros H. apply list_elem_of_fmap in H as (x & [= -> _ _] & _).
    reflexivity.
  - destruct (_pendingMessagesForDomain this); simpl; intros H;
      by apply elem_of_nil in H.
Qed.

Lemma fanOutChannel_calls_tag noDebugger method domain data c this c' cb d :
  (c', cb, d) ∈ snd (fanOutChannel noDebugger method domain data c this) ->
  c' = c.
Proof.
  unfold fanOutChannel.
  destruct (breaksNotification noDebugger (name this) method); simpl.
  - intros H. by apply elem_of_nil in H.
  - apply gate_calls_tag.
Qed.

(** A channel that the loop skips keeps its state, and none of its
    subscribers is called. *)
Lemma fanOut_skipped_untouched w method domain data c this :
  _channels (mux w) !! c = Some this ->
  breaksNotification (_channelWithNoDebuggerNotification (mux w))
    (name this) method = true ->
  _channels (mux (fanOut method domain data w)) !! c = Some this /\
  forall cb d, (c, cb, d) ∈ calls (fanOut method domain data w) ->
               (c, cb, d) ∈ calls w.
Proof.
  intros Hc Hskip. unfold fanOut. simpl. split.
  - rewrite list_lookup_imap, Hc. simpl. unfold fanOutChannel.
    by rewrite Hskip.
  - intros cb d H. apply elem_of_app in H as [H|H]; [done|].
    apply list_elem_of_In, in_concat in H as (l & Hl & Hin).
    apply list_elem_of_In in Hl, Hin.
    apply list_elem_of_lookup in Hl as [i Hi].
    rewrite list_lookup_imap in Hi.
    destruct (_channels (mux w) !! i) as [that|] eqn:Hthat; [|done].
    simpl in Hi. injection Hi as <-.
    pose proof (fanOutChannel_calls_tag _ _ _ _ _ _ _ _ _ Hin) as ->.
    rewrite Hc in Hthat. injection Hthat as <-.
    unfold fanOutChannel in Hin. rewrite Hskip in Hin.
    by apply elem_of_nil in Hin.
Qed.

(** C2 as the code has it: the loop of [onDomainNotification] skips a
    channel exactly when the suppression string is configured and
    non-empty, occurs in the channel's name, and "Debugger" occurs in the
    method of the notification.  A skipped channel keeps its state and none
    of its subscribers is called; every other channel is handed the domain
    and the payload through [callDomainMessageCallbacks].  Every method of
    the domain "Debugger" meets the third condition. *)
Theorem onDomainNotification_skips w data method domain :
  msg_id data = None ->
  msg_method data = Some method ->
  extractDomain method w = (Returned domain, w) ->
  let noDebugger := _channelWithNoDebuggerNotification (mux w) in
  let skipped (this : CRDPChannel) :=
    exists s, noDebugger = Some s /\ s <> "" /\
              contains (name this) s /\ contains method "Debugger" in
  onMessage data w = (Returned tt, fanOut method domain data w) /\
  (forall c this, skipped this ->
     fanOutChannel noDebugger method domain data c this = (this, [])) /\
  (forall c this, ~ skipped this ->
     fanOutChannel noDebugger method domain data c this =
     gate c this domain data) /\
  (forall c this, _channels (mux w) !! c = Some this -> skipped this ->
     _channels (mux (snd (onMessage data w))) !! c = Some this /\
     forall cb d, (c, cb, d) ∈ calls (snd (onMessage data w)) ->
                  (c, cb, d) ∈ calls w) /\
  (domain = "Debugger" -> contains method "Debugger").
Proof.
  intros Hid Hm Hd noDebugger skipped.
  pose proof (onMessage_notification _ _ _ _ Hid Hm Hd) as Heq.
  split; [done|]. split; [|split; [|split]].
  - intros c this Hs. apply breaksNotification_iff in Hs.
    unfold fanOutChannel. by rewrite Hs.
  - intros c this Hs. unfold fanOutChannel.
    destruct (breaksNotification noDebugger (name this) method) eqn:Hb; [|done].
    apply breaksNotification_iff in Hb. by destruct Hs.
  - intros c this Hc Hs. rewrite Heq. simpl snd.
    apply fanOut_skipped_untouched; [done|]. by apply breaksNotification_iff.
  - intros ->. by apply (Debugger_domain_contains method w w).
Qed.

Lemma onDomainNotification_skips_witness :
  onMessage (notification "Debugger.paused" "") twoChannels =
  (Returned tt,
   fanOut "Debugger.paused" "Debugger" (notification "Debugger.paused" "")
     twoChannels).
Proof.
  exact (proj1 (onDomainNotification_skips twoChannels
                  (notification "Debugger.paused" "") "Debugger.paused"
                  "Debugger" eq_refl eq_refl eq_refl)).
Defined.

(** C2 as stated fails: the method "Runtime.runIfWaitingForDebugger" has
    the domain "Runtime", not "Debugger", and yet the channel "tools" is
    skipped: the notification is buffered for "debugger" and neither
    buffered nor delivered for "tools", which would have buffered it had it
    been handed over. *)
Lemma skipped_outside_Debugger_domain :
  let data := notification "Runtime.runIfWaitingForDebugger" "" in
  let after := snd (onMessage data twoChannels) in
  extractDomain "Runtime.runIfWaitingForDebugger" twoChannels =
    (Returned "Runtime", twoChannels) /\
  "Runtime" <> "Debugger" /\
  breaksNotification (_channelWithNoDebuggerNotification (mux twoChannels))
    "tools" "Runtime.runIfWaitingForDebugger" = true /\
  (fun this => pendingAt this "Runtime") <$> _channels (mux after) =
    [Some [data]; None] /\
  calls after = [] /\
  (fun this => pendingAt this "Runtime") <$>
    _channels (mux (snd (callDomainMessageCallbacks 1 "Runtime" data twoChannels)))
  = [None; Some [data]].
Proof. vm_compute. repeat split; try reflexivity. discriminate. Qed.

(** ** Channels only move forward *)

Lemma chan_le_refl this : chan_le this this.
Proof. by constructor. Qed.

Lemma chan_le_trans a b c : chan_le a b -> chan_le b c -> chan_le a c.
Proof.
  intros [] []. constructor; try congruence; auto.
Qed.

Lemma world_le_refl w : world_le w w.
Proof. intros c this H. exists this. split; [done|apply chan_le_refl]. Qed.

Lemma world_le_trans w1 w2 w3 :
  world_le w1 w2 -> world_le w2 w3 -> world_le w1 w3.
Proof.
  intros H12 H23 c this H.
  destruct (H12 c this H) as (that & H2 & Hle).
  destruct (H23 c that H2) as (last & H3 & Hle').
  exists last. split; [done|]. by eapply chan_le_trans.
Qed.

Lemma world_le_same w w' :
  _channels (mux w') = _channels (mux w) -> world_le w w'.
Proof.
  intros Heq c this H. exists this. rewrite Heq. split; [done|apply chan_le_refl].
Qed.

Lemma world_le_replace w c this that :
  _channels (mux w) !! c = Some this -> chan_le this that ->
  world_le w (replaceChannel c that w).
Proof.
  intros Hc Hle c' this' H. simpl.
  destruct (decide (c' = c)) as [->|Hne].
  - exists that. rewrite list_lookup_insert_eq
      by (eapply lookup_lt_Some; eassumption).
    split; [done|]. congruence.
  - exists this'. rewrite list_lookup_insert_ne by done.
    split; [done|apply chan_le_refl].
Qed.

Lemma grows_ret {A} (a : A) : grows (ret a).
Proof. intros w. apply world_le_refl. Qed.

Lemma grows_throw {A} e : grows (@throw A e).
Proof. intros w. apply world_le_refl. Qed.

Lemma grows_bind {A B} (m : M A) (k : A -> M B) :
  grows m -> (forall a, grows (k a)) -> grows (bind m k).
Proof.
  intros Hm Hk w. unfold bind. specialize (Hm w).
  destruct (m w) as [[a|e] w1]; simpl in *; [|done].
  eapply world_le_trans; [done|apply Hk].
Qed.

Lemma grows_forEach {A} (l : list A) (f : A -> M unit) :
  (forall x, grows (f x)) -> grows (forEach l f).
Proof.
  intros Hf. induction l as [|x l IH]; simpl.
  - apply grows_ret.
  - apply grows_bind; [apply Hf|by intros _].
Qed.

Lemma grows_uncaught m : grows m -> grows (uncaught m).
Proof. intros H w. apply H. Qed.

Lemma grows_same {A} (m : M A) :
  (forall w, _channels (mux (snd (m w))) = _channels (mux w)) -> grows m.
Proof. intros H w. by apply world_le_same. Qed.

Lemma grows_channelAt c : grows (channelAt c).
Proof.
  apply grows_same. intros w. unfold channelAt, bind, getMux.
  by destruct (_channels (mux w) !! c).
Qed.

Lemma grows_channelAt_bind {B} c (k : CRDPChannel -> M B) :
  (forall w this, _channels (mux w) !! c = Some this ->
                  world_le w (snd (k this w))) ->
  grows (bind (channelAt c) k).
Proof.
  intros H w. destruct (_channels (mux w) !! c) as [this|] eqn:Hc.
  - rewrite (bind_Returned _ _ _ this w) by (by apply channelAt_Some). by apply H.
  - rewrite (bind_Threw _ _ _ TypeError w) by (by apply channelAt_None).
    apply world_le_refl.
Qed.

Lemma grows_extractDomain method : grows (extractDomain method).
Proof.
  apply grows_same. intros w. by rewrite extractDomain_pure.
Qed.

Lemma grows_callMessageCallbacks c data : grows (callMessageCallbacks c data).
Proof.
  apply grows_channelAt_bind. intros w this _.
  rewrite forEach_invoke. by apply world_le_same.
Qed.

Lemma chan_le_gate c this domain data :
  chan_le this (fst (gate c this domain data)).
Proof.
  unfold gate. destruct (isEnabled this domain) eqn:He; [apply chan_le_refl|].
  destruct (_pendingMessagesForDomain this) as [pending|] eqn:Hp;
    [|apply chan_le_refl].
  constructor; simpl; try done.
  - by rewrite Hp.
  - intros domain' He' Hnone. unfold pendingAt in *. rewrite Hp in Hnone. simpl.
    rewrite lookup_insert_ne; [done|]. congruence.
Qed.

Lemma grows_callDomainMessageCallbacks c domain data :
  grows (callDomainMessageCallbacks c domain data).
Proof.
  intros w. destruct (_channels (mux w) !! c) as [this|] eqn:Hc.
  - rewrite (callDomainMessageCallbacks_eq _ _ _ _ _ Hc). simpl snd.
    eapply world_le_trans;
      [apply (world_le_replace _ _ _ _ Hc (chan_le_gate c this domain data))|].
    by apply world_le_same.
  - unfold callDomainMessageCallbacks.
    rewrite (bind_Threw _ _ _ TypeError w) by (by apply channelAt_None).
    apply world_le_refl.
Qed.

Lemma chan_le_delete this pending domain :
  _pendingMessagesForDomain this = Some pending ->
  chan_le this
    (with_pendingMessagesForDomain this (Some (delete domain pending))).
Proof.
  intros Hp. constructor; simpl; try done.
  - by rewrite Hp.
  - intros domain' _ Hnone. unfold pendingAt in *. rewrite Hp in Hnone. simpl.
    apply lookup_delete_None. by right.
Qed.

Lemma grows_sendUnsentPendingMessages c domain :
  grows (sendUnsentPendingMessages c domain).
Proof.
  apply grows_channelAt_bind. intros w this Hc.
  destruct (_pendingMessagesForDomain this) as [pending|] eqn:Hp;
    [|apply world_le_refl].
  destruct (get pending domain) as [l| |];
    destruct (negb (length (_messageCallbacks this) =? 0)%nat);
    try apply world_le_refl.
  rewrite (bind_Returned _ _ _ tt _ (setChannel_eq _ _ _)).
  eapply world_le_trans;
    [apply (world_le_replace _ _ _ _ Hc (chan_le_delete _ _ domain Hp))|].
  apply grows_forEach. intros x. apply grows_callDomainMessageCallbacks.
Qed.

Lemma grows_discardUnsentPendingMessages c :
  grows (discardUnsentPendingMessages c).
Proof.
  apply grows_channelAt_bind. intros w this Hc.
  destruct (_pendingMessagesForDomain this) eqn:Hp; [|apply world_le_refl].
  rewrite setChannel_eq. apply (world_le_replace _ _ _ _ Hc).
  constructor; simpl; done.
Qed.

Lemma grows_CRDPMultiplexor_send channel data :
  grows (CRDPMultiplexor_send channel data).
Proof.
  apply grows_same. intros w. unfold CRDPMultiplexor_send, bind.
  by destruct (msg_id data).
Qed.

Lemma chan_le_enable this domain :
  chan_le this
    (with_enabledDomains this (<[domain := true]> (_enabledDomains this))).
Proof.
  constructor; simpl; try done.
  intros domain'.
  destruct (decide (domain = domain')) as [->|Hne].
  - intros _. apply isEnabled_enable.
  - by rewrite isEnabled_enable_ne.
Qed.

Lemma grows_CRDPChannel_send c data : grows (CRDPChannel_send c data).
Proof.
  unfold CRDPChannel_send. apply grows_bind.
  - destruct (truthy (msg_method data) &&
              endsWith (default "" (msg_method data)) ".enable");
      [|apply grows_ret].
    apply grows_bind; [apply grows_extractDomain|]. intros domain.
    apply grows_channelAt_bind. intros w this Hc.
    rewrite (bind_Returned _ _ _ tt _ (setChannel_eq _ _ _)).
    apply (world_le_replace _ _ _ _ Hc), chan_le_enable.
  - intros domain. apply grows_bind; [apply grows_channelAt|]. intros this.
    apply grows_bind; [apply grows_CRDPMultiplexor_send|]. intros _.
    destruct domain; [apply grows_sendUnsentPendingMessages|apply grows_ret].
Qed.

Lemma grows_socket_call call : grows (socket_call call).
Proof. by apply grows_same. Qed.

Lemma chan_le_callbacks this l : chan_le this (with_messageCallbacks this l).
Proof. by constructor. Qed.

Lemma grows_CRDPChannel_on c event cb : grows (CRDPChannel_on c event cb).
Proof.
  apply grows_channelAt_bind. intros w this Hc.
  destruct (String.eqb event "message"); [|apply grows_socket_call].
  destruct (length (_messageCallbacks this) =? 0)%nat.
  - rewrite (bind_Returned _ _ _ tt (snd (setTimeout c timeToPreserveMessagesInMillis w)))
      by reflexivity.
    rewrite setChannel_eq.
    apply (world_le_trans _ (snd (setTimeout c timeToPreserveMessagesInMillis w)));
      [by apply world_le_same|].
    apply (world_le_replace _ _ this); [done|apply chan_le_callbacks].
  - rewrite (bind_Returned _ _ _ tt w) by reflexivity.
    rewrite setChannel_eq.
    apply (world_le_replace _ _ this); [done|apply chan_le_callbacks].
Qed.

Lemma grows_CRDPChannel_removeListener c event cb :
  grows (CRDPChannel_removeListener c event cb).
Proof.
  apply grows_channelAt_bind. intros w this Hc.
  destruct (String.eqb event "message"); [|apply grows_socket_call].
  rewrite setChannel_eq.
  apply (world_le_replace _ _ this); [done|apply chan_le_callbacks].
Qed.

Lemma grows_addChannel channelName : grows (addChannel channelName).
Proof.
  intros w. unfold addChannel, bind, getMux.
  destruct (10 <=? length (_channels (mux w)))%nat; [apply world_le_refl|].
  simpl. intros c this H. exists this. simpl.
  split; [by apply lookup_app_l_Some|apply chan_le_refl].
Qed.

Lemma grows_onMessage data : grows (onMessage data).
Proof.
  unfold onMessage. destruct (msg_id data) as [i|] eqn:Hid.
  - unfold onResponseMessage. rewrite Hid.
    intros w. rewrite (bind_Returned _ _ _ (mux w) w) by reflexivity.
    destruct (arrayAt (_channels (mux w)) (decodifyChannelId i));
      [apply grows_callMessageCallbacks|apply world_le_refl].
  - destruct (truthy (msg_method data)); [|apply grows_throw].
    unfold onDomainNotification.
    destruct (msg_method data) as [method|]; [|apply grows_throw].
    apply grows_bind; [apply grows_extractDomain|]. intros domain.
    intros w. rewrite (bind_Returned _ _ _ (mux w) w) by reflexivity.
    apply grows_forEach. intros c.
    apply grows_bind; [apply grows_channelAt|]. intros channel.
    destruct (breaksNotification _ _ _);
      [apply grows_ret|apply grows_callDomainMessageCallbacks].
Qed.

Lemma grows_elapse dt : grows (elapse dt).
Proof.
  intros w. unfold elapse.
  eapply world_le_trans; [|apply grows_forEach].
  - by apply world_le_same.
  - intros timer. apply grows_uncaught, grows_discardUnsentPendingMessages.
Qed.

Lemma grows_perform a : grows (perform a).
Proof.
  destruct a; simpl.
  - apply grows_bind; [apply grows_addChannel|intros _; apply grows_ret].
  - apply grows_CRDPChannel_send.
  - apply grows_CRDPChannel_on.
  - apply grows_CRDPChannel_removeListener.
  - apply grows_onMessage.
  - apply grows_elapse.
Qed.

Lemma world_le_run actions w : world_le w (run actions w).
Proof.
  revert w. induction actions as [|a actions IH]; intros w; simpl.
  - apply world_le_refl.
  - eapply world_le_trans; [apply grows_perform|apply IH].
Qed.

(** ** C3: what an enable request flushes *)

Lemma extractDomain_cases method w :
  (exists domain, extractDomain method w = (Returned domain, w)) \/
  extractDomain method w = (Threw MalformedMethodName, w).
Proof.
  unfold extractDomain. destruct (length (split "." method) =? 2)%nat.
  - left. by eexists.
  - by right.
Qed.

Lemma forEach_flush c this domain l : forall w,
  _channels (mux w) !! c = Some this ->
  isEnabled this domain = true ->
  forEach l (callDomainMessageCallbacks c domain) w =
  (Returned tt,
   addCalls (flat_map (deliveries c (_messageCallbacks this)) l) w).
Proof.
  induction l as [|d l IH]; intros w Hc He; simpl.
  - unfold ret. by rewrite addCalls_nil.
  - rewrite (bind_Returned _ _ _ tt
               (addCalls (deliveries c (_messageCallbacks this) d) w)).
    + rewrite IH by done. by rewrite addCalls_addCalls.
    + rewrite (callDomainMessageCallbacks_eq _ _ _ _ _ Hc).
      unfold gate. rewrite He. simpl. by rewrite (replaceChannel_id _ _ _ Hc).
Qed.

Lemma sendUnsentPendingMessages_flush w c this pending domain l :
  _channels (mux w) !! c = Some this ->
  _pendingMessagesForDomain this = Some pending ->
  pending !! domain = Some l ->
  _messageCallbacks this <> [] ->
  isEnabled this domain = true ->
  sendUnsentPendingMessages c domain w =
  (Returned tt,
   addCalls (flat_map (deliveries c (_messageCallbacks this)) l)
     (replaceChannel c
        (with_pendingMessagesForDomain this (Some (delete domain pending))) w)).
Proof.
  intros Hc Hp Hl Hcb He. unfold sendUnsentPendingMessages.
  rewrite (bind_Returned _ _ _ this w) by (by apply channelAt_Some).
  rewrite Hp, (get_own _ _ _ Hl).
  destruct (_messageCallbacks this) as [|cb cbs] eqn:Hcbs; [done|].
  change (negb (length (cb :: cbs) =? 0)%nat) with true. cbv iota.
  rewrite (bind_Returned _ _ _ tt _ (setChannel_eq _ _ _)).
  rewrite (forEach_flush c
             (with_pendingMessagesForDomain this (Some (delete domain pending)))).
  - simpl. by rewrite Hcbs.
  - apply replaceChannel_lookup. by eapply lookup_lt_Some.
  - done.
Qed.

(** Without a buffer for the domain nothing is flushed and the world stays
    as it is; the call returns unless the domain is an inherited name. *)
Lemma sendUnsentPendingMessages_nothing w c this domain :
  _channels (mux w) !! c = Some this ->
  pendingAt this domain = None ->
  snd (sendUnsentPendingMessages c domain w) = w.
Proof.
  intros Hc Hnone. unfold sendUnsentPendingMessages.
  rewrite (bind_Returned _ _ _ this w) by (by apply channelAt_Some).
  unfold pendingAt in Hnone.
  destruct (_pendingMessagesForDomain this); [|done].
  rewrite (get_absent _ _ Hnone).
  by destruct (inherited domain),
       (negb (length (_messageCallbacks this) =? 0)%nat).
Qed.

Lemma sendUnsentPendingMessages_undefined w c this domain :
  _channels (mux w) !! c = Some this ->
  pendingAt this domain = None ->
  inherited domain = false ->
  sendUnsentPendingMessages c domain w = (Returned tt, w).
Proof.
  intros Hc Hnone Hin. unfold sendUnsentPendingMessages.
  rewrite (bind_Returned _ _ _ this w) by (by apply channelAt_Some).
  unfold pendingAt in Hnone.
  destruct (_pendingMessagesForDomain this); [|done].
  by rewrite (get_absent _ _ Hnone), Hin.
Qed.

Lemma sendUnsentPendingMessages_inherited w c this pending domain :
  _channels (mux w) !! c = Some this ->
  _pendingMessagesForDomain this = Some pending ->
  pending !! domain = None ->
  inherited domain = true ->
  _messageCallbacks this <> [] ->
  sendUnsentPendingMessages c domain w = (Threw TypeError, w).
Proof.
  intros Hc Hp Hnone Hin Hcb. unfold sendUnsentPendingMessages.
  rewrite (bind_Returned _ _ _ this w) by (by apply channelAt_Some).
  rewrite Hp, (get_absent _ _ Hnone), Hin.
  by destruct (_messageCallbacks this).
Qed.

Lemma sendUnsentPendingMessages_no_subscriber w c this domain :
  _channels (mux w) !! c = Some this ->
  _messageCallbacks this = [] ->
  sendUnsentPendingMessages c domain w = (Returned tt, w).
Proof.
  intros Hc Hcb. unfold sendUnsentPendingMessages.
  rewrite (bind_Returned _ _ _ this w) by (by apply channelAt_Some).
  rewrite Hcb. destruct (_pendingMessagesForDomain this) as [pending|]; [|done].
  by destruct (get pending domain).
Qed.

(** An enable request: the domain is enabled, the request goes out, and the
    flush starts. *)
Lemma CRDPChannel_send_enable w c this data i method domain :
  _channels (mux w) !! c = Some this ->
  msg_id data = Some i ->
  msg_method data = Some method ->
  endsWith method ".enable" = true ->
  extractDomain method w = (Returned domain, w) ->
  let enabled :=
    with_enabledDomains this (<[domain := true]> (_enabledDomains this)) in
  CRDPChannel_send c data w =
  sendUnsentPendingMessages c domain
    (addSent (with_id data (encodifyChannel (id this) i))
       (replaceChannel c enabled w)).
Proof.
  intros Hc Hid Hm He Hd enabled.
  assert (Hlt : (c < length (_channels (mux w)))%nat)
    by (eapply lookup_lt_Some; eassumption).
  unfold CRDPChannel_send. rewrite Hm. simpl default.
  rewrite (endsWith_truthy method ".enable") by done. rewrite He. simpl andb.
  cbv iota.
  rewrite (bind_Returned _ _ _ (Some domain) (replaceChannel c enabled w)).
  - rewrite (bind_Returned _ _ _ enabled (replaceChannel c enabled w))
      by (apply channelAt_Some; by apply replaceChannel_lookup).
    rewrite (bind_Returned _ _ _ tt
               (addSent (with_id data (encodifyChannel (id this) i))
                  (replaceChannel c enabled w))); [done|].
    unfold CRDPMultiplexor_send. by rewrite Hid.
  - rewrite (bind_Returned _ _ _ domain w) by done.
    rewrite (bind_Returned _ _ _ this w) by (by apply channelAt_Some).
    by rewrite (bind_Returned _ _ _ tt (replaceChannel c enabled w)).
Qed.

Lemma silent_CRDPMultiplexor_send channel data :
  silent (CRDPMultiplexor_send channel data).
Proof.
  intros w. unfold CRDPMultiplexor_send, bind. by destruct (msg_id data).
Qed.

(** A send flushes nothing when the domain it enables, if any, has no
    buffer. *)
Lemma CRDPChannel_send_flushes_nothing w c this data :
  _channels (mux w) !! c = Some this ->
  (forall method domain,
     msg_method data = Some method ->
     extractDomain method w = (Returned domain, w) ->
     pendingAt this domain = None) ->
  calls (snd (CRDPChannel_send c data w)) = calls w.
Proof.
  intros Hc Hnone.
  assert (Hlt : (c < length (_channels (mux w)))%nat)
    by (eapply lookup_lt_Some; eassumption).
  unfold CRDPChannel_send.
  destruct (truthy (msg_method data) &&
            endsWith (default "" (msg_method data)) ".enable") eqn:Hen.
  - destruct (msg_method data) as [method|] eqn:Hm; [|done]. simpl default.
    destruct (extractDomain_cases method w) as [[domain Hd]|Hd].
    + set (enabled :=
        with_enabledDomains this (<[domain := true]> (_enabledDomains this))).
      rewrite (bind_Returned _ _ _ (Some domain) (replaceChannel c enabled w)).
      2:{ rewrite (bind_Returned _ _ _ domain w) by done.
          rewrite (bind_Returned _ _ _ this w) by (by apply channelAt_Some).
          by rewrite (bind_Returned _ _ _ tt (replaceChannel c enabled w)). }
      rewrite (bind_Returned _ _ _ enabled (replaceChannel c enabled w))
        by (apply channelAt_Some; by apply replaceChannel_lookup).
      pose proof (silent_CRDPMultiplexor_send enabled data
                    (replaceChannel c enabled w)) as Hs.
      unfold bind at 1.
      destruct (CRDPMultiplexor_send enabled data (replaceChannel c enabled w))
        as [[[]|e] w1] eqn:Hsend; simpl in Hs; [|done].
      rewrite (sendUnsentPendingMessages_nothing w1 c enabled); [done| |].
      * unfold CRDPMultiplexor_send in Hsend.
        destruct (msg_id data); [|done]. injection Hsend as <-.
        simpl. by apply list_lookup_insert_eq.
      * apply (Hnone method domain); done.
    + by rewrite (bind_Threw _ _ _ MalformedMethodName w)
        by (by rewrite (bind_Threw _ _ _ MalformedMethodName w)).
  - rewrite (bind_Returned _ _ _ None w) by reflexivity.
    rewrite (bind_Returned _ _ _ this w) by (by apply channelAt_Some).
    pose proof (silent_CRDPMultiplexor_send this data w) as Hs.
    unfold bind. by destruct (CRDPMultiplexor_send this data w) as [[[]|e] w1].
Qed.

Lemma replaceChannel_addSent c channel data w :
  replaceChannel c channel (addSent data w) =
  addSent data (replaceChannel c channel w).
Proof. reflexivity. Qed.

Lemma with_pendingMessagesForDomain_same this :
  with_pendingMessagesForDomain this (_pendingMessagesForDomain this) = this.
Proof. by destruct this. Qed.

(** C3 as the code has it: an enable request (a message with an id whose
    method ends in ".enable") for a domain D that is not the name of a
    property of [Object.prototype], sent on a channel that has at least one
    subscriber, delivers the whole buffer of D to the subscribers in
    arrival order and removes that buffer; for a D that is such a name and
    has no buffer, the send throws a [TypeError] once the request has been
    written.  Either way, whatever happens afterwards, a later enable of D
    flushes nothing.  Sent on a channel without subscribers, the request
    delivers nothing and leaves the buffer of D in place. *)
Theorem enable_flushes_once w c this data i method domain :
  _channels (mux w) !! c = Some this ->
  msg_id data = Some i ->
  msg_method data = Some method ->
  endsWith method ".enable" = true ->
  extractDomain method w = (Returned domain, w) ->
  let enabled :=
    with_enabledDomains this (<[domain := true]> (_enabledDomains this)) in
  let flushed :=
    with_pendingMessagesForDomain enabled
      (delete domain <$> _pendingMessagesForDomain this) in
  let request := with_id data (encodifyChannel (id this) i) in
  (_messageCallbacks this <> [] ->
   (inherited domain = false ->
    CRDPChannel_send c data w =
    (Returned tt,
     addCalls
       (flat_map (deliveries c (_messageCallbacks this))
          (default [] (pendingAt this domain)))
       (addSent request (replaceChannel c flushed w)))) /\
   (inherited domain = true ->
    forall pending,
      _pendingMessagesForDomain this = Some pending ->
      pending !! domain = None ->
      CRDPChannel_send c data w =
      (Threw TypeError, addSent request (replaceChannel c enabled w))) /\
   forall actions data' method',
     msg_method data' = Some method' ->
     extractDomain method' w = (Returned domain, w) ->
     let later := run actions (snd (CRDPChannel_send c data w)) in
     calls (snd (CRDPChannel_send c data' later)) = calls later) /\
  (_messageCallbacks this = [] ->
   CRDPChannel_send c data w =
   (Returned tt, addSent request (replaceChannel c enabled w)) /\
   pendingAt enabled domain = pendingAt this domain).
Proof.
  intros Hc Hid Hm He Hd enabled flushed request.
  assert (Hlt : (c < length (_channels (mux w)))%nat)
    by (eapply lookup_lt_Some; eassumption).
  pose proof (CRDPChannel_send_enable _ _ _ _ _ _ _ Hc Hid Hm He Hd) as Hsend.
  fold enabled in Hsend. fold request in Hsend.
  assert (Henabled :
    _channels (mux (addSent request (replaceChannel c enabled w))) !! c =
    Some enabled) by (simpl; by apply list_lookup_insert_eq).
  assert (Hon : isEnabled enabled domain = true) by apply isEnabled_enable.
  assert (Hsame : pendingAt this domain = None -> flushed = enabled).
  { unfold pendingAt, flushed. intros Hnone.
    destruct (_pendingMessagesForDomain this) as [pending|] eqn:Hp; simpl fmap.
    - rewrite delete_id by done.
      replace (Some pending) with (_pendingMessagesForDomain enabled) by done.
      apply with_pendingMessagesForDomain_same.
    - replace (@None (gmap string (list Message)))
        with (_pendingMessagesForDomain enabled) by done.
      apply with_pendingMessagesForDomain_same. }
  split.
  - intros Hcb. split; [|split].
    + intros Hin. rewrite Hsend.
      destruct (pendingAt this domain) as [l|] eqn:Hl.
      * unfold pendingAt in Hl. unfold flushed.
        destruct (_pendingMessagesForDomain this) as [pending|] eqn:Hp; [|done].
        simpl fmap.
        rewrite (sendUnsentPendingMessages_flush _ c enabled pending domain l)
          by done.
        by rewrite replaceChannel_addSent, replaceChannel_twice.
      * rewrite (sendUnsentPendingMessages_undefined _ c enabled) by done.
        simpl default. simpl flat_map. rewrite addCalls_nil.
        by rewrite (Hsame eq_refl).
    + intros Hin pending Hp Hnone. rewrite Hsend.
      by apply (sendUnsentPendingMessages_inherited _ c enabled pending).
    + intros actions data' method' Hm' Hd' later.
      assert (Hflushed :
        _channels (mux (snd (CRDPChannel_send c data w))) !! c = Some flushed).
      { rewrite Hsend. destruct (pendingAt this domain) as [l|] eqn:Hl.
        - unfold pendingAt in Hl. unfold flushed.
          destruct (_pendingMessagesForDomain this) as [pending|] eqn:Hp;
            [|done].
          rewrite (sendUnsentPendingMessages_flush _ c enabled pending domain l)
            by done.
          simpl. by rewrite list_lookup_insert_eq by (by rewrite length_insert).
        - rewrite (sendUnsentPendingMessages_nothing _ c enabled) by done.
          by rewrite (Hsame eq_refl). }
      destruct (world_le_run actions _ c flushed Hflushed)
        as (that & Hthat & Hle).
      apply (CRDPChannel_send_flushes_nothing later c that); [done|].
      intros m d Hm2 Hd2. rewrite Hm' in Hm2. injection Hm2 as <-.
      rewrite (extractDomain_any _ _ _ _ Hd') in Hd2. injection Hd2 as <-.
      apply (le_flushed _ _ Hle).
      * done.
      * unfold pendingAt, flushed. simpl.
        destruct (_pendingMessagesForDomain this); simpl; [|done].
        apply lookup_delete_None. by left.
  - intros Hcb. split.
    + rewrite Hsend.
      by rewrite (sendUnsentPendingMessages_no_subscriber _ c enabled).
    + reflexivity.
Qed.

Lemma enable_flushes_once_witness :
  calls (snd (CRDPChannel_send 0 (request 5 "Network.enable" "") buffering)) =
  [(0%nat, 1%nat, notification "Network.requestWillBeSent" "1");
   (0%nat, 2%nat, notification "Network.requestWillBeSent" "1");
   (0%nat, 1%nat, notification "Network.requestWillBeSent" "2");
   (0%nat, 2%nat, notification "Network.requestWillBeSent" "2")].
Proof.
  assert (Hc : _channels (mux buffering) !! 0%nat = Some bufferingDebugger)
    by (vm_compute; reflexivity).
  rewrite (proj1 (proj1 (enable_flushes_once buffering 0 bufferingDebugger
    (request 5 "Network.enable" "") 5 "Network.enable" "Network"
    Hc eq_refl eq_refl eq_refl eq_refl)
    ltac:(discriminate)) eq_refl).
  vm_compute. reflexivity.
Defined.

(** C3 as stated fails: "tools" has no subscriber when it first enables
    Network, so nothing is delivered and the buffer stays; after a
    subscriber has registered, the second enable delivers the two buffered
    notifications. *)
Lemma enable_without_subscriber_keeps_buffer :
  let n1 := notification "Network.requestWillBeSent" "1" in
  let n2 := notification "Network.requestWillBeSent" "2" in
  let first := CRDPChannel_send 1 (request 5 "Network.enable" "") buffering in
  let subscribed := snd (CRDPChannel_on 1 "message" 7%nat (snd first)) in
  let second := CRDPChannel_send 1 (request 6 "Network.enable" "") subscribed in
  fst first = Returned tt /\
  calls (snd first) = calls buffering /\
  (fun this => pendingAt this "Network") <$> _channels (mux (snd first)) !! 1%nat
    = Some (Some [n1; n2]) /\
  fst second = Returned tt /\
  calls (snd second) =
    (calls (snd first) ++ [(1%nat, 7%nat, n1); (1%nat, 7%nat, n2)])%list.
Proof. vm_compute. repeat split; reflexivity. Qed.

(** ** The clock and the timers *)

Lemma steady_same {A} (m : M A) :
  (forall w, now (snd (m w)) = now w /\ timeouts (snd (m w)) = timeouts w) ->
  steady m.
Proof.
  intros H w. destruct (H w) as [Hn Ht]. split; [done|].
  exists []. by rewrite app_nil_r.
Qed.

Lemma steady_ret {A} (a : A) : steady (ret a).
Proof. by apply steady_same. Qed.

Lemma steady_throw {A} e : steady (@throw A e).
Proof. by apply steady_same. Qed.

Lemma steady_bind {A B} (m : M A) (k : A -> M B) :
  steady m -> (forall a, steady (k a)) -> steady (bind m k).
Proof.
  intros Hm Hk w. unfold bind. specialize (Hm w).
  destruct (m w) as [[a|e] w1]; simpl in *; [|done].
  destruct Hm as [Hn [more Ht]]. destruct (Hk a w1) as [Hn' [more' Ht']].
  split; [congruence|]. exists (more ++ more')%list.
  by rewrite Ht', Ht, app_assoc.
Qed.

Lemma steady_forEach {A} (l : list A) (f : A -> M unit) :
  (forall x, steady (f x)) -> steady (forEach l f).
Proof.
  intros Hf. induction l as [|x l IH]; simpl.
  - apply steady_ret.
  - apply steady_bind; [apply Hf|by intros _].
Qed.

Lemma steady_uncaught m : steady m -> steady (uncaught m).
Proof. intros H w. apply H. Qed.

Lemma steady_getMux : steady getMux.
Proof. by apply steady_same. Qed.

Lemma steady_putMux m : steady (putMux m).
Proof. by apply steady_same. Qed.

Lemma steady_invoke c data cb : steady (invoke c data cb).
Proof. by apply steady_same. Qed.

Lemma steady_setTimeout c delay : steady (setTimeout c delay).
Proof. intros w. split; [done|]. by eexists. Qed.

(** Every function built from the primitives above with [bind], [forEach]
    and case distinctions is steady. *)
Ltac steady :=
  repeat match goal with
    | |- steady (ret _) => apply steady_ret
    | |- steady (throw _) => apply steady_throw
    | |- steady (throwCriticalError _) => apply steady_throw
    | |- steady getMux => apply steady_getMux
    | |- steady (putMux _) => apply steady_putMux
    | |- steady (invoke _ _ _) => apply steady_invoke
    | |- steady (invoke _ _) => intros ?
    | |- steady (setTimeout _ _) => apply steady_setTimeout
    | |- steady (uncaught _) => apply steady_uncaught
    | |- steady (bind _ _) => apply steady_bind; [|intros ?]
    | |- steady (forEach _ _) => apply steady_forEach; intros ?
    | |- steady (match ?x with _ => _ end) => destruct x
    end.

Lemma steady_channelAt c : steady (channelAt c).
Proof. unfold channelAt. steady. Qed.

Lemma steady_setChannel c channel : steady (setChannel c channel).
Proof. unfold setChannel. steady. Qed.

Lemma steady_callMessageCallbacks c data : steady (callMessageCallbacks c data).
Proof. unfold callMessageCallbacks. steady. apply steady_channelAt. Qed.

Lemma steady_callDomainMessageCallbacks c domain data :
  steady (callDomainMessageCallbacks c domain data).
Proof.
  unfold callDomainMessageCallbacks, storeMessageForLater. steady;
    first [apply steady_channelAt | apply steady_setChannel
          | apply steady_callMessageCallbacks].
Qed.

Lemma steady_sendUnsentPendingMessages c domain :
  steady (sendUnsentPendingMessages c domain).
Proof.
  unfold sendUnsentPendingMessages. steady;
    first [apply steady_channelAt | apply steady_setChannel
          | apply steady_callDomainMessageCallbacks].
Qed.

Lemma steady_discardUnsentPendingMessages c :
  steady (discardUnsentPendingMessages c).
Proof.
  unfold discardUnsentPendingMessages. steady;
    first [apply steady_channelAt | apply steady_setChannel].
Qed.

Lemma steady_extractDomain method : steady (extractDomain method).
Proof. unfold extractDomain. steady. Qed.

Lemma steady_CRDPChannel_send c data : steady (CRDPChannel_send c data).
Proof.
  unfold CRDPChannel_send, CRDPMultiplexor_send, socket_send. steady;
    first [apply steady_channelAt | apply steady_setChannel
          | apply steady_extractDomain
          | apply steady_sendUnsentPendingMessages].
Qed.

Lemma steady_CRDPChannel_on c event cb : steady (CRDPChannel_on c event cb).
Proof.
  unfold CRDPChannel_on, addListenerOfNonMultiplexedEvent, socket_call. steady;
    first [apply steady_channelAt | apply steady_setChannel].
Qed.

Lemma steady_CRDPChannel_removeListener c event cb :
  steady (CRDPChannel_removeListener c event cb).
Proof.
  unfold CRDPChannel_removeListener, removeListenerOfNonMultiplexedEvent,
    socket_call. steady; first [apply steady_channelAt | apply steady_setChannel].
Qed.

Lemma steady_addChannel channelName : steady (addChannel channelName).
Proof. unfold addChannel. steady. Qed.

Lemma steady_onMessage data : steady (onMessage data).
Proof.
  unfold onMessage, onResponseMessage, onDomainNotification. steady;
    first [apply steady_channelAt | apply steady_extractDomain
          | apply steady_callMessageCallbacks
          | apply steady_callDomainMessageCallbacks].
Qed.

Lemma tombstoned_le c w w' : world_le w w' -> tombstoned c w -> tombstoned c w'.
Proof.
  intros Hle (this & Hc & Hp). destruct (Hle c this Hc) as (that & Hc' & Hch).
  exists that. split; [done|]. by apply (le_discarded _ _ Hch).
Qed.

Lemma is_Some_le c w w' :
  world_le w w' -> is_Some (_channels (mux w) !! c) ->
  is_Some (_channels (mux w') !! c).
Proof.
  intros Hle [this Hc]. destruct (Hle c this Hc) as (that & Hc' & _). by exists that.
Qed.

Lemma discard_tombstones c w :
  is_Some (_channels (mux w) !! c) ->
  tombstoned c (snd (discardUnsentPendingMessages c w)).
Proof.
  intros [this Hc]. unfold discardUnsentPendingMessages.
  rewrite (bind_Returned _ _ _ this w) by (by apply channelAt_Some).
  destruct (_pendingMessagesForDomain this) eqn:Hp.
  - rewrite setChannel_eq. simpl snd.
    exists (with_pendingMessagesForDomain this None). split; [|done].
    apply replaceChannel_lookup. by eapply lookup_lt_Some.
  - by exists this.
Qed.

Lemma forEach_discard_tombstones c (due : list (N * nat)) : forall w,
  (exists d, (d, c) ∈ due) ->
  is_Some (_channels (mux w) !! c) ->
  tombstoned c
    (snd (forEach due
            (fun timer => uncaught (discardUnsentPendingMessages (snd timer))) w)).
Proof.
  induction due as [|timer due IH]; intros w [d Hin] Hc.
  - by apply elem_of_nil in Hin.
  - simpl forEach.
    rewrite (bind_Returned _ _ _ tt
               (snd (discardUnsentPendingMessages (snd timer) w)))
      by reflexivity.
    apply elem_of_cons in Hin as [<-|Hin].
    + eapply tombstoned_le.
      * apply grows_forEach. intros x.
        apply grows_uncaught, grows_discardUnsentPendingMessages.
      * by apply discard_tombstones.
    + apply IH; [by exists d|].
      eapply is_Some_le; [apply grows_discardUnsentPendingMessages|done].
Qed.

Lemma elapse_clock dt w :
  now (snd (elapse dt w)) = (now w + dt)%N /\
  forall timer, timer ∈ timeouts w -> isDue (now w + dt) timer = false ->
                timer ∈ timeouts (snd (elapse dt w)).
Proof.
  unfold elapse.
  match goal with
  | |- context [forEach ?l ?f ?w0] =>
      destruct (steady_forEach l f
                  (fun x => steady_uncaught _
                              (steady_discardUnsentPendingMessages (snd x))) w0)
        as [Hn [more Ht]]
  end.
  rewrite Hn, Ht. simpl. split; [done|].
  intros timer Hin Hdue. apply elem_of_app. left.
  apply list_elem_of_In, filter_In. split; [by apply list_elem_of_In|].
  by rewrite Hdue.
Qed.

Lemma armed_perform due c a w :
  armed due c w -> armed due c (snd (perform a w)).
Proof.
  intros [Ht|(Hc & Hin & Hnow)].
  { left. eapply tombstoned_le; [apply grows_perform|done]. }
  assert (Hsteady : steady (perform a) ->
                    armed due c (snd (perform a w))).
  { intros Hs. destruct (Hs w) as [Hn [more Hmore]]. right.
    split; [eapply is_Some_le; [apply grows_perform|done]|].
    rewrite Hn, Hmore. split; [|done]. apply elem_of_app. by left. }
  destruct a; try (apply Hsteady; simpl; steady; fail).
  - apply Hsteady. simpl. steady. apply steady_addChannel.
  - apply Hsteady, steady_CRDPChannel_send.
  - apply Hsteady, steady_CRDPChannel_on.
  - apply Hsteady, steady_CRDPChannel_removeListener.
  - apply Hsteady, steady_onMessage.
  - simpl perform. destruct (elapse_clock dt w) as [Hn Hkeep].
    destruct (isDue (now w + dt) (due, c)) eqn:Hdue.
    + left. unfold elapse. apply forEach_discard_tombstones; [|done].
      exists due. apply list_elem_of_In, filter_In.
      split; [by apply list_elem_of_In|done].
    + right. split; [eapply is_Some_le; [apply grows_elapse|done]|].
      split; [by apply Hkeep|].
      rewrite Hn. unfold isDue in Hdue. simpl in Hdue.
      by apply N.leb_gt in Hdue.
Qed.

Lemma armed_run due c actions : forall w,
  armed due c w -> armed due c (run actions w).
Proof.
  induction actions as [|a actions IH]; intros w H; simpl; [done|].
  by apply IH, armed_perform.
Qed.

Lemma armed_due due c w : armed due c w -> (due <= now w)%N -> tombstoned c w.
Proof. intros [Ht|(_ & _ & Hnow)] Hdue; [done|lia]. Qed.

(** The first subscription arms the channel for 60 seconds later. *)
Lemma on_message_arms w c this cb :
  _channels (mux w) !! c = Some this ->
  _messageCallbacks this = [] ->
  armed (now w + timeToPreserveMessagesInMillis) c
    (snd (CRDPChannel_on c "message" cb w)).
Proof.
  intros Hc Hcb. unfold CRDPChannel_on.
  rewrite (bind_Returned _ _ _ this w) by (by apply channelAt_Some).
  rewrite Hcb. simpl.
  destruct (_pendingMessagesForDomain this) eqn:Hp.
  - right. simpl. split; [|split].
    + rewrite list_lookup_insert_eq by (by eapply lookup_lt_Some). by eexists.
    + apply elem_of_app. right. apply list_elem_of_singleton. reflexivity.
    + unfold timeToPreserveMessagesInMillis. lia.
  - left. eexists. simpl. split.
    + apply list_lookup_insert_eq. by eapply lookup_lt_Some.
    + done.
Qed.

(** ** What subscribers are called with *)

Section Within.
Variable allowed : nat -> Message -> Prop.

Lemma within_same {A} (m : M A) :
  (forall w, _channels (mux (snd (m w))) = _channels (mux w) /\
             calls (snd (m w)) = calls w) ->
  within allowed m.
Proof.
  intros H w Hpre. destruct (H w) as [Hch Hcalls]. split.
  - intros c d (this & Hc & Hb). apply Hpre. exists this. by rewrite <- Hch.
  - exists []. rewrite app_nil_r. split; [done|].
    intros c cb d Hin. by apply elem_of_nil in Hin.
Qed.

Lemma within_ret {A} (a : A) : within allowed (ret a).
Proof. by apply within_same. Qed.

Lemma within_throw {A} e : within allowed (@throw A e).
Proof. by apply within_same. Qed.

Lemma within_getMux : within allowed getMux.
Proof. by apply within_same. Qed.

Lemma within_bind {A B} (m : M A) (k : A -> M B) :
  within allowed m -> (forall a, within allowed (k a)) ->
  within allowed (bind m k).
Proof.
  intros Hm Hk w Hpre. unfold bind. specialize (Hm w Hpre).
  destruct (m w) as [[a|e] w1]; simpl in *; [|done].
  destruct Hm as [Hpre1 (new1 & Hcalls1 & Hnew1)].
  destruct (Hk a w1 Hpre1) as [Hpre2 (new2 & Hcalls2 & Hnew2)].
  split; [done|]. exists (new1 ++ new2)%list.
  rewrite Hcalls2, Hcalls1, app_assoc. split; [done|].
  intros c cb d Hin. apply elem_of_app in Hin as [Hin|Hin]; eauto.
Qed.

Lemma within_forEach {A} (l : list A) (f : A -> M unit) :
  (forall x, x ∈ l -> within allowed (f x)) -> within allowed (forEach l f).
Proof.
  induction l as [|x l IH]; intros Hf; simpl.
  - apply within_ret.
  - apply within_bind; [apply Hf; by left|]. intros _.
    apply IH. intros y Hy. apply Hf. by right.
Qed.

Lemma within_uncaught m : within allowed m -> within allowed (uncaught m).
Proof. intros H w. apply H. Qed.

Lemma within_invoke c data cb :
  allowed c data -> within allowed (invoke c data cb).
Proof.
  intros Hd w Hpre. split; [done|]. exists [(c, cb, data)]. split; [done|].
  intros c' cb' d' Hin. apply list_elem_of_singleton in Hin.
  by injection Hin as -> -> ->.
Qed.

Lemma within_setChannel c channel :
  (forall d, buffered channel d -> allowed c d) ->
  within allowed (setChannel c channel).
Proof.
  intros Hch w Hpre. rewrite setChannel_eq. split.
  - intros c' d (this & Hc & Hb). simpl in Hc.
    apply list_lookup_insert_Some in Hc as [(-> & -> & _)|[Hne Hc]].
    + by apply Hch.
    + apply Hpre. by exists this.
  - exists []. simpl. rewrite app_nil_r. split; [done|].
    intros c' cb d Hin. by apply elem_of_nil in Hin.
Qed.

Lemma within_channelAt c : within allowed (channelAt c).
Proof.
  apply within_same. intros w. unfold channelAt, bind, getMux.
  by destruct (_channels (mux w) !! c).
Qed.

Lemma within_channelAt_bind {B} c (k : CRDPChannel -> M B) :
  (forall this, (forall d, buffered this d -> allowed c d) ->
                within allowed (k this)) ->
  within allowed (bind (channelAt c) k).
Proof.
  intros H w Hpre. destruct (_channels (mux w) !! c) as [this|] eqn:Hc.
  - rewrite (bind_Returned _ _ _ this w) by (by apply channelAt_Some).
    apply H; [|done]. intros d Hb. apply Hpre. by exists this.
  - rewrite (bind_Threw _ _ _ TypeError w) by (by apply channelAt_None).
    by apply within_throw.
Qed.

Lemma within_extractDomain method : within allowed (extractDomain method).
Proof. apply within_same. intros w. by rewrite extractDomain_pure. Qed.

Lemma within_callMessageCallbacks c data :
  allowed c data -> within allowed (callMessageCallbacks c data).
Proof.
  intros Hd. apply within_bind; [apply within_channelAt|]. intros this.
  apply within_forEach. intros cb _. by apply within_invoke.
Qed.

Lemma buffered_store this pending domain data d :
  _pendingMessagesForDomain this = Some pending ->
  buffered
    (with_pendingMessagesForDomain this
       (Some (<[domain := (default [] (pending !! domain) ++ [data])%list]>
                pending))) d ->
  d = data \/ buffered this d.
Proof.
  intros Hp (domain' & l & Hl & Hin). unfold pendingAt in Hl. simpl in Hl.
  apply lookup_insert_Some in Hl as [[<- <-]|[Hne Hl]].
  - apply elem_of_app in Hin as [Hin|Hin].
    + right. destruct (pending !! domain) as [old|] eqn:Hold;
        [|by apply elem_of_nil in Hin].
      exists domain, old. unfold pendingAt. by rewrite Hp.
    + left. by apply list_elem_of_singleton in Hin.
  - right. exists domain', l. unfold pendingAt. by rewrite Hp.
Qed.

Lemma within_callDomainMessageCallbacks c domain data :
  allowed c data ->
  within allowed (callDomainMessageCallbacks c domain data).
Proof.
  intros Hd. apply within_bind; [apply within_channelAt|]. intros this.
  destruct (isEnabled this domain); [by apply within_callMessageCallbacks|].
  destruct (_pendingMessagesForDomain this); [|apply within_ret].
  apply within_channelAt_bind. intros that Hthat.
  destruct (_pendingMessagesForDomain that) as [pending|] eqn:Hp;
    [|apply within_throw].
  apply within_setChannel. intros d Hb.
  apply (buffered_store that pending) in Hb as [->|Hb]; auto.
Qed.

Lemma buffered_delete this pending domain d :
  _pendingMessagesForDomain this = Some pending ->
  buffered
    (with_pendingMessagesForDomain this (Some (delete domain pending))) d ->
  buffered this d.
Proof.
  intros Hp (domain' & l & Hl & Hin). unfold pendingAt in Hl. simpl in Hl.
  apply lookup_delete_Some in Hl as [_ Hl].
  exists domain', l. unfold pendingAt. by rewrite Hp.
Qed.

Lemma within_sendUnsentPendingMessages c domain :
  within allowed (sendUnsentPendingMessages c domain).
Proof.
  apply within_channelAt_bind. intros this Hthis.
  destruct (_pendingMessagesForDomain this) as [pending|] eqn:Hp;
    [|apply within_ret].
  destruct (get pending domain) as [l| |] eqn:Hl;
    destruct (negb (length (_messageCallbacks this) =? 0)%nat);
    try apply within_ret; try apply within_throw.
  apply get_Own_inv in Hl. apply within_bind.
  - apply within_setChannel. intros d Hb. apply Hthis.
    by apply (buffered_delete this pending domain).
  - intros _. apply within_forEach. intros d Hd.
    apply within_callDomainMessageCallbacks, Hthis.
    exists domain, l. unfold pendingAt. by rewrite Hp.
Qed.

Lemma within_discardUnsentPendingMessages c :
  within allowed (discardUnsentPendingMessages c).
Proof.
  apply within_channelAt_bind. intros this Hthis.
  destruct (_pendingMessagesForDomain this); [|apply within_throw].
  apply within_setChannel. by intros d (domain & l & Hl & _).
Qed.

Lemma within_CRDPMultiplexor_send channel data :
  within allowed (CRDPMultiplexor_send channel data).
Proof.
  apply within_same. intros w. unfold CRDPMultiplexor_send, bind.
  by destruct (msg_id data).
Qed.

Lemma within_CRDPChannel_send c data : within allowed (CRDPChannel_send c data).
Proof.
  unfold CRDPChannel_send. apply within_bind.
  - destruct (truthy (msg_method data) &&
              endsWith (default "" (msg_method data)) ".enable");
      [|apply within_ret].
    apply within_bind; [apply within_extractDomain|]. intros domain.
    apply within_channelAt_bind. intros this Hthis.
    apply within_bind; [|intros _; apply within_ret].
    apply within_setChannel. intros d Hb. by apply Hthis.
  - intros domain. apply within_bind; [apply within_channelAt|]. intros this.
    apply within_bind; [apply within_CRDPMultiplexor_send|]. intros _.
    destruct domain;
      [apply within_sendUnsentPendingMessages|apply within_ret].
Qed.

Lemma within_CRDPChannel_on c event cb :
  within allowed (CRDPChannel_on c event cb).
Proof.
  apply within_channelAt_bind. intros this Hthis.
  destruct (String.eqb event "message"); [|by apply within_same].
  apply within_bind.
  - destruct (length (_messageCallbacks this) =? 0)%nat;
      [by apply within_same|apply within_ret].
  - intros _. apply within_setChannel. intros d Hb. by apply Hthis.
Qed.

Lemma within_CRDPChannel_removeListener c event cb :
  within allowed (CRDPChannel_removeListener c event cb).
Proof.
  apply within_channelAt_bind. intros this Hthis.
  destruct (String.eqb event "message"); [|by apply within_same].
  apply within_setChannel. intros d Hb. by apply Hthis.
Qed.

Lemma within_addChannel channelName : within allowed (addChannel channelName).
Proof.
  intros w Hpre. unfold addChannel, bind, getMux.
  destruct (10 <=? length (_channels (mux w)))%nat; [by apply within_throw|].
  simpl. split.
  - intros c d (this & Hc & Hb).
    apply lookup_app_Some in Hc as [Hc|[_ Hc]].
    + apply Hpre. by exists this.
    + apply list_lookup_singleton_Some in Hc as [_ <-].
      by destruct Hb as (domain & l & Hl & _).
  - exists []. rewrite app_nil_r. split; [done|].
    intros c cb d Hin. by apply elem_of_nil in Hin.
Qed.

Lemma within_onMessage data :
  (forall c d, d ∈ inbound (DoReceive data) -> allowed c d) ->
  within allowed (onMessage data).
Proof.
  intros Hin. unfold onMessage. destruct (msg_id data) as [i|] eqn:Hid.
  - unfold onResponseMessage. rewrite Hid.
    apply within_bind; [apply within_getMux|]. intros m.
    destruct (arrayAt (_channels m) (decodifyChannelId i));
      [|apply within_throw].
    apply within_callMessageCallbacks, Hin. simpl. rewrite Hid.
    right. by left.
  - destruct (truthy (msg_method data)); [|apply within_throw].
    unfold onDomainNotification.
    destruct (msg_method data) as [method|]; [|apply within_throw].
    apply within_bind; [apply within_extractDomain|]. intros domain.
    apply within_bind; [apply within_getMux|]. intros m.
    apply within_forEach. intros c _.
    apply within_bind; [apply within_channelAt|]. intros channel.
    destruct (breaksNotification _ _ _); [apply within_ret|].
    apply within_callDomainMessageCallbacks, Hin. by left.
Qed.

Lemma within_elapse dt : within allowed (elapse dt).
Proof.
  intros w Hpre. unfold elapse.
  match goal with
  | |- context [forEach ?l ?f ?w0] =>
      apply (within_forEach l f
               (fun x _ => within_uncaught _
                             (within_discardUnsentPendingMessages (snd x))) w0)
  end.
  exact Hpre.
Qed.

Lemma within_perform a :
  (forall c d, d ∈ inbound a -> allowed c d) -> within allowed (perform a).
Proof.
  intros Hin. destruct a; simpl perform.
  - apply within_bind; [apply within_addChannel|intros _; apply within_ret].
  - apply within_CRDPChannel_send.
  - apply within_CRDPChannel_on.
  - apply within_CRDPChannel_removeListener.
  - by apply within_onMessage.
  - apply within_elapse.
Qed.

Lemma within_run actions : forall w,
  (forall c d, d ∈ arriving actions -> allowed c d) ->
  (forall c d, bufferedAt w c d -> allowed c d) ->
  exists new, calls (run actions w) = (calls w ++ new)%list /\
              forall c cb d, (c, cb, d) ∈ new -> allowed c d.
Proof.
  induction actions as [|a actions IH]; intros w Hin Hpre; simpl.
  - exists []. rewrite app_nil_r. split; [done|].
    intros c cb d H. by apply elem_of_nil in H.
  - destruct (within_perform a) with (w := w)
      as [Hpre1 (new1 & Hcalls1 & Hnew1)]; [|done|].
    { intros c d Hd. apply Hin. unfold arriving. simpl.
      apply elem_of_app. by left. }
    destruct (IH (snd (perform a w))) as (new2 & Hcalls2 & Hnew2); [|done|].
    { intros c d Hd. apply Hin. unfold arriving. simpl.
      apply elem_of_app. by right. }
    exists (new1 ++ new2)%list. rewrite Hcalls2, Hcalls1, app_assoc.
    split; [done|]. intros c cb d H.
    apply elem_of_app in H as [H|H]; eauto.
Qed.
End Within.

(** ** C8: eviction of the buffers *)

Lemma tombstoned_not_buffered c w d : tombstoned c w -> ~ bufferedAt w c d.
Proof.
  intros (this & Hc & Hp) (that & Hc' & domain & l & Hl & _).
  rewrite Hc in Hc'. injection Hc' as <-. unfold pendingAt in Hl.
  by rewrite Hp in Hl.
Qed.

(** C8: let a channel get its first "message" subscriber at time T.  The
    call sets a timer for T + 60000 ms.  Whatever happens in between, once
    the clock has reached T + 60000 the buffers of the channel are gone, all
    domains at once, and they stay gone.  From then on no send on the
    channel, an enable included, makes a subscriber of the channel be
    called, and every call of such a subscriber carries a message that
    arrived from the socket after that moment: nothing that was discarded
    is delivered. *)
Theorem eviction_after_first_subscription w c this cb before after :
  _channels (mux w) !! c = Some this ->
  _messageCallbacks this = [] ->
  let subscribed := snd (CRDPChannel_on c "message" cb w) in
  let expired := run before subscribed in
  (now w + 60000 <= now expired)%N ->
  let later := run after expired in
  timeouts subscribed = (timeouts w ++ [((now w + 60000)%N, c)])%list /\
  tombstoned c expired /\
  tombstoned c later /\
  (forall data, calls (snd (CRDPChannel_send c data later)) = calls later) /\
  exists new, calls later = (calls expired ++ new)%list /\
              forall cb' d, (c, cb', d) ∈ new -> d ∈ arriving after.
Proof.
  intros Hc Hcb subscribed expired Hnow later.
  assert (Hexpired : tombstoned c expired).
  { apply (armed_due (now w + timeToPreserveMessagesInMillis)); [|done].
    apply armed_run. by apply (on_message_arms w c this). }
  assert (Hlater : tombstoned c later)
    by (eapply tombstoned_le; [apply world_le_run|done]).
  split; [|split; [done|split; [done|split]]].
  - unfold subscribed, CRDPChannel_on.
    rewrite (bind_Returned _ _ _ this w) by (by apply channelAt_Some).
    by rewrite Hcb.
  - intros data. destruct Hlater as (that & Hthat & Hp).
    apply (CRDPChannel_send_flushes_nothing later c that); [done|].
    intros method domain _ _. unfold pendingAt. by rewrite Hp.
  - destruct (within_run (fun c' d => c' = c -> d ∈ arriving after)
                after expired) as (new & Hcalls & Hnew).
    + done.
    + intros c' d Hb ->. by destruct (tombstoned_not_buffered c expired d).
    + exists new. split; [done|]. intros cb' d Hin. by apply (Hnew c cb' d).
Qed.

Lemma eviction_after_first_subscription_witness :
  let subscribed := snd (CRDPChannel_on 0 "message" 1%nat twoChannels) in
  let expired :=
    run [DoReceive (notification "Network.requestWillBeSent" "1");
         DoElapse 60000] subscribed in
  tombstoned 0 expired /\
  forall data, calls (snd (CRDPChannel_send 0 data expired)) = calls expired.
Proof.
  pose proof (eviction_after_first_subscription twoChannels 0
                (freshChannel "debugger" 0) 1%nat
                [DoReceive (notification "Network.requestWillBeSent" "1");
                 DoElapse 60000] []
                eq_refl eq_refl ltac:(vm_compute; discriminate))
    as (_ & Hexpired & _ & Hsilent & _).
  split; [exact Hexpired|exact Hsilent].
Defined.


(** * Further properties of the code *)

(** ** extractDomain *)

Lemma split_cons sep a s :
  split sep (String a s) =
  if Ascii.eqb a sep then "" :: split sep s
  else match split sep s with
       | p :: ps => String a p :: ps
       | [] => [String a ""]
       end.
Proof. reflexivity. Qed.

Lemma split_without sep s : occurs sep s = false -> split sep s = [s].
Proof.
  induction s as [|a s IH]; [done|]. rewrite split_cons. simpl.
  intros H. apply orb_false_iff in H as [Ha Hs]. by rewrite Ha, (IH Hs).
Qed.

Lemma split_app sep before after :
  occurs sep before = false ->
  split sep (before ++ String sep after) = before :: split sep after.
Proof.
  induction before as [|a before IH]; intros H.
  - rewrite append_nil, split_cons. by rewrite Ascii.eqb_refl.
  - simpl in H. apply orb_false_iff in H as [Ha Hs].
    rewrite append_cons, split_cons, Ha, (IH Hs). reflexivity.
Qed.

Lemma split_head_without sep s p ps :
  split sep s = p :: ps -> occurs sep p = false.
Proof.
  revert p ps. induction s as [|a s IH]; intros p ps.
  - by intros [= <- <-].
  - rewrite split_cons. destruct (Ascii.eqb a sep) eqn:Ha.
    + by intros [= <- <-].
    + destruct (split sep s) as [|q qs] eqn:Hs;
        [by destruct (split_nonempty _ _ Hs)|].
      intros [= <- <-]. simpl. by rewrite Ha, (IH q qs).
Qed.

Lemma split_tail sep s a ps :
  split sep s = a :: ps -> ps <> [] ->
  exists rest, s = a ++ String sep rest /\ split sep rest = ps.
Proof.
  revert a ps. induction s as [|x s IH]; intros a ps.
  - by intros [= <- <-].
  - rewrite split_cons. destruct (Ascii.eqb_spec x sep) as [->|Hne].
    + intros [= <- <-] _. by exists s.
    + destruct (split sep s) as [|q qs] eqn:Hs;
        [by destruct (split_nonempty _ _ Hs)|].
      intros [= <- <-] Hps. destruct (IH q qs eq_refl Hps) as (rest & -> & Hr).
      by exists rest.
Qed.

(** X1: [extractDomain] returns D exactly for the methods of the shape
    D.member in which neither D nor member contains a dot; for every other
    method it throws the not-exactly-two-parts error.  It never changes the
    world. *)
Theorem extractDomain_spec method w :
  (forall domain w',
     extractDomain method w = (Returned domain, w') <->
     w' = w /\ exists member,
       method = domain ++ String "." member /\
       occurs "." domain = false /\ occurs "." member = false) /\
  ((forall domain member,
      method = domain ++ String "." member ->
      occurs "." domain = false -> occurs "." member = false -> False) ->
   extractDomain method w = (Threw MalformedMethodName, w)).
Proof.
  assert (Hret : forall domain w',
     extractDomain method w = (Returned domain, w') <->
     w' = w /\ exists member,
       method = domain ++ String "." member /\
       occurs "." domain = false /\ occurs "." member = false).
  { intros domain w'. split.
    - unfold extractDomain.
      destruct (split "." method) as [|a [|b [|? ?]]] eqn:Hs; simpl; try done.
      intros [= <- <-]. split; [done|]. exists b.
      destruct (split_tail _ _ _ _ Hs) as (rest & -> & Hrest); [done|].
      split; [by rewrite (split_one _ _ _ Hrest)|].
      split; [by apply (split_head_without _ _ _ _ Hs)|].
      by apply (split_head_without _ _ _ _ Hrest).
    - intros [-> (member & -> & Hd & Hm)]. unfold extractDomain.
      by rewrite (split_app _ _ _ Hd), (split_without _ _ Hm). }
  split; [done|]. intros Hnone.
  destruct (extractDomain_cases method w) as [[domain Hd]|Hd]; [|done].
  apply Hret in Hd as [_ (member & Hm & H1 & H2)].
  by destruct (Hnone domain member).
Qed.

Lemma extractDomain_spec_witness :
  extractDomain "Page.frame.navigated" twoChannels =
  (Threw MalformedMethodName, twoChannels).
Proof.
  apply (proj2 (extractDomain_spec "Page.frame.navigated" twoChannels)).
  intros domain member Hm Hd Hmember.
  assert (Hs : split "." "Page.frame.navigated" =
               domain :: split "." member)
    by (rewrite Hm; by apply split_app).
  rewrite (split_without _ _ Hmember) in Hs. discriminate Hs.
Defined.

(** ** onMessage: messages that are neither responses nor notifications *)

(** X2: an inbound message without an id whose method is missing or empty
    makes [onMessage] throw the neither-id-nor-method error; one whose
    method does not have exactly two dot-separated parts makes it throw the
    not-exactly-two-parts error.  In both cases no channel is touched: the
    world is the one before. *)
Theorem onMessage_malformed data w :
  msg_id data = None ->
  (truthy (msg_method data) = false ->
   onMessage data w = (Threw MalformedMessage, w)) /\
  (forall method,
     msg_method data = Some method -> method <> "" ->
     length (split "." method) <> 2%nat ->
     onMessage data w = (Threw MalformedMethodName, w)).
Proof.
  intros Hid. unfold onMessage. rewrite Hid. split.
  - by intros ->.
  - intros method Hm Hne Hparts. rewrite Hm.
    replace (truthy (Some method)) with true
      by (destruct method; [done|reflexivity]).
    unfold onDomainNotification. rewrite Hm.
    apply bind_Threw. unfold extractDomain.
    by destruct (Nat.eqb_spec (length (split "." method)) 2).
Qed.

Lemma onMessage_malformed_witness :
  onMessage (notification "" "") twoChannels =
    (Threw MalformedMessage, twoChannels) /\
  onMessage (notification "paused" "") twoChannels =
    (Threw MalformedMethodName, twoChannels).
Proof.
  split.
  - apply (proj1 (onMessage_malformed (notification "" "") twoChannels
                    eq_refl)). reflexivity.
  - apply (proj2 (onMessage_malformed (notification "paused" "") twoChannels
                    eq_refl) "paused"); [reflexivity|discriminate|].
    vm_compute. discriminate.
Defined.

(** ** CRDPChannel.send: requests that enable nothing *)

(** X3: a message whose method ends in ".enable" but does not have exactly
    two dot-separated parts makes [CRDPChannel.send] throw the
    not-exactly-two-parts error before anything else happens: no domain is
    enabled, nothing is written to the socket, the world is unchanged. *)
Theorem CRDPChannel_send_malformed_enable w c data method :
  msg_method data = Some method ->
  endsWith method ".enable" = true ->
  length (split "." method) <> 2%nat ->
  CRDPChannel_send c data w = (Threw MalformedMethodName, w).
Proof.
  intros Hm He Hparts. unfold CRDPChannel_send. rewrite Hm. simpl default.
  rewrite (endsWith_truthy method ".enable") by done. rewrite He. simpl andb.
  cbv iota. apply bind_Threw, bind_Threw. unfold extractDomain.
  by destruct (Nat.eqb_spec (length (split "." method)) 2).
Qed.

Lemma CRDPChannel_send_malformed_enable_witness :
  CRDPChannel_send 0 (request 7 "Page.lifecycle.enable" "") twoChannels =
  (Threw MalformedMethodName, twoChannels).
Proof.
  apply (CRDPChannel_send_malformed_enable twoChannels 0
           (request 7 "Page.lifecycle.enable" "") "Page.lifecycle.enable");
    [reflexivity|reflexivity|vm_compute; discriminate].
Defined.

Lemma CRDPChannel_send_plain_eq w c this data :
  _channels (mux w) !! c = Some this ->
  truthy (msg_method data) &&
    endsWith (default "" (msg_method data)) ".enable" = false ->
  CRDPChannel_send c data w = CRDPMultiplexor_send this data w.
Proof.
  intros Hc Hplain. unfold CRDPChannel_send. rewrite Hplain.
  rewrite (bind_Returned _ _ _ None w) by reflexivity.
  rewrite (bind_Returned _ _ _ this w) by (by apply channelAt_Some).
  unfold bind. by destruct (CRDPMultiplexor_send this data w) as [[[]|e] w1].
Qed.




(** ** Relations that every operation respects *)

Lemma channelAt_world c w : snd (channelAt c w) = w.
Proof.
  unfold channelAt, bind, getMux. by destruct (_channels (mux w) !! c).
Qed.

Lemma extractDomain_world method w : snd (extractDomain method w) = w.
Proof. by rewrite extractDomain_pure. Qed.

Section Respects.
Variable R : World -> World -> Prop.
Hypothesis R_refl : forall w, R w w.
Hypothesis R_trans : forall w1 w2 w3, R w1 w2 -> R w2 w3 -> R w1 w3.
Hypothesis R_invoke : forall c data cb, respects R (invoke c data cb).
Hypothesis R_setChannel : forall c channel, respects R (setChannel c channel).
Hypothesis R_send : forall channel data, respects R (CRDPMultiplexor_send channel data).
Hypothesis R_socket_call : forall call, respects R (socket_call call).
Hypothesis R_setTimeout : forall c delay, respects R (setTimeout c delay).
Hypothesis R_addChannel : forall channelName, respects R (addChannel channelName).
Hypothesis R_tick : forall dt w, R w (tick dt w).

Lemma respects_ret {A} (a : A) : respects R (ret a).
Proof. intros w. apply R_refl. Qed.

Lemma respects_throw {A} e : respects R (@throw A e).
Proof. intros w. apply R_refl. Qed.

Lemma respects_getMux : respects R getMux.
Proof. intros w. apply R_refl. Qed.

Lemma respects_channelAt c : respects R (channelAt c).
Proof. intros w. rewrite channelAt_world. apply R_refl. Qed.

Lemma respects_extractDomain method : respects R (extractDomain method).
Proof. intros w. rewrite extractDomain_world. apply R_refl. Qed.

Lemma respects_bind {A B} (m : M A) (k : A -> M B) :
  respects R m -> (forall a, respects R (k a)) -> respects R (bind m k).
Proof.
  intros Hm Hk w. unfold bind. specialize (Hm w).
  destruct (m w) as [[a|e] w1]; simpl in *; [|done].
  eapply R_trans; [done|apply Hk].
Qed.

Lemma respects_forEach {A} (l : list A) (f : A -> M unit) :
  (forall x, respects R (f x)) -> respects R (forEach l f).
Proof.
  intros Hf. induction l as [|x l IH]; simpl.
  - apply respects_ret.
  - apply respects_bind; [apply Hf|by intros _].
Qed.

Lemma respects_uncaught m : respects R m -> respects R (uncaught m).
Proof. intros H w. apply H. Qed.

Ltac respects :=
  repeat match goal with
    | |- respects R (ret _) => apply respects_ret
    | |- respects R (throw _) => apply respects_throw
    | |- respects R (throwCriticalError _) => apply respects_throw
    | |- respects R getMux => apply respects_getMux
    | |- respects R (channelAt _) => apply respects_channelAt
    | |- respects R (extractDomain _) => apply respects_extractDomain
    | |- respects R (invoke _ _ _) => apply R_invoke
    | |- respects R (invoke _ _) => intros ?
    | |- respects R (setChannel _ _) => apply R_setChannel
    | |- respects R (CRDPMultiplexor_send _ _) => apply R_send
    | |- respects R (socket_call _) => apply R_socket_call
    | |- respects R (setTimeout _ _) => apply R_setTimeout
    | |- respects R (addChannel _) => apply R_addChannel
    | |- respects R (uncaught _) => apply respects_uncaught
    | |- respects R (bind _ _) => apply respects_bind; [|intros ?]
    | |- respects R (forEach _ _) => apply respects_forEach; intros ?
    | |- respects R (match ?x with _ => _ end) => destruct x
    end.

Lemma respects_callMessageCallbacks c data :
  respects R (callMessageCallbacks c data).
Proof. unfold callMessageCallbacks. respects. Qed.

Lemma respects_callDomainMessageCallbacks c domain data :
  respects R (callDomainMessageCallbacks c domain data).
Proof.
  unfold callDomainMessageCallbacks, storeMessageForLater. respects.
  apply respects_callMessageCallbacks.
Qed.

Lemma respects_sendUnsentPendingMessages c domain :
  respects R (sendUnsentPendingMessages c domain).
Proof.
  unfold sendUnsentPendingMessages. respects.
  apply respects_callDomainMessageCallbacks.
Qed.

Lemma respects_discardUnsentPendingMessages c :
  respects R (discardUnsentPendingMessages c).
Proof. unfold discardUnsentPendingMessages. respects. Qed.

Lemma respects_CRDPChannel_send c data : respects R (CRDPChannel_send c data).
Proof.
  unfold CRDPChannel_send. respects.
  apply respects_sendUnsentPendingMessages.
Qed.

Lemma respects_CRDPChannel_on c event cb :
  respects R (CRDPChannel_on c event cb).
Proof.
  unfold CRDPChannel_on, addListenerOfNonMultiplexedEvent. respects.
Qed.

Lemma respects_CRDPChannel_removeListener c event cb :
  respects R (CRDPChannel_removeListener c event cb).
Proof.
  unfold CRDPChannel_removeListener, removeListenerOfNonMultiplexedEvent.
  respects.
Qed.

Lemma respects_onMessage data : respects R (onMessage data).
Proof.
  unfold onMessage, onResponseMessage, onDomainNotification. respects;
    first [apply respects_callMessageCallbacks
          | apply respects_callDomainMessageCallbacks].
Qed.

Lemma respects_elapse dt : respects R (elapse dt).
Proof.
  intros w. eapply R_trans; [apply (R_tick dt)|].
  apply (respects_forEach _
           (fun timer => uncaught (discardUnsentPendingMessages (snd timer)))).
  intros timer. apply respects_uncaught, respects_discardUnsentPendingMessages.
Qed.

Lemma respects_perform a : respects R (perform a).
Proof.
  destruct a; simpl perform.
  - respects.
  - apply respects_CRDPChannel_send.
  - apply respects_CRDPChannel_on.
  - apply respects_CRDPChannel_removeListener.
  - apply respects_onMessage.
  - apply respects_elapse.
Qed.

Lemma respects_run actions w : R w (run actions w).
Proof.
  revert w. induction actions as [|a actions IH]; intros w; simpl.
  - apply R_refl.
  - eapply R_trans; [apply respects_perform|apply IH].
Qed.
End Respects.


(** ** Channel ids and indices *)

Lemma sameLength_perform a w :
  (forall channelName, a <> DoAddChannel channelName) ->
  sameLength w (snd (perform a w)).
Proof.
  intros Hadd.
  assert (Hrefl : forall w, sameLength w w) by done.
  assert (Htrans : forall w1 w2 w3,
            sameLength w1 w2 -> sameLength w2 w3 -> sameLength w1 w3)
    by (unfold sameLength; intros; congruence).
  assert (Hinvoke : forall c data cb, respects sameLength (invoke c data cb))
    by done.
  assert (Hset : forall c channel, respects sameLength (setChannel c channel))
    by (intros c channel w'; unfold sameLength; simpl; apply length_insert).
  assert (Hsend : forall channel data,
            respects sameLength (CRDPMultiplexor_send channel data)).
  { intros channel data w'. unfold sameLength, CRDPMultiplexor_send, bind.
    by destruct (msg_id data). }
  assert (Hcall : forall call, respects sameLength (socket_call call)) by done.
  assert (Htimer : forall c delay, respects sameLength (setTimeout c delay))
    by done.
  assert (Htick : forall dt w, sameLength w (tick dt w)) by done.
  destruct a; simpl perform.
  - by destruct (Hadd channelName).
  - by apply respects_CRDPChannel_send.
  - by apply respects_CRDPChannel_on.
  - by apply respects_CRDPChannel_removeListener.
  - by apply respects_onMessage.
  - by apply respects_elapse.
Qed.

Lemma wellFormed_perform a w : wellFormed w -> wellFormed (snd (perform a w)).
Proof.
  intros [Hlen Hid].
  assert (Hcases : (exists channelName, a = DoAddChannel channelName) \/
                   forall channelName, a <> DoAddChannel channelName)
    by (destruct a; eauto).
  destruct Hcases as [[channelName ->]|Hother].
  - simpl perform. unfold bind.
    destruct (Nat.le_gt_cases 10 (length (_channels (mux w)))) as [Hfull|Hroom].
    + by rewrite addChannel_full.
    + rewrite addChannel_room by done. unfold wellFormed, appendChannel.
      simpl. split.
      * rewrite length_app. simpl. lia.
      * intros c this Hc. apply lookup_app_Some in Hc as [Hc|[Hge Hc]].
        -- by apply Hid.
        -- apply list_lookup_singleton_Some in Hc as [Hc <-]. simpl.
           f_equal. lia.
  - assert (Hsame : sameLength w (snd (perform a w))).
    { by apply sameLength_perform. }
    split; [unfold sameLength in Hsame; lia|].
    intros c that Hc.
    assert (Hlt : (c < length (_channels (mux w)))%nat)
      by (rewrite <- Hsame; by eapply lookup_lt_Some).
    destruct (lookup_lt_is_Some_2 _ _ Hlt) as [this Hthis].
    destruct (grows_perform a w c this Hthis) as (that' & Hthat' & Hle).
    rewrite Hc in Hthat'. injection Hthat' as <-.
    rewrite (le_id _ _ Hle). by apply Hid.
Qed.

Lemma wellFormed_run actions w :
  wellFormed w -> wellFormed (run actions w).
Proof.
  revert w. induction actions as [|a actions IH]; intros w Hw; simpl; [done|].
  by apply IH, wellFormed_perform.
Qed.

Lemma wellFormed_newWorld noDebugger : wellFormed (newWorld noDebugger).
Proof. split; [simpl; lia|]. intros c this Hc. done. Qed.

(** X5: in every world that a fresh multiplexor can reach, there are at
    most ten channels and the channel at index c has id c: ids are distinct
    and lie in [0,9], whatever the clients do. *)
Theorem wellFormed_reachable noDebugger actions :
  wellFormed (run actions (newWorld noDebugger)).
Proof. apply wellFormed_run, wellFormed_newWorld. Qed.

(** ** A response finds the sender of its request *)

Lemma decodify_encodify c i :
  0 <= c <= 9 -> 0 <= i -> i * 10 + c <= MAX_SAFE_INTEGER ->
  decodifyChannelId (encodifyChannel c i) = c /\
  decodifyId (encodifyChannel c i) = i.
Proof.
  intros Hc Hi Hmax. rewrite encodifyChannel_safe by lia.
  destruct (decodify_encoded c i Hc Hi) as [Hrem Hdiv].
  split; [done|]. rewrite decodifyId_safe by lia. done.
Qed.

(** X6: in a world that a fresh multiplexor can reach, let a channel send a
    request with a non-negative id i whose encoding i*10 + channel.id does
    not exceed [Number.MAX_SAFE_INTEGER]; the id it goes out with is
    [encodifyChannel (id this) i].  A response carrying that id is delivered
    to the subscribers of that channel, with the id i the client chose, and
    changes nothing else. *)
Theorem response_returns_to_sender noDebugger actions c this i response :
  let w := run actions (newWorld noDebugger) in
  _channels (mux w) !! c = Some this ->
  0 <= i ->
  i * 10 + id this <= MAX_SAFE_INTEGER ->
  msg_id response = Some (encodifyChannel (id this) i) ->
  onMessage response w =
  (Returned tt,
   addCalls (deliveries c (_messageCallbacks this) (with_id response i)) w).
Proof.
  intros w Hc Hi Hmax Hid.
  destruct (wellFormed_run actions _ (wellFormed_newWorld noDebugger))
    as [Hlen Hids].
  fold w in Hlen, Hids. pose proof (Hids c this Hc) as Hme.
  assert (Hlt : (c < 10)%nat)
    by (apply lookup_lt_Some in Hc; lia).
  destruct (decodify_encodify (id this) i) as [Hch Hreq]; [lia|done|done|].
  unfold onMessage, onResponseMessage. rewrite Hid.
  rewrite (bind_Returned _ _ _ (mux w) w) by reflexivity.
  rewrite Hch, Hreq, Hme. unfold arrayAt.
  rewrite (proj2 (Z.ltb_ge _ _)) by lia. rewrite Nat2Z.id, Hc.
  by apply callMessageCallbacks_eq.
Qed.

Lemma response_returns_to_sender_witness :
  onMessage {| msg_id := Some 70; msg_method := None; msg_rest := "ok" |}
    buffering =
  (Returned tt,
   addCalls (deliveries 0 [1; 2]%nat
               {| msg_id := Some 7; msg_method := None; msg_rest := "ok" |})
     buffering).
Proof.
  assert (Hc : _channels (mux buffering) !! 0%nat = Some bufferingDebugger)
    by (vm_compute; reflexivity).
  exact (response_returns_to_sender (Some "tools") _ 0 bufferingDebugger 7
           {| msg_id := Some 70; msg_method := None; msg_rest := "ok" |}
           Hc ltac:(lia) ltac:(vm_compute; discriminate) eq_refl).
Defined.

(** ** What no operation undoes *)

(** X7: whatever sequence of operations runs, a channel stays at its index
    and keeps its name and id, a domain it has enabled stays enabled, and
    buffers that have been discarded stay discarded: no operation removes a
    channel, disables a domain or revives the buffers. *)
Theorem channels_move_forward actions w c this :
  _channels (mux w) !! c = Some this ->
  exists that,
    _channels (mux (run actions w)) !! c = Some that /\
    name that = name this /\ id that = id this /\
    (forall domain, isEnabled this domain = true ->
                    isEnabled that domain = true) /\
    (_pendingMessagesForDomain this = None ->
     _pendingMessagesForDomain that = None).
Proof.
  intros Hc. destruct (world_le_run actions w c this Hc) as (that & Hthat & Hle).
  exists that. destruct Hle. by repeat split.
Qed.

Lemma channels_move_forward_witness :
  exists that,
    _channels (mux (run [DoElapse 60000; DoAddChannel "late"] buffering))
      !! 0%nat = Some that /\
    name that = "debugger" /\ id that = 0.
Proof.
  assert (Hc : _channels (mux buffering) !! 0%nat = Some bufferingDebugger)
    by (vm_compute; reflexivity).
  destruct (channels_move_forward [DoElapse 60000; DoAddChannel "late"]
              buffering 0 bufferingDebugger Hc)
    as (that & Hthat & Hname & Hid & _).
  exists that. by repeat split.
Defined.

(** ** What goes out on the socket *)

Lemma writesIds_run actions w : writesIds w (run actions w).
Proof.
  assert (Hsame : forall w w' : World,
            sent (_wrappedLikeSocket (mux w')) =
            sent (_wrappedLikeSocket (mux w)) -> writesIds w w').
  { intros w1 w2 Heq. exists []. rewrite app_nil_r. split; [done|].
    intros data Hin. by apply elem_of_nil in Hin. }
  apply respects_run.
  - intros w'. by apply Hsame.
  - intros w1 w2 w3 (m1 & H1 & Hm1) (m2 & H2 & Hm2).
    exists (m1 ++ m2)%list. rewrite H2, H1, app_assoc. split; [done|].
    intros data Hin. apply elem_of_app in Hin as [Hin|Hin]; auto.
  - intros c data cb w'. by apply Hsame.
  - intros c channel w'. by apply Hsame.
  - intros channel data w'. unfold CRDPMultiplexor_send, bind.
    destruct (msg_id data) as [i|]; [|by apply Hsame].
    simpl. eexists. split; [reflexivity|].
    intros x Hin. apply list_elem_of_singleton in Hin as ->. by eexists.
  - intros call w'. by apply Hsame.
  - intros c delay w'. by apply Hsame.
  - intros channelName w'. apply Hsame. unfold addChannel, bind, getMux.
    by destruct (10 <=? length (_channels (mux w')))%nat.
  - intros dt w'. by apply Hsame.
Qed.

(** X8: everything a multiplexor ever writes to its socket carries an id:
    no notification and no id-less message of a client reaches the
    socket. *)
Theorem socket_receives_only_requests noDebugger actions data :
  data ∈ sent (_wrappedLikeSocket (mux (run actions (newWorld noDebugger)))) ->
  is_Some (msg_id data).
Proof.
  destruct (writesIds_run actions (newWorld noDebugger)) as (more & Heq & Hids).
  rewrite Heq. simpl. intros Hin. by apply Hids.
Qed.

Lemma socket_receives_only_requests_witness :
  is_Some (msg_id (request 51 "Network.enable" "")).
Proof.
  apply (socket_receives_only_requests (Some "tools")
           [DoAddChannel "debugger"; DoAddChannel "tools";
            DoSend 1 (notification "Network.enable" "");
            DoSend 1 (request 5 "Network.enable" "")]).
  vm_compute. apply list_elem_of_singleton. reflexivity.
Defined.


(** ** What an inbound message leaves alone *)

Lemma gate_frame c this domain data :
  let that := fst (gate c this domain data) in
  name that = name this /\ id that = id this /\
  _messageCallbacks that = _messageCallbacks this /\
  _enabledDomains that = _enabledDomains this.
Proof.
  unfold gate. destruct (isEnabled this domain); [done|].
  by destruct (_pendingMessagesForDomain this).
Qed.

Lemma fanOutChannel_frame noDebugger method domain data c this :
  let that := fst (fanOutChannel noDebugger method domain data c this) in
  name that = name this /\ id that = id this /\
  _messageCallbacks that = _messageCallbacks this /\
  _enabledDomains that = _enabledDomains this.
Proof.
  unfold fanOutChannel.
  destruct (breaksNotification noDebugger (name this) method); [done|].
  apply gate_frame.
Qed.

(** The three shapes of the world after [onMessage]. *)
Lemma onMessage_world data w :
  snd (onMessage data w) = w \/
  (exists new, snd (onMessage data w) = addCalls new w) \/
  (exists method domain, snd (onMessage data w) = fanOut method domain data w).
Proof.
  unfold onMessage. destruct (msg_id data) as [i|] eqn:Hid.
  - unfold onResponseMessage. rewrite Hid.
    rewrite (bind_Returned _ _ _ (mux w) w) by reflexivity.
    destruct (arrayAt (_channels (mux w)) (decodifyChannelId i))
      as [channel|] eqn:Hc; [|by left].
    right. left. eexists. rewrite (callMessageCallbacks_eq _ _ channel); [done|].
    unfold arrayAt in Hc. by destruct (decodifyChannelId i <? 0).
  - destruct (truthy (msg_method data)) eqn:Ht; [|by left].
    destruct (msg_method data) as [method|] eqn:Hm; [|done].
    destruct (extractDomain_cases method w) as [[domain Hd]|Hd].
    + right. right. exists method, domain.
      pose proof (onMessage_notification w data method domain Hid Hm Hd) as Heq.
      unfold onMessage in Heq. rewrite Hid, Hm, Ht in Heq. by rewrite Heq.
    + left. unfold onDomainNotification. rewrite Hm.
      by rewrite (bind_Threw _ _ _ MalformedMethodName w).
Qed.

(** X9: an inbound message, whatever it is, leaves the socket, the
    suppression setting, the clock and the timers as they are, adds and
    removes no channel, and keeps the name, id, subscribers and enabled
    domains of every channel: it can only call subscribers and fill
    buffers. *)
Theorem onMessage_frame data w :
  let w' := snd (onMessage data w) in
  _wrappedLikeSocket (mux w') = _wrappedLikeSocket (mux w) /\
  _channelWithNoDebuggerNotification (mux w') =
    _channelWithNoDebuggerNotification (mux w) /\
  now w' = now w /\ timeouts w' = timeouts w /\
  length (_channels (mux w')) = length (_channels (mux w)) /\
  forall c this, _channels (mux w) !! c = Some this ->
    exists that, _channels (mux w') !! c = Some that /\
      name that = name this /\ id that = id this /\
      _messageCallbacks that = _messageCallbacks this /\
      _enabledDomains that = _enabledDomains this.
Proof.
  intros w'. unfold w'.
  destruct (onMessage_world data w) as [->|[[new ->]|(method & domain & ->)]].
  - repeat split; try done. intros c this Hc. by exists this.
  - repeat split; try done. intros c this Hc. by exists this.
  - unfold fanOut. simpl. repeat split; try done.
    + apply length_imap.
    + intros c this Hc. eexists. rewrite list_lookup_imap, Hc. simpl.
      split; [done|]. apply fanOutChannel_frame.
Qed.

(** ** The eviction timer: when it is set, and what a second firing does *)

Lemma CRDPChannel_on_message_eq w c this cb :
  _channels (mux w) !! c = Some this ->
  CRDPChannel_on c "message" cb w =
  (Returned tt,
   replaceChannel c
     (with_messageCallbacks this (_messageCallbacks this ++ [cb]))
     (if (length (_messageCallbacks this) =? 0)%nat
      then snd (setTimeout c timeToPreserveMessagesInMillis w) else w)).
Proof.
  intros Hc. unfold CRDPChannel_on.
  rewrite (bind_Returned _ _ _ this w) by (by apply channelAt_Some).
  simpl String.eqb. cbv iota.
  by destruct (length (_messageCallbacks this) =? 0)%nat.
Qed.

Lemma discardUnsentPendingMessages_twice w c this :
  _channels (mux w) !! c = Some this ->
  _pendingMessagesForDomain this = None ->
  discardUnsentPendingMessages c w = (Threw TypeError, w).
Proof.
  intros Hc Hp. unfold discardUnsentPendingMessages.
  rewrite (bind_Returned _ _ _ this w) by (by apply channelAt_Some).
  by rewrite Hp.
Qed.

(** X10: [on("message", cb)] sets the eviction timer exactly when the
    subscriber list is empty at that moment.  So a channel whose only
    subscriber was removed is armed again by the next subscription, and
    then holds two timers; and [discardUnsentPendingMessages], run on a
    channel whose buffers are already discarded, throws a [TypeError] and
    changes nothing. *)
Theorem eviction_timer_rearms w c this cb cb' :
  _channels (mux w) !! c = Some this ->
  (_messageCallbacks this <> [] ->
   timeouts (snd (CRDPChannel_on c "message" cb w)) = timeouts w) /\
  (_messageCallbacks this = [] ->
   let again :=
     run [DoOn c "message" cb; DoRemoveListener c "message" cb;
          DoOn c "message" cb'] w in
   timeouts again =
     (timeouts w ++ [((now w + 60000)%N, c); ((now w + 60000)%N, c)])%list /\
   let once := snd (discardUnsentPendingMessages c again) in
   tombstoned c once /\
   discardUnsentPendingMessages c once = (Threw TypeError, once)).
Proof.
  intros Hc.
  assert (Hlt : (c < length (_channels (mux w)))%nat)
    by (by eapply lookup_lt_Some).
  split.
  - intros Hcb. rewrite (CRDPChannel_on_message_eq _ _ _ _ Hc).
    by destruct (_messageCallbacks this).
  - intros Hcb again.
    assert (Htimeouts : timeouts again =
      (timeouts w ++ [((now w + 60000)%N, c); ((now w + 60000)%N, c)])%list).
    { unfold again. simpl run.
      rewrite (CRDPChannel_on_message_eq _ _ _ _ Hc), Hcb. simpl snd.
      rewrite (CRDPChannel_removeListener_eq _ _
                 (with_messageCallbacks this ([] ++ [cb])%list))
        by (by apply replaceChannel_lookup).
      simpl snd. rewrite replaceChannel_twice.
      rewrite (CRDPChannel_on_message_eq _ _
                 (with_messageCallbacks (with_messageCallbacks this [cb])
                    (splice [cb] (array_indexOf [cb] cb) 1)))
        by (by apply replaceChannel_lookup).
      simpl. rewrite Nat.eqb_refl. simpl. by rewrite <- app_assoc. }
    split; [done|]. intros once.
    assert (Hsome : is_Some (_channels (mux again) !! c)).
    { destruct (world_le_run
                  [DoOn c "message" cb; DoRemoveListener c "message" cb;
                   DoOn c "message" cb'] w c this Hc) as (that & Hthat & _).
      by exists that. }
    pose proof (discard_tombstones c again Hsome) as Htomb.
    split; [done|]. destruct Htomb as (that & Hthat & Hp).
    by apply (discardUnsentPendingMessages_twice once c that).
Qed.

Lemma eviction_timer_rearms_witness :
  let again :=
    run [DoOn 1 "message" 7%nat; DoRemoveListener 1 "message" 7%nat;
         DoOn 1 "message" 8%nat] twoChannels in
  timeouts again = [(60000%N, 1%nat); (60000%N, 1%nat)].
Proof.
  exact (proj1 (proj2 (eviction_timer_rearms twoChannels 1
                         (freshChannel "tools" 1) 7%nat 8%nat eq_refl)
                  eq_refl)).
Defined.

(** ** The only way to enable a domain *)

Lemma substring_all s : substring 0 (String.length s) s = s.
Proof. induction s as [|c s IH]; [done|]. simpl. by rewrite IH. Qed.

Lemma substring_split s : forall n,
  (n <= String.length s)%nat ->
  s = substring 0 n s ++ substring n (String.length s - n) s.
Proof.
  induction s as [|c s IH]; intros n Hn.
  - simpl in Hn. by replace n with 0%nat by lia.
  - destruct n as [|n].
    + change (substring 0 0 (String c s)) with "". rewrite append_nil.
      by rewrite Nat.sub_0_r, substring_all.
    + simpl in Hn.
      change (substring 0 (S n) (String c s)) with (String c (substring 0 n s)).
      change (substring (S n) (String.length (String c s) - S n) (String c s))
        with (substring n (String.length s - n) s).
      rewrite append_cons. f_equal. apply IH. lia.
Qed.

Lemma endsWith_app s suffix :
  endsWith s suffix = true -> exists before, s = before ++ suffix.
Proof.
  unfold endsWith.
  destruct (Nat.leb_spec (String.length suffix) (String.length s)) as [Hle|];
    [|done].
  intros Heq. apply String.eqb_eq in Heq.
  exists (substring 0 (String.length s - String.length suffix) s).
  pose proof (substring_split s (String.length s - String.length suffix)
                ltac:(lia)) as Hsplit.
  replace (String.length s - (String.length s - String.length suffix))%nat
    with (String.length suffix) in Hsplit by lia.
  by rewrite Heq in Hsplit.
Qed.

Lemma occurs_app a before after :
  occurs a (before ++ String a after) = true.
Proof.
  induction before as [|b before IH].
  - rewrite append_nil. simpl. by rewrite Ascii.eqb_refl.
  - rewrite append_cons. simpl. by rewrite IH, orb_true_r.
Qed.

Lemma last_separator_unique sep a x b y :
  a ++ String sep x = b ++ String sep y ->
  occurs sep x = false -> occurs sep y = false -> a = b /\ x = y.
Proof.
  revert b. induction a as [|c a IH]; intros b Heq Hx Hy.
  - rewrite append_nil in Heq. destruct b as [|d b].
    + rewrite append_nil in Heq. by injection Heq as ->.
    + rewrite append_cons in Heq. injection Heq as -> ->.
      by rewrite occurs_app in Hx.
  - rewrite append_cons in Heq. destruct b as [|d b].
    + rewrite append_nil in Heq. injection Heq as -> <-.
      by rewrite occurs_app in Hy.
    + rewrite append_cons in Heq. injection Heq as -> Heq.
      destruct (IH b Heq Hx Hy) as [-> ->]. done.
Qed.

Lemma extractDomain_shape method domain w w' :
  extractDomain method w = (Returned domain, w') ->
  exists member, method = domain ++ String "." member /\
                 occurs "." domain = false /\ occurs "." member = false.
Proof.
  unfold extractDomain.
  destruct (split "." method) as [|a [|b [|? ?]]] eqn:Hs; simpl; try done.
  intros [= <- <-]. exists b.
  destruct (split_tail _ _ _ _ Hs) as (rest & -> & Hrest); [done|].
  split; [by rewrite (split_one _ _ _ Hrest)|].
  split; [by apply (split_head_without _ _ _ _ Hs)|].
  by apply (split_head_without _ _ _ _ Hrest).
Qed.

Lemma replaceChannel_sameEnabled w c this that :
  _channels (mux w) !! c = Some this ->
  _enabledDomains that = _enabledDomains this ->
  sameEnabled w (replaceChannel c that w).
Proof.
  intros Hc Heq c' this' Hc'. simpl.
  destruct (decide (c' = c)) as [->|Hne].
  - exists that. rewrite list_lookup_insert_eq by (by eapply lookup_lt_Some).
    split; [done|]. congruence.
  - exists this'. by rewrite list_lookup_insert_ne.
Qed.

Lemma sameEnabled_refl w : sameEnabled w w.
Proof. intros c this Hc. by exists this. Qed.

Lemma sameEnabled_trans w1 w2 w3 :
  sameEnabled w1 w2 -> sameEnabled w2 w3 -> sameEnabled w1 w3.
Proof.
  intros H12 H23 c this Hc. destruct (H12 c this Hc) as (that & Hthat & Heq).
  destruct (H23 c that Hthat) as (last & Hlast & Heq').
  exists last. split; [done|]. congruence.
Qed.

Lemma sameEnabled_same w w' :
  _channels (mux w') = _channels (mux w) -> sameEnabled w w'.
Proof. intros Heq c this Hc. exists this. by rewrite Heq. Qed.

Lemma sameEnabled_callDomainMessageCallbacks c domain data :
  respects sameEnabled (callDomainMessageCallbacks c domain data).
Proof.
  intros w. destruct (_channels (mux w) !! c) as [this|] eqn:Hc.
  - rewrite (callDomainMessageCallbacks_eq _ _ _ _ _ Hc). simpl snd.
    eapply sameEnabled_trans; [|by apply sameEnabled_same].
    apply (replaceChannel_sameEnabled _ _ this); [done|]. apply gate_frame.
  - unfold callDomainMessageCallbacks.
    rewrite (bind_Threw _ _ _ TypeError w) by (by apply channelAt_None).
    apply sameEnabled_refl.
Qed.

Lemma sameEnabled_sendUnsentPendingMessages c domain :
  respects sameEnabled (sendUnsentPendingMessages c domain).
Proof.
  intros w. unfold sendUnsentPendingMessages.
  destruct (_channels (mux w) !! c) as [this|] eqn:Hc.
  - rewrite (bind_Returned _ _ _ this w) by (by apply channelAt_Some).
    destruct (_pendingMessagesForDomain this) as [pending|];
      [|apply sameEnabled_refl].
    destruct (get pending domain) as [l| |];
      destruct (negb (length (_messageCallbacks this) =? 0)%nat);
      try apply sameEnabled_refl.
    rewrite (bind_Returned _ _ _ tt _ (setChannel_eq _ _ _)).
    apply (sameEnabled_trans _
             (replaceChannel c
                (with_pendingMessagesForDomain this
                   (Some (delete domain pending))) w)).
    + by apply (replaceChannel_sameEnabled w c this).
    + apply (respects_forEach sameEnabled sameEnabled_refl sameEnabled_trans l
               (callDomainMessageCallbacks c domain)).
      intros x. apply sameEnabled_callDomainMessageCallbacks.
  - rewrite (bind_Threw _ _ _ TypeError w) by (by apply channelAt_None).
    apply sameEnabled_refl.
Qed.

(** The enabled domains of the sending channel after a send. *)
Lemma CRDPChannel_send_enabledDomains w c this data :
  _channels (mux w) !! c = Some this ->
  exists that,
    _channels (mux (snd (CRDPChannel_send c data w))) !! c = Some that /\
    (_enabledDomains that = _enabledDomains this \/
     exists method domain,
       msg_method data = Some method /\
       endsWith method ".enable" = true /\
       extractDomain method w = (Returned domain, w) /\
       _enabledDomains that = <[domain := true]> (_enabledDomains this)).
Proof.
  intros Hc.
  assert (Hlt : (c < length (_channels (mux w)))%nat)
    by (by eapply lookup_lt_Some).
  destruct (truthy (msg_method data) &&
            endsWith (default "" (msg_method data)) ".enable") eqn:Hen.
  - destruct (msg_method data) as [method|] eqn:Hm; [|done].
    simpl in Hen. apply andb_true_iff in Hen as [_ He].
    destruct (extractDomain_cases method w) as [[domain Hd]|Hd].
    + set (enabled :=
        with_enabledDomains this (<[domain := true]> (_enabledDomains this))).
      assert (Hafter : exists that,
        _channels (mux (snd (CRDPChannel_send c data w))) !! c = Some that /\
        _enabledDomains that = _enabledDomains enabled).
      { destruct (msg_id data) as [i|] eqn:Hid.
        - rewrite (CRDPChannel_send_enable _ _ _ _ _ _ _ Hc Hid Hm He Hd).
          apply sameEnabled_sendUnsentPendingMessages.
          simpl. by apply list_lookup_insert_eq.
        - exists enabled. split; [|done].
          unfold CRDPChannel_send. rewrite Hm. simpl default.
          rewrite (endsWith_truthy method ".enable") by done.
          rewrite He. simpl andb. cbv iota.
          rewrite (bind_Returned _ _ _ (Some domain)
                     (replaceChannel c enabled w)).
          + rewrite (bind_Returned _ _ _ enabled (replaceChannel c enabled w))
              by (apply channelAt_Some; by apply replaceChannel_lookup).
            rewrite (bind_Threw _ _ _ ChannelSentMessageWithoutId
                       (replaceChannel c enabled w))
              by (unfold CRDPMultiplexor_send; by rewrite Hid).
            by apply replaceChannel_lookup.
          + rewrite (bind_Returned _ _ _ domain w) by done.
            rewrite (bind_Returned _ _ _ this w) by (by apply channelAt_Some).
            by rewrite (bind_Returned _ _ _ tt (replaceChannel c enabled w)). }
      destruct Hafter as (that & Hthat & Heq). exists that. split; [done|].
      right. by exists method, domain.
    + exists this. split; [|by left]. unfold CRDPChannel_send.
      rewrite Hm. simpl default.
      rewrite (endsWith_truthy method ".enable") by done.
      rewrite He. simpl andb. cbv iota.
      by rewrite (bind_Threw _ _ _ MalformedMethodName w)
        by (by rewrite (bind_Threw _ _ _ MalformedMethodName w)).
  - exists this. split; [|by left].
    rewrite (CRDPChannel_send_plain_eq _ _ _ _ Hc Hen).
    unfold CRDPMultiplexor_send, bind. by destruct (msg_id data).
Qed.

(** X11: a send enables a domain D that was not enabled only if its method
    is exactly D followed by ".enable", D without a dot.  No other message
    a client sends changes the enabled domains of its channel. *)
Theorem only_enable_enables w c this data domain that :
  _channels (mux w) !! c = Some this ->
  _channels (mux (snd (CRDPChannel_send c data w))) !! c = Some that ->
  isEnabled this domain = false ->
  isEnabled that domain = true ->
  msg_method data = Some (domain ++ ".enable") /\ occurs "." domain = false.
Proof.
  intros Hc Hthat Hoff Hon.
  destruct (CRDPChannel_send_enabledDomains w c this data Hc)
    as (that' & Hthat' & Hcases).
  rewrite Hthat in Hthat'. injection Hthat' as <-.
  destruct Hcases as [Hsame|(method & domain' & Hm & He & Hd & Hins)].
  - unfold isEnabled in *. rewrite Hsame in Hon. congruence.
  - assert (domain' = domain) as ->.
    { destruct (decide (domain' = domain)) as [|Hne]; [done|].
      unfold isEnabled in *. rewrite Hins, get_insert_ne in Hon by done.
      congruence. }
    destruct (extractDomain_shape _ _ _ _ Hd) as (member & -> & Hdom & Hmem).
    destruct (endsWith_app _ _ He) as [before Heq].
    destruct (last_separator_unique "." domain member before "enable" Heq)
      as [_ ->]; done.
Qed.

Lemma only_enable_enables_witness :
  msg_method (request 5 "Network.enable" "") = Some ("Network" ++ ".enable") /\
  occurs "." "Network" = false.
Proof.
  apply (only_enable_enables twoChannels 1 (freshChannel "tools" 1)
           (request 5 "Network.enable" "") "Network"
           (with_enabledDomains (freshChannel "tools" 1)
              (<["Network" := true]> ∅)));
    vm_compute; reflexivity.
Defined.


(** ** Buffered notifications come out in the order they came in *)

Lemma fanOut_calls w method domain data c cb d :
  (c, cb, d) ∈ calls (fanOut method domain data w) ->
  (c, cb, d) ∈ calls w \/
  exists this,
    _channels (mux w) !! c = Some this /\
    (c, cb, d) ∈ snd (fanOutChannel (_channelWithNoDebuggerNotification (mux w))
                        method domain data c this).
Proof.
  unfold fanOut. simpl. intros H. apply elem_of_app in H as [H|H]; [by left|].
  right. apply list_elem_of_In, in_concat in H as (l & Hl & Hin).
  apply list_elem_of_In in Hl, Hin.
  apply list_elem_of_lookup in Hl as [k Hk].
  rewrite list_lookup_imap in Hk.
  destruct (_channels (mux w) !! k) as [that|] eqn:Hthat; [|done].
  simpl in Hk. injection Hk as <-.
  pose proof (fanOutChannel_calls_tag _ _ _ _ _ _ _ _ _ Hin) as ->.
  by exists that.
Qed.

Lemma receive_buffers c domain ns : forall w this pending,
  _channels (mux w) !! c = Some this ->
  isEnabled this domain = false ->
  _pendingMessagesForDomain this = Some pending ->
  (forall n, n ∈ ns ->
     handedOver (_channelWithNoDebuggerNotification (mux w)) (name this)
       domain n) ->
  exists that pending',
    _channels (mux (run (DoReceive <$> ns) w)) !! c = Some that /\
    _messageCallbacks that = _messageCallbacks this /\
    _enabledDomains that = _enabledDomains this /\
    id that = id this /\
    _pendingMessagesForDomain that = Some pending' /\
    default [] (pending' !! domain) =
      (default [] (pending !! domain) ++ ns)%list /\
    forall cb d, (c, cb, d) ∈ calls (run (DoReceive <$> ns) w) ->
                 (c, cb, d) ∈ calls w.
Proof.
  induction ns as [|n ns IH]; intros w this pending Hc Hoff Hp Hns.
  - exists this, pending. simpl. rewrite app_nil_r. by repeat split.
  - destruct (Hns n) as (Hid & method & Hm & Hd & Hpass); [by left|].
    simpl run. simpl perform.
    rewrite (onMessage_notification w n method domain Hid Hm (Hd w)).
    simpl snd.
    set (this1 :=
      with_pendingMessagesForDomain this
        (Some (<[domain := (default [] (pending !! domain) ++ [n])%list]>
                 pending))).
    assert (Hturn :
      fanOutChannel (_channelWithNoDebuggerNotification (mux w)) method domain
        n c this = (this1, [])).
    { unfold fanOutChannel, gate. by rewrite Hpass, Hoff, Hp. }
    assert (Hc1 : _channels (mux (fanOut method domain n w)) !! c = Some this1).
    { unfold fanOut. simpl. rewrite list_lookup_imap, Hc. simpl.
      by rewrite Hturn. }
    destruct (IH (fanOut method domain n w) this1
                (<[domain := (default [] (pending !! domain) ++ [n])%list]>
                   pending) Hc1 Hoff eq_refl)
      as (that & pending' & Hthat & Hcb & Hen & Hident & Hp' & Hbuf & Hcalls).
    { intros n' Hn'. apply (Hns n'). by right. }
    exists that, pending'. repeat split; try done.
    + rewrite Hbuf. rewrite lookup_insert_eq. simpl. by rewrite <- app_assoc.
    + intros cb d Hin. apply Hcalls in Hin.
      apply fanOut_calls in Hin as [Hin|(this' & Hc' & Hin)]; [done|].
      rewrite Hc in Hc'. injection Hc' as <-. rewrite Hturn in Hin.
      by apply elem_of_nil in Hin.
Qed.

(** X12: let a channel have at least one subscriber and buffers that have
    not been discarded, and let D be a domain that the channel has not
    enabled and that is not the name of a property of [Object.prototype].
    While nothing happens but the arrival of notifications of D that the
    fan-out hands to the channel, no subscriber of the channel is called;
    when the channel then sends the enable request of D, every subscriber
    receives the whole backlog in the order of arrival: what was already
    buffered, followed by the notifications that came since. *)
Theorem backlog_flushed_in_arrival_order w c this pending domain ns
    enable i method :
  _channels (mux w) !! c = Some this ->
  isEnabled this domain = false ->
  inherited domain = false ->
  _pendingMessagesForDomain this = Some pending ->
  _messageCallbacks this <> [] ->
  (forall n, n ∈ ns ->
     handedOver (_channelWithNoDebuggerNotification (mux w)) (name this)
       domain n) ->
  msg_id enable = Some i ->
  msg_method enable = Some method ->
  endsWith method ".enable" = true ->
  extractDomain method w = (Returned domain, w) ->
  let waiting := run (DoReceive <$> ns) w in
  (forall cb d, (c, cb, d) ∈ calls waiting -> (c, cb, d) ∈ calls w) /\
  fst (CRDPChannel_send c enable waiting) = Returned tt /\
  calls (snd (CRDPChannel_send c enable waiting)) =
  (calls waiting ++
   flat_map (deliveries c (_messageCallbacks this))
     (default [] (pending !! domain) ++ ns))%list.
Proof.
  intros Hc Hoff Hin Hp Hcb Hns Hid Hm He Hd waiting.
  destruct (receive_buffers c domain ns w this pending Hc Hoff Hp Hns)
    as (that & pending' & Hthat & Hcbs & Hen & Hident & Hp' & Hbuf & Hcalls).
  fold waiting in Hthat, Hcalls. split; [done|].
  rewrite (CRDPChannel_send_enable waiting c that enable i method domain
             Hthat Hid Hm He (extractDomain_any _ _ _ _ Hd)).
  set (enabled :=
    with_enabledDomains that (<[domain := true]> (_enabledDomains that))).
  set (w1 := addSent (with_id enable (encodifyChannel (id that) i))
               (replaceChannel c enabled waiting)).
  assert (Hc1 : _channels (mux w1) !! c = Some enabled).
  { simpl. apply list_lookup_insert_eq. by eapply lookup_lt_Some. }
  rewrite <- Hbuf, <- Hcbs.
  destruct (pending' !! domain) as [l|] eqn:Hl.
  - assert (Hon : isEnabled enabled domain = true) by apply isEnabled_enable.
    assert (Hcb' : _messageCallbacks enabled <> []) by (simpl; congruence).
    by rewrite (sendUnsentPendingMessages_flush w1 c enabled pending' domain l
                  Hc1 Hp' Hl Hcb' Hon).
  - rewrite (sendUnsentPendingMessages_undefined w1 c enabled);
      [simpl; by rewrite app_nil_r|done| |done].
    unfold pendingAt. simpl. by rewrite Hp'.
Qed.

Lemma backlog_flushed_in_arrival_order_witness :
  let late := notification "Network.loadingFinished" "3" in
  let waiting := run [DoReceive late] buffering in
  calls (snd (CRDPChannel_send 0 (request 5 "Network.enable" "") waiting)) =
  (calls waiting ++
   flat_map (deliveries 0 [1; 2]%nat)
     [notification "Network.requestWillBeSent" "1";
      notification "Network.requestWillBeSent" "2"; late])%list.
Proof.
  assert (Hc : _channels (mux buffering) !! 0%nat = Some bufferingDebugger)
    by (vm_compute; reflexivity).
  refine (proj2 (proj2 (backlog_flushed_in_arrival_order buffering 0
            bufferingDebugger networkBacklog "Network"
            [notification "Network.loadingFinished" "3"]
            (request 5 "Network.enable" "") 5 "Network.enable"
            Hc eq_refl eq_refl eq_refl ltac:(discriminate) _
            eq_refl eq_refl eq_refl eq_refl))).
  intros n Hn. apply list_elem_of_singleton in Hn as ->.
  split; [reflexivity|]. exists "Network.loadingFinished".
  split; [reflexivity|]. split; [|reflexivity].
  intros w. apply (extractDomain_any _ _ (newWorld None)). reflexivity.
Defined.

(** ** chromeConnection.ts: which channels lose Debugger notifications *)

Lemma allDigits_string_of_uint d : allDigits (NilEmpty.string_of_uint d) = true.
Proof. induction d; simpl; by rewrite ?IHd. Qed.

Lemma allDigits_toString n : allDigits (toString n) = true.
Proof.
  unfold toString, NilZero.string_of_uint.
  destruct (N.to_uint n) eqn:Hn; [done|..]; rewrite <- Hn;
    apply allDigits_string_of_uint.
Qed.

Lemma toString_nonempty n : toString n <> "".
Proof.
  unfold toString, NilZero.string_of_uint. by destruct (N.to_uint n).
Qed.

Lemma contains_cons_other a s pat d rest :
  pat = String d rest -> a <> d ->
  contains (String a s) pat -> contains s pat.
Proof.
  intros -> Hne (before & after & Heq). destruct before as [|b before].
  - rewrite append_nil, append_cons in Heq. congruence.
  - rewrite append_cons in Heq. injection Heq as _ ->. by exists before, after.
Qed.

Lemma contains_after_noDigits prefix s pat d rest :
  pat = String d rest -> isDigit d = true -> noDigits prefix = true ->
  contains (prefix ++ s) pat <-> contains s pat.
Proof.
  intros Hpat Hd. induction prefix as [|a prefix IH]; intros Hno.
  - by rewrite append_nil.
  - simpl in Hno. apply andb_true_iff in Hno as [Ha Hno].
    rewrite append_cons. rewrite <- (IH Hno). split.
    + apply (contains_cons_other _ _ _ d rest); [done|].
      intros ->. by rewrite Hd in Ha.
    + intros (before & after & ->). by exists (String a before), after.
Qed.

Lemma digit_not_in_debugger d s rest :
  s = String d rest -> allDigits s = true -> ~ contains "debugger" s.
Proof.
  intros -> Hall. simpl in Hall. apply andb_true_iff in Hall as [Hd _].
  assert (Hstep : forall a t, isDigit a = false ->
            contains (String a t) (String d rest) ->
            contains t (String d rest)).
  { intros a t Ha. apply (contains_cons_other _ _ _ d rest); [done|].
    intros ->. congruence. }
  intros H. do 8 (apply Hstep in H; [|reflexivity]).
  destruct H as (before & after & Heq). by destruct before.
Qed.

(** X13: whatever port is configured as the channel without Debugger
    notifications, the fan-out never skips the channel "debugger" that
    [attachToWebsocketUrl] creates for the debug adapter itself. *)
Theorem debugger_channel_never_skipped channelWithNoDebuggerNotification method :
  breaksNotification (Some (noDebuggerSetting channelWithNoDebuggerNotification))
    "debugger" method = false.
Proof.
  destruct (breaksNotification _ _ _) eqn:Hb; [|done].
  apply breaksNotification_iff in Hb as (s & [= <-] & Hne & Hin & _).
  exfalso. destruct (noDebuggerSetting _) as [|d rest] eqn:Hs; [done|].
  apply (digit_not_in_debugger d (String d rest) rest); [done| |done].
  rewrite <- Hs. unfold noDebuggerSetting.
  destruct channelWithNoDebuggerNotification as [n|]; [|done].
  destruct (n =? 0)%N; [done|]. apply allDigits_toString.
Qed.

(** X14: with a non-zero port p configured, the channel that
    [attachToWebsocketUrl] creates for the extra port q is skipped for a
    notification exactly when "Debugger" occurs in the method and the
    decimal notation of p occurs in that of q: the channel of p itself, and
    also that of every port whose digits contain those of p. *)
Theorem extra_channel_skipped_iff p q method :
  p <> 0%N ->
  breaksNotification (Some (noDebuggerSetting (Some p)))
    (extraChannelName q) method = true <->
  contains (toString q) (toString p) /\ contains method "Debugger".
Proof.
  intros Hp. unfold noDebuggerSetting.
  rewrite (proj2 (N.eqb_neq p 0) Hp). rewrite breaksNotification_iff.
  pose proof (allDigits_toString p) as Hall.
  destruct (toString p) as [|d rest] eqn:Hs; [by destruct (toString_nonempty p)|].
  simpl in Hall. apply andb_true_iff in Hall as [Hd _].
  unfold extraChannelName.
  pose proof (contains_after_noDigits "extraCRDPEndpoint " (toString q)
                (String d rest) d rest eq_refl Hd eq_refl) as Hskip.
  split.
  - intros (s & [= <-] & _ & Hin & Hm). split; [|done]. by apply Hskip.
  - intros [Hin Hm]. exists (String d rest).
    split; [done|]. split; [done|]. split; [|done]. by apply Hskip.
Qed.

Lemma extra_channel_skipped_iff_witness :
  breaksNotification (Some (noDebuggerSetting (Some 922%N)))
    (extraChannelName 9222) "Debugger.paused" = true <->
  contains (toString 9222) (toString 922) /\
  contains "Debugger.paused" "Debugger".
Proof. apply (extra_channel_skipped_iff 922 9222 "Debugger.paused"). lia. Defined.

(** ** chromeConnection.ts: the layout of the channels *)

Lemma world_le_append channel w : world_le w (appendChannel channel w).
Proof.
  intros c this Hc. exists this. simpl.
  split; [by apply lookup_app_l_Some|apply chan_le_refl].
Qed.

Section Attach.
Variable startProxy : N -> CRDPChannel -> M unit.
Hypothesis startProxy_wellBehaved :
  forall port channel, wellBehaved (startProxy port channel).

Let turn (extraCRDPChannelPort : N) : M unit :=
  channel <- addChannel (extraChannelName extraCRDPChannelPort) ;;
  startProxy extraCRDPChannelPort channel.

Lemma attach_extra_channels ports : forall w,
  (length (_channels (mux w)) + length ports <= 10)%nat ->
  exists w',
    forEach ports turn w = (Returned tt, w') /\
    length (_channels (mux w')) =
      (length (_channels (mux w)) + length ports)%nat /\
    world_le w w' /\
    forall k port, ports !! k = Some port ->
      exists channel,
        _channels (mux w') !! (length (_channels (mux w)) + k)%nat =
          Some channel /\
        name channel = extraChannelName port /\
        id channel = Z.of_nat (length (_channels (mux w)) + k).
Proof.
  induction ports as [|port ports IH]; intros w Hroom.
  - exists w. simpl. rewrite Nat.add_0_r.
    repeat split; [apply world_le_refl|]. intros k port Hk. done.
  - simpl in Hroom. set (n := length (_channels (mux w))) in *.
    set (fresh := freshChannel (extraChannelName port) n).
    destruct (startProxy_wellBehaved port fresh (appendChannel fresh w))
      as (Hret & Hlen & Hle).
    set (w2 := snd (startProxy port fresh (appendChannel fresh w))) in *.
    assert (Hturn : turn port w = (Returned tt, w2)).
    { unfold turn. rewrite (bind_Returned _ _ _ fresh (appendChannel fresh w))
        by (apply addChannel_room; fold n; lia).
      destruct (startProxy port fresh (appendChannel fresh w)) as [o w3].
      simpl in *. by subst. }
    assert (Hn2 : length (_channels (mux w2)) = S n).
    { unfold sameLength in Hlen. rewrite Hlen. simpl.
      rewrite length_app. simpl. fold n. lia. }
    destruct (IH w2) as (w' & Hrun & Hlen' & Hle' & Hnames); [lia|].
    exists w'. split; [|split; [|split]].
    + simpl forEach. by rewrite (bind_Returned _ _ _ tt w2).
    + simpl. lia.
    + eapply world_le_trans; [apply (world_le_append fresh)|].
      by eapply world_le_trans.
    + intros [|k] port' Hk.
      * simpl in Hk. injection Hk as <-. rewrite Nat.add_0_r.
        assert (Hfresh : _channels (mux (appendChannel fresh w)) !! n =
                         Some fresh).
        { simpl. rewrite lookup_app_r by (fold n; lia).
          fold n. by rewrite Nat.sub_diag. }
        destruct (Hle n fresh Hfresh) as (that & Hthat & Hle1).
        destruct (Hle' n that Hthat) as (last & Hlast & Hle2).
        exists last. split; [done|].
        rewrite (le_name _ _ Hle2), (le_name _ _ Hle1).
        by rewrite (le_id _ _ Hle2), (le_id _ _ Hle1).
      * simpl in Hk. destruct (Hnames k port' Hk) as (channel & Hc & Hnm & Hid).
        rewrite Hn2 in Hc, Hid. exists channel.
        replace (n + S k)%nat with (S n + k)%nat by lia. done.
Qed.

Lemma attach_too_many ports : forall w,
  (10 < length (_channels (mux w)) + length ports)%nat ->
  (length (_channels (mux w)) <= 10)%nat ->
  exists w', forEach ports turn w = (Threw ChannelLimitExceeded, w').
Proof.
  induction ports as [|port ports IH]; intros w Hmany Hcap.
  - simpl in Hmany. lia.
  - simpl in Hmany. simpl forEach.
    destruct (Nat.le_gt_cases 10 (length (_channels (mux w)))) as [Hfull|Hroom].
    + exists w. apply bind_Threw. unfold turn. apply bind_Threw.
      by apply addChannel_full.
    + set (fresh := freshChannel (extraChannelName port)
                      (length (_channels (mux w)))).
      destruct (startProxy_wellBehaved port fresh (appendChannel fresh w))
        as (Hret & Hlen & _).
      set (w2 := snd (startProxy port fresh (appendChannel fresh w))) in *.
      assert (Hturn : turn port w = (Returned tt, w2)).
      { unfold turn. rewrite (bind_Returned _ _ _ fresh (appendChannel fresh w))
          by (by apply addChannel_room).
        destruct (startProxy port fresh (appendChannel fresh w)) as [o w3].
        simpl in *. by subst. }
      assert (Hn2 : length (_channels (mux w2)) =
                    S (length (_channels (mux w)))).
      { unfold sameLength in Hlen. rewrite Hlen. simpl.
        rewrite length_app. simpl. lia. }
      destruct (IH w2) as (w' & Hrun); [lia|lia|].
      exists w'. by rewrite (bind_Returned _ _ _ tt w2).
Qed.

Variable newClient : CRDPChannel -> M unit.
Hypothesis newClient_wellBehaved : forall channel, wellBehaved (newClient channel).

(** X15: [attachToWebsocketUrl] multiplexes only when an extra port is
    given.  With up to nine extra ports it returns with one channel per
    port, in the order given, at ids 0, 1, ..., named after the port, and
    the channel "debugger" last; with ten or more it throws the
    only-10-channels error: the debugger channel counts towards the
    limit. *)
Theorem attachToWebsocketUrl_layout ports channelWithNoDebuggerNotification :
  attachToWebsocketUrl startProxy newClient None
    channelWithNoDebuggerNotification = None /\
  attachToWebsocketUrl startProxy newClient (Some [])
    channelWithNoDebuggerNotification = None /\
  (ports <> [] -> (length ports <= 9)%nat ->
   exists w,
     attachToWebsocketUrl startProxy newClient (Some ports)
       channelWithNoDebuggerNotification = Some (Returned tt, w) /\
     length (_channels (mux w)) = S (length ports) /\
     (forall k port, ports !! k = Some port ->
        exists channel,
          _channels (mux w) !! k = Some channel /\
          name channel = extraChannelName port /\ id channel = Z.of_nat k) /\
     exists channel,
       _channels (mux w) !! length ports = Some channel /\
       name channel = "debugger" /\ id channel = Z.of_nat (length ports)) /\
  ((10 <= length ports)%nat ->
   exists w,
     attachToWebsocketUrl startProxy newClient (Some ports)
       channelWithNoDebuggerNotification =
     Some (Threw ChannelLimitExceeded, w)).
Proof.
  split; [done|]. split; [done|].
  set (w0 := newWorld (Some (noDebuggerSetting channelWithNoDebuggerNotification))).
  assert (Hattach : ports <> [] ->
    attachToWebsocketUrl startProxy newClient (Some ports)
      channelWithNoDebuggerNotification =
    Some ((forEach ports turn ;;;
           channel <- addChannel "debugger" ;; newClient channel) w0))
    by (by destruct ports).
  split.
  - intros Hne Hlen. rewrite (Hattach Hne).
    destruct (attach_extra_channels ports w0)
      as (w1 & Hrun & Hlen1 & Hle1 & Hnames); [simpl; lia|].
    simpl in Hlen1.
    set (fresh := freshChannel "debugger" (length ports)).
    destruct (newClient_wellBehaved fresh (appendChannel fresh w1))
      as (Hret & Hsame & Hle2).
    set (w2 := snd (newClient fresh (appendChannel fresh w1))) in *.
    exists w2. split; [|split; [|split]].
    + rewrite (bind_Returned _ _ _ tt w1 Hrun).
      rewrite (bind_Returned _ _ _ fresh (appendChannel fresh w1))
        by (rewrite addChannel_room by lia; by rewrite Hlen1).
      destruct (newClient fresh (appendChannel fresh w1)) as [o w3].
      simpl in *. by subst.
    + unfold sameLength in Hsame. rewrite Hsame. simpl.
      rewrite length_app, Hlen1. simpl. lia.
    + intros k port Hk. destruct (Hnames k port Hk) as (channel & Hc & Hnm & Hid).
      simpl in Hc, Hid.
      destruct (world_le_append fresh w1 k channel Hc) as (c2 & Hc2 & Hl2).
      destruct (Hle2 k c2 Hc2) as (c3 & Hc3 & Hl3).
      exists c3. split; [done|].
      rewrite (le_name _ _ Hl3), (le_name _ _ Hl2).
      by rewrite (le_id _ _ Hl3), (le_id _ _ Hl2).
    + assert (Hfresh : _channels (mux (appendChannel fresh w1)) !! length ports =
                       Some fresh).
      { simpl. rewrite lookup_app_r by lia. by rewrite Hlen1, Nat.sub_diag. }
      destruct (Hle2 _ fresh Hfresh) as (c3 & Hc3 & Hl3).
      exists c3. split; [done|].
      by rewrite (le_name _ _ Hl3), (le_id _ _ Hl3).
  - intros Hlen. rewrite Hattach by (intros ->; simpl in Hlen; lia).
    destruct (Nat.le_gt_cases (length ports) 10) as [Hten|Hmore].
    + destruct (attach_extra_channels ports w0)
        as (w1 & Hrun & Hlen1 & _); [simpl; lia|].
      simpl in Hlen1. exists w1.
      rewrite (bind_Returned _ _ _ tt w1 Hrun). f_equal.
      apply bind_Threw, addChannel_full. lia.
    + destruct (attach_too_many ports w0) as (w1 & Hrun); [simpl; lia..|].
      exists w1. f_equal. by apply bind_Threw.
Qed.
End Attach.

Lemma ret_wellBehaved : wellBehaved (ret tt).
Proof.
  intros w. split; [done|]. split; [done|apply world_le_refl].
Qed.

Lemma attachToWebsocketUrl_layout_witness :
  exists w,
    attachToWebsocketUrl (fun _ _ => ret tt) (fun _ => ret tt)
      (Some [9223; 9224; 9225; 9226; 9227; 9228; 9229; 9230; 9231; 9232]%N)
      (Some 9223%N) =
    Some (Threw ChannelLimitExceeded, w).
Proof.
  apply (proj2 (proj2 (proj2 (attachToWebsocketUrl_layout
           (fun _ _ => ret tt) (fun _ _ => ret_wellBehaved)
           (fun _ => ret tt) (fun _ => ret_wellBehaved)
           [9223; 9224; 9225; 9226; 9227; 9228; 9229; 9230; 9231; 9232]%N
           (Some 9223%N))))).
  simpl. lia.
Defined.


(** ** Which operation can change what in a channel *)

Section Lift.
Variable c0 : nat.
Variable rel : CRDPChannel -> CRDPChannel -> Prop.
Hypothesis rel_refl : forall this, rel this this.
Hypothesis rel_trans : forall a b c, rel a b -> rel b c -> rel a c.
Hypothesis rel_store : forall this pending domain data,
  _pendingMessagesForDomain this = Some pending ->
  rel this
    (with_pendingMessagesForDomain this
       (Some (<[domain := (default [] (pending !! domain) ++ [data])%list]>
                pending))).
Hypothesis rel_delete : forall this pending domain,
  _pendingMessagesForDomain this = Some pending ->
  rel this (with_pendingMessagesForDomain this (Some (delete domain pending))).
Hypothesis rel_discard : forall this,
  rel this (with_pendingMessagesForDomain this None).
Hypothesis rel_enable : forall this domain,
  rel this
    (with_enabledDomains this (<[domain := true]> (_enabledDomains this))).
Hypothesis rel_callbacks : forall this l,
  rel this (with_messageCallbacks this l).

Lemma lifted_refl w : lifted c0 rel w w.
Proof. intros this Hc. by exists this. Qed.

Lemma lifted_trans w1 w2 w3 :
  lifted c0 rel w1 w2 -> lifted c0 rel w2 w3 -> lifted c0 rel w1 w3.
Proof.
  intros H12 H23 this Hc. destruct (H12 this Hc) as (that & Hthat & Hrel).
  destruct (H23 that Hthat) as (last & Hlast & Hrel').
  exists last. split; [done|]. by eapply rel_trans.
Qed.

Lemma lifted_same w w' :
  _channels (mux w') = _channels (mux w) -> lifted c0 rel w w'.
Proof. intros Heq this Hc. exists this. by rewrite Heq. Qed.

Lemma lifted_replace w c this that :
  _channels (mux w) !! c = Some this ->
  (c = c0 -> rel this that) ->
  lifted c0 rel w (replaceChannel c that w).
Proof.
  intros Hc Hrel this' Hc'. simpl.
  destruct (decide (c = c0)) as [->|Hne].
  - exists that. rewrite list_lookup_insert_eq by (by eapply lookup_lt_Some).
    split; [done|]. rewrite Hc in Hc'. injection Hc' as <-. by apply Hrel.
  - exists this'. by rewrite list_lookup_insert_ne.
Qed.

Lemma lifted_channelAt_bind {B} c (k : CRDPChannel -> M B) :
  (forall w this, _channels (mux w) !! c = Some this ->
                  lifted c0 rel w (snd (k this w))) ->
  respects (lifted c0 rel) (bind (channelAt c) k).
Proof.
  intros H w. destruct (_channels (mux w) !! c) as [this|] eqn:Hc.
  - rewrite (bind_Returned _ _ _ this w) by (by apply channelAt_Some). by apply H.
  - rewrite (bind_Threw _ _ _ TypeError w) by (by apply channelAt_None).
    apply lifted_refl.
Qed.

Lemma lifted_bind {A B} (m : M A) (k : A -> M B) :
  respects (lifted c0 rel) m -> (forall a, respects (lifted c0 rel) (k a)) ->
  respects (lifted c0 rel) (bind m k).
Proof. apply respects_bind. apply lifted_trans. Qed.

Lemma lifted_forEach {A} (l : list A) (f : A -> M unit) :
  (forall x, respects (lifted c0 rel) (f x)) ->
  respects (lifted c0 rel) (forEach l f).
Proof. apply respects_forEach; [apply lifted_refl|apply lifted_trans]. Qed.

Lemma lifted_unchanged {A} (m : M A) :
  (forall w, _channels (mux (snd (m w))) = _channels (mux w)) ->
  respects (lifted c0 rel) m.
Proof. intros H w. by apply lifted_same. Qed.

Lemma lifted_callDomainMessageCallbacks c domain data :
  respects (lifted c0 rel) (callDomainMessageCallbacks c domain data).
Proof.
  intros w. destruct (_channels (mux w) !! c) as [this|] eqn:Hc.
  - rewrite (callDomainMessageCallbacks_eq _ _ _ _ _ Hc). simpl snd.
    eapply lifted_trans; [|by apply lifted_same].
    apply (lifted_replace _ _ this); [done|]. intros _. unfold gate.
    destruct (isEnabled this domain); [apply rel_refl|].
    destruct (_pendingMessagesForDomain this) eqn:Hp; [|apply rel_refl].
    by apply rel_store.
  - unfold callDomainMessageCallbacks.
    rewrite (bind_Threw _ _ _ TypeError w) by (by apply channelAt_None).
    apply lifted_refl.
Qed.

Lemma lifted_sendUnsentPendingMessages c domain :
  respects (lifted c0 rel) (sendUnsentPendingMessages c domain).
Proof.
  apply lifted_channelAt_bind. intros w this Hc.
  destruct (_pendingMessagesForDomain this) as [pending|] eqn:Hp;
    [|apply lifted_refl].
  destruct (get pending domain) as [l| |];
    destruct (negb (length (_messageCallbacks this) =? 0)%nat);
    try apply lifted_refl.
  rewrite (bind_Returned _ _ _ tt _ (setChannel_eq _ _ _)).
  apply (lifted_trans _
           (replaceChannel c
              (with_pendingMessagesForDomain this
                 (Some (delete domain pending))) w)).
  - apply (lifted_replace w c this); [done|]. intros _. by apply rel_delete.
  - apply (lifted_forEach l (callDomainMessageCallbacks c domain)).
    intros x. apply lifted_callDomainMessageCallbacks.
Qed.

Lemma lifted_CRDPMultiplexor_send channel data :
  respects (lifted c0 rel) (CRDPMultiplexor_send channel data).
Proof.
  apply lifted_unchanged. intros w. unfold CRDPMultiplexor_send, bind.
  by destruct (msg_id data).
Qed.

Lemma lifted_CRDPChannel_send_other c data :
  (c = c0 -> forall this domain,
     rel this
       (with_enabledDomains this (<[domain := true]> (_enabledDomains this)))) ->
  respects (lifted c0 rel) (CRDPChannel_send c data).
Proof.
  intros Hen. unfold CRDPChannel_send. apply lifted_bind.
  - destruct (truthy (msg_method data) &&
              endsWith (default "" (msg_method data)) ".enable");
      [|by apply lifted_unchanged].
    apply lifted_bind;
      [apply lifted_unchanged; intros w; by rewrite extractDomain_world|].
    intros domain. apply lifted_channelAt_bind. intros w this Hc.
    rewrite (bind_Returned _ _ _ tt _ (setChannel_eq _ _ _)).
    apply (lifted_replace w c this); [done|]. intros ->. by apply Hen.
  - intros domain. apply lifted_bind;
      [apply lifted_unchanged; intros w; by rewrite channelAt_world|].
    intros this. apply lifted_bind; [apply lifted_CRDPMultiplexor_send|].
    intros _. destruct domain;
      [apply lifted_sendUnsentPendingMessages|by apply lifted_unchanged].
Qed.

Lemma lifted_CRDPChannel_on_other c event cb :
  (c = c0 -> forall this l, rel this (with_messageCallbacks this l)) ->
  respects (lifted c0 rel) (CRDPChannel_on c event cb).
Proof.
  intros Hcb. apply lifted_channelAt_bind. intros w this Hc.
  destruct (String.eqb event "message"); [|by apply lifted_same].
  destruct (length (_messageCallbacks this) =? 0)%nat.
  - rewrite (bind_Returned _ _ _ tt
               (snd (setTimeout c timeToPreserveMessagesInMillis w)))
      by reflexivity.
    rewrite setChannel_eq.
    apply (lifted_trans _ (snd (setTimeout c timeToPreserveMessagesInMillis w)));
      [by apply lifted_same|].
    apply (lifted_replace _ c this); [done|]. intros ->. by apply Hcb.
  - rewrite (bind_Returned _ _ _ tt w) by reflexivity. rewrite setChannel_eq.
    apply (lifted_replace _ c this); [done|]. intros ->. by apply Hcb.
Qed.

Lemma lifted_CRDPChannel_removeListener_other c event cb :
  (c = c0 -> forall this l, rel this (with_messageCallbacks this l)) ->
  respects (lifted c0 rel) (CRDPChannel_removeListener c event cb).
Proof.
  intros Hcb. apply lifted_channelAt_bind. intros w this Hc.
  destruct (String.eqb event "message"); [|by apply lifted_same].
  rewrite setChannel_eq.
  apply (lifted_replace _ c this); [done|]. intros ->. by apply Hcb.
Qed.

Lemma lifted_addChannel channelName :
  respects (lifted c0 rel) (addChannel channelName).
Proof.
  intros w. unfold addChannel, bind, getMux.
  destruct (10 <=? length (_channels (mux w)))%nat; [apply lifted_refl|].
  simpl. intros this Hc. exists this. simpl.
  split; [by apply lookup_app_l_Some|apply rel_refl].
Qed.

Lemma lifted_onMessage data : respects (lifted c0 rel) (onMessage data).
Proof.
  intros w.
  destruct (onMessage_world data w) as [->|[[new ->]|(method & domain & Heq)]].
  - apply lifted_refl.
  - by apply lifted_same.
  - rewrite Heq. intros this Hc. unfold fanOut. simpl.
    rewrite list_lookup_imap, Hc. simpl. eexists. split; [done|].
    unfold fanOutChannel.
    destruct (breaksNotification _ _ _); [apply rel_refl|]. unfold gate.
    destruct (isEnabled this domain); [apply rel_refl|].
    destruct (_pendingMessagesForDomain this) eqn:Hp; [|apply rel_refl].
    by apply rel_store.
Qed.

Lemma lifted_discard_other c :
  (c = c0 -> forall this, rel this (with_pendingMessagesForDomain this None)) ->
  respects (lifted c0 rel) (discardUnsentPendingMessages c).
Proof.
  intros Hd. apply lifted_channelAt_bind. intros w this Hc.
  destruct (_pendingMessagesForDomain this); [|apply lifted_refl].
  rewrite setChannel_eq. apply (lifted_replace _ c this); [done|].
  intros ->. by apply Hd.
Qed.

Lemma lifted_elapse_other dt w :
  (forall due, (due, c0) ∈ timeouts w -> isDue (now w + dt) (due, c0) = true ->
               forall this, rel this (with_pendingMessagesForDomain this None)) ->
  lifted c0 rel w (snd (elapse dt w)).
Proof.
  intros Hd. unfold elapse.
  apply (lifted_trans _ (tick dt w)); [by apply lifted_same|].
  assert (Hdue : forall timer,
            timer ∈ List.filter (isDue (now w + dt)) (timeouts w) ->
            snd timer = c0 ->
            forall this, rel this (with_pendingMessagesForDomain this None)).
  { intros [due c] Hin Hc. simpl in Hc. subst c.
    apply list_elem_of_In, filter_In in Hin as [Hin Hisdue].
    apply (Hd due); [by apply list_elem_of_In|done]. }
  change (lifted c0 rel (tick dt w)
            (snd (forEach (List.filter (isDue (now w + dt)) (timeouts w))
                    (fun timer =>
                       uncaught (discardUnsentPendingMessages (snd timer)))
                    (tick dt w)))).
  generalize dependent (tick dt w).
  induction (List.filter (isDue (now w + dt)) (timeouts w)) as [|timer l IH];
    intros w1.
  - apply lifted_refl.
  - simpl forEach.
    rewrite (bind_Returned _ _ _ tt
               (snd (discardUnsentPendingMessages (snd timer) w1)))
      by reflexivity.
    eapply lifted_trans.
    + apply lifted_discard_other. intros Hc. apply (Hdue timer); [by left|done].
    + apply IH. intros t Ht. apply Hdue. by right.
Qed.
Lemma lifted_perform a w :
  ((exists data, a = DoSend c0 data) ->
   forall this domain,
     rel this
       (with_enabledDomains this (<[domain := true]> (_enabledDomains this)))) ->
  ((exists event cb,
      a = DoOn c0 event cb \/ a = DoRemoveListener c0 event cb) ->
   forall this l, rel this (with_messageCallbacks this l)) ->
  ((exists dt, a = DoElapse dt) ->
   forall this, rel this (with_pendingMessagesForDomain this None)) ->
  lifted c0 rel w (snd (perform a w)).
Proof.
  intros Hsend Hsub Htime. destruct a; simpl perform.
  - apply lifted_bind; [apply lifted_addChannel|].
    intros _. by apply lifted_unchanged.
  - apply lifted_CRDPChannel_send_other. intros ->. apply Hsend. by eexists.
  - apply lifted_CRDPChannel_on_other. intros ->. apply Hsub.
    eexists _, _. by left.
  - apply lifted_CRDPChannel_removeListener_other. intros ->. apply Hsub.
    eexists _, _. by right.
  - apply lifted_onMessage.
  - apply lifted_elapse_other. intros due _ _. apply Htime. by eexists.
Qed.
End Lift.

(** X16: which operation can change what.  An operation leaves the
    subscriber list of a channel alone unless it is [on] or
    [removeListener] called on that very channel; it leaves its enabled
    domains alone unless it is a [send] on that very channel; and it
    discards its buffers only if it is the passing of time. *)
Theorem who_changes_what a w c this :
  _channels (mux w) !! c = Some this ->
  exists that,
    _channels (mux (snd (perform a w))) !! c = Some that /\
    ((forall event cb, a <> DoOn c event cb) ->
     (forall event cb, a <> DoRemoveListener c event cb) ->
     _messageCallbacks that = _messageCallbacks this) /\
    ((forall data, a <> DoSend c data) ->
     _enabledDomains that = _enabledDomains this) /\
    ((forall dt, a <> DoElapse dt) ->
     _pendingMessagesForDomain this <> None ->
     _pendingMessagesForDomain that <> None).
Proof.
  intros Hc. destruct (grows_perform a w c this Hc) as (that & Hthat & _).
  exists that. split; [done|]. split; [|split].
  - intros Hon Hoff.
    assert (Hl : lifted c
              (fun this that => _messageCallbacks that = _messageCallbacks this)
              w (snd (perform a w))).
    { apply lifted_perform; try done.
      - intros; congruence.
      - intros (event & cb & [->| ->]);
          [by destruct (Hon event cb)|by destruct (Hoff event cb)]. }
    destruct (Hl this Hc) as (that' & Hthat' & Hrel). congruence.
  - intros Hsend.
    assert (Hl : lifted c
              (fun this that => _enabledDomains that = _enabledDomains this)
              w (snd (perform a w))).
    { apply lifted_perform; try done.
      - intros; congruence.
      - intros [data ->]. by destruct (Hsend data). }
    destruct (Hl this Hc) as (that' & Hthat' & Hrel). congruence.
  - intros Htime Halive.
    assert (Hl : lifted c
              (fun this that => _pendingMessagesForDomain this <> None ->
                                _pendingMessagesForDomain that <> None)
              w (snd (perform a w))).
    { apply lifted_perform; try done.
      - intros; auto.
      - intros [dt ->]. by destruct (Htime dt). }
    destruct (Hl this Hc) as (that' & Hthat' & Hrel).
    rewrite Hthat in Hthat'. injection Hthat' as <-. by apply Hrel.
Qed.

Lemma who_changes_what_witness :
  exists that,
    _channels
      (mux (snd (perform (DoSend 1 (request 5 "Network.enable" "")) buffering)))
      !! 0%nat = Some that /\
    _enabledDomains that = ∅.
Proof.
  assert (Hc : _channels (mux buffering) !! 0%nat = Some bufferingDebugger)
    by (vm_compute; reflexivity).
  destruct (who_changes_what (DoSend 1 (request 5 "Network.enable" ""))
              buffering 0 bufferingDebugger Hc)
    as (that & Hthat & _ & Hen & _).
  exists that. split; [done|]. apply Hen. intros data. discriminate.
Defined.

(** ** A channel nobody listens to keeps its buffers *)

Lemma noTimer_perform c a w :
  (forall cb, a <> DoOn c "message" cb) ->
  (forall due, (due, c) ∉ timeouts w) ->
  forall due, (due, c) ∉ timeouts (snd (perform a w)).
Proof.
  intros Hnot Hnone.
  set (R := fun w w' : World =>
              forall due, (due, c) ∈ timeouts w' -> (due, c) ∈ timeouts w).
  assert (HR : R w (snd (perform a w)));
    [|intros due Hin; by apply (Hnone due), HR].
  assert (Hrefl : forall w, R w w) by (by intros w' due).
  assert (Htrans : forall w1 w2 w3, R w1 w2 -> R w2 w3 -> R w1 w3)
    by (unfold R; auto).
  assert (Hinvoke : forall c' data cb, respects R (invoke c' data cb))
    by (by intros c' data cb w' due).
  assert (Hset : forall c' channel, respects R (setChannel c' channel))
    by (by intros c' channel w' due).
  assert (Hsend : forall channel data,
            respects R (CRDPMultiplexor_send channel data)).
  { intros channel data w' due. unfold CRDPMultiplexor_send, bind.
    by destruct (msg_id data). }
  assert (Hcall : forall call, respects R (socket_call call))
    by (by intros call w' due).
  assert (Htick : forall dt w, R w (tick dt w)).
  { intros dt w' due Hin. simpl in Hin.
    apply list_elem_of_In, filter_In in Hin as [Hin _].
    by apply list_elem_of_In. }
  destruct a; simpl perform.
  - intros due. unfold bind, addChannel, bind, getMux.
    by destruct (10 <=? length (_channels (mux w)))%nat.
  - by apply respects_CRDPChannel_send.
  - destruct (_channels (mux w) !! c0) as [this|] eqn:Hc.
    + destruct (String.eqb_spec event "message") as [->|Hne].
      * rewrite (CRDPChannel_on_message_eq _ _ _ _ Hc). intros due. simpl.
        destruct (length (_messageCallbacks this) =? 0)%nat; [|done].
        simpl. intros Hin. apply elem_of_app in Hin as [Hin|Hin]; [done|].
        apply list_elem_of_singleton in Hin. injection Hin as _ <-.
        by destruct (Hnot cb).
      * unfold CRDPChannel_on.
        rewrite (bind_Returned _ _ _ this w) by (by apply channelAt_Some).
        apply String.eqb_neq in Hne. rewrite Hne. by intros due.
    + unfold CRDPChannel_on.
      rewrite (bind_Threw _ _ _ TypeError w) by (by apply channelAt_None).
      by intros due.
  - by apply respects_CRDPChannel_removeListener.
  - by apply respects_onMessage.
  - by apply respects_elapse.
Qed.

Lemma neverArmed_perform c a w :
  (forall cb, a <> DoOn c "message" cb) ->
  neverArmed c w -> neverArmed c (snd (perform a w)).
Proof.
  intros Hnot [Hnone Halive]. split; [by apply noTimer_perform|].
  set (rel := fun this that : CRDPChannel =>
                _pendingMessagesForDomain this <> None ->
                _pendingMessagesForDomain that <> None).
  assert (Hl : lifted c rel w (snd (perform a w))).
  { assert (Hother : (forall dt, a <> DoElapse dt) ->
                     lifted c rel w (snd (perform a w))).
    { intros Htime. apply lifted_perform.
      - by unfold rel.
      - unfold rel. auto.
      - unfold rel. simpl. by intros this pending domain data _ _.
      - unfold rel. simpl. by intros this pending domain _ _.
      - intros _ this domain. by unfold rel.
      - intros _ this l. by unfold rel.
      - intros [dt Hdt]. by destruct (Htime dt). }
    destruct a; try (apply Hother; intros; discriminate).
    simpl perform. apply lifted_elapse_other.
    + by unfold rel.
    + unfold rel. auto.
    + intros due Hin. by destruct (Hnone due). }
  intros that Hthat.
  destruct (_channels (mux w) !! c) as [this|] eqn:Hc.
  - destruct (Hl this Hc) as (that' & Hthat' & Hrel).
    rewrite Hthat in Hthat'. injection Hthat' as <-. by apply Hrel, Halive.
  - (* the channel has just been created *)
    destruct a; simpl perform in Hthat.
    + unfold bind in Hthat.
      destruct (Nat.le_gt_cases 10 (length (_channels (mux w))))
        as [Hfull|Hroom].
      * rewrite addChannel_full in Hthat by done. simpl in Hthat. congruence.
      * rewrite addChannel_room in Hthat by done. simpl in Hthat.
        apply lookup_app_Some in Hthat as [Hthat|[_ Hthat]]; [congruence|].
        apply list_lookup_singleton_Some in Hthat as [_ <-]. done.
    + exfalso. pose proof (sameLength_perform (DoSend c0 messageData) w
                             ltac:(discriminate)) as Hlen.
      apply lookup_lt_Some in Hthat. apply lookup_ge_None in Hc.
      unfold sameLength in Hlen. simpl perform in Hlen. lia.
    + exfalso. pose proof (sameLength_perform (DoOn c0 event cb) w
                             ltac:(discriminate)) as Hlen.
      apply lookup_lt_Some in Hthat. apply lookup_ge_None in Hc.
      unfold sameLength in Hlen. simpl perform in Hlen. lia.
    + exfalso. pose proof (sameLength_perform (DoRemoveListener c0 event cb) w
                             ltac:(discriminate)) as Hlen.
      apply lookup_lt_Some in Hthat. apply lookup_ge_None in Hc.
      unfold sameLength in Hlen. simpl perform in Hlen. lia.
    + exfalso. pose proof (sameLength_perform (DoReceive data) w
                             ltac:(discriminate)) as Hlen.
      apply lookup_lt_Some in Hthat. apply lookup_ge_None in Hc.
      unfold sameLength in Hlen. simpl perform in Hlen. lia.
    + exfalso. pose proof (sameLength_perform (DoElapse dt) w
                             ltac:(discriminate)) as Hlen.
      apply lookup_lt_Some in Hthat. apply lookup_ge_None in Hc.
      unfold sameLength in Hlen. simpl perform in Hlen. lia.
Qed.

(** X17: a channel on which [on("message", ...)] is never called is never
    evicted: starting from a fresh multiplexor, no timer is ever set for
    it, and however much time passes and whatever else happens, its buffers
    are not discarded. *)
Theorem never_subscribed_never_evicted noDebugger actions c this :
  (forall cb, DoOn c "message" cb ∉ actions) ->
  _channels (mux (run actions (newWorld noDebugger))) !! c = Some this ->
  _pendingMessagesForDomain this <> None /\
  forall due, (due, c) ∉ timeouts (run actions (newWorld noDebugger)).
Proof.
  intros Hnot Hc.
  assert (H : forall w, neverArmed c w -> neverArmed c (run actions w)).
  { clear Hc. induction actions as [|a actions IH]; intros w Hw; [done|].
    simpl. apply IH.
    - intros cb Hin. apply (Hnot cb). by right.
    - apply neverArmed_perform; [|done]. intros cb ->. apply (Hnot cb). by left. }
  destruct (H (newWorld noDebugger)) as [Hnone Halive].
  - split; [intros due Hin; by apply elem_of_nil in Hin|]. by intros that.
  - split; [by apply Halive|done].
Qed.

Lemma never_subscribed_never_evicted_witness :
  exists this,
    _channels (mux (run [DoElapse 3600000] buffering)) !! 1%nat = Some this /\
    _pendingMessagesForDomain this <> None.
Proof.
  eexists. split; [vm_compute; reflexivity|].
  refine (proj1 (never_subscribed_never_evicted (Some "tools")
            [DoAddChannel "debugger"; DoAddChannel "tools";
             DoOn 0 "message" 1%nat; DoOn 0 "message" 2%nat;
             DoReceive (notification "Network.requestWillBeSent" "1");
             DoReceive (notification "Network.requestWillBeSent" "2");
             DoElapse 3600000] 1 _ _ _)).
  - intros cb Hin. repeat (apply elem_of_cons in Hin as [Hin|Hin];
                           [discriminate|]).
    by apply elem_of_nil in Hin.
  - vm_compute. reflexivity.
Defined.

(** ** Subscribing and unsubscribing *)

Lemma array_indexOf_app_fresh l cb :
  cb ∉ l -> array_indexOf (l ++ [cb])%list cb = Z.of_nat (length l).
Proof.
  intros Hnot.
  assert (Hin : cb ∈ (l ++ [cb])%list) by (apply elem_of_app; right; by left).
  destruct (array_indexOf_present _ _ Hin) as (k & -> & Hat & Hfirst).
  f_equal. destruct (Nat.lt_trichotomy k (length l)) as [Hlt|[->|Hgt]].
  - rewrite lookup_app_l in Hat by done.
    destruct Hnot. by eapply list_elem_of_lookup_2.
  - done.
  - apply lookup_lt_Some in Hat. rewrite length_app in Hat. simpl in Hat. lia.
Qed.

(** X18: registering a callback that is not yet subscribed and removing it
    again gives back the channel as it was; the eviction timer that the
    first subscription sets is not cancelled by the removal. *)
Theorem on_then_removeListener w c this cb :
  _channels (mux w) !! c = Some this ->
  cb ∉ _messageCallbacks this ->
  run [DoOn c "message" cb; DoRemoveListener c "message" cb] w =
  if (length (_messageCallbacks this) =? 0)%nat
  then snd (setTimeout c timeToPreserveMessagesInMillis w) else w.
Proof.
  intros Hc Hnot. simpl run.
  rewrite (CRDPChannel_on_message_eq _ _ _ _ Hc). simpl snd.
  set (w0 := if (length (_messageCallbacks this) =? 0)%nat
             then snd (setTimeout c timeToPreserveMessagesInMillis w) else w).
  assert (Hc0 : _channels (mux w0) !! c = Some this)
    by (unfold w0; by destruct (length (_messageCallbacks this) =? 0)%nat).
  set (this1 := with_messageCallbacks this
                  (_messageCallbacks this ++ [cb])%list).
  assert (Hc1 : _channels (mux (replaceChannel c this1 w0)) !! c = Some this1).
  { apply replaceChannel_lookup. by eapply lookup_lt_Some. }
  rewrite (CRDPChannel_removeListener_eq _ _ _ _ Hc1). simpl snd.
  rewrite replaceChannel_twice.
  change (_messageCallbacks this1) with (_messageCallbacks this ++ [cb])%list.
  rewrite array_indexOf_app_fresh by done.
  rewrite splice_at by (rewrite length_app; simpl; lia).
  replace (delete (length (_messageCallbacks this))
             (_messageCallbacks this ++ [cb])%list)
    with (_messageCallbacks this).
  - replace (with_messageCallbacks this1 (_messageCallbacks this)) with this
      by (by destruct this).
    by apply replaceChannel_id.
  - clear. induction (_messageCallbacks this) as [|x l IH]; [done|].
    simpl. by rewrite <- IH.
Qed.

Lemma on_then_removeListener_witness :
  run [DoOn 1 "message" 7%nat; DoRemoveListener 1 "message" 7%nat] buffering =
  snd (setTimeout 1 timeToPreserveMessagesInMillis buffering).
Proof.
  assert (Hc : _channels (mux buffering) !! 1%nat =
               Some {| name := "tools"; id := 1; _messageCallbacks := [];
                       _enabledDomains := ∅;
                       _pendingMessagesForDomain := Some networkBacklog |})
    by (vm_compute; reflexivity).
  refine (on_then_removeListener buffering 1 _ 7%nat Hc _).
  simpl. apply not_elem_of_nil.
Defined.

(** ** The names every dictionary inherits *)

Lemma perform_creates a w c that :
  _channels (mux w) !! c = None ->
  _channels (mux (snd (perform a w))) !! c = Some that ->
  exists channelName,
    that = freshChannel channelName (length (_channels (mux w))).
Proof.
  intros Hc Hthat.
  assert (Hcases : (exists channelName, a = DoAddChannel channelName) \/
                   forall channelName, a <> DoAddChannel channelName)
    by (destruct a; eauto).
  destruct Hcases as [[channelName ->]|Hother].
  - exists channelName. simpl perform in Hthat. unfold bind in Hthat.
    destruct (Nat.le_gt_cases 10 (length (_channels (mux w))))
      as [Hfull|Hroom].
    + rewrite addChannel_full in Hthat by done. simpl in Hthat. congruence.
    + rewrite addChannel_room in Hthat by done. simpl in Hthat.
      apply lookup_app_Some in Hthat as [Hthat|[_ Hthat]]; [congruence|].
      by apply list_lookup_singleton_Some in Hthat as [_ <-].
  - exfalso. pose proof (sameLength_perform a w Hother) as Hlen.
    apply lookup_lt_Some in Hthat. apply lookup_ge_None in Hc.
    unfold sameLength in Hlen. lia.
Qed.

Lemma onlyTrue_perform a w :
  (forall c this, _channels (mux w) !! c = Some this -> onlyTrue this) ->
  forall c that,
    _channels (mux (snd (perform a w))) !! c = Some that -> onlyTrue that.
Proof.
  intros Hall c that Hthat.
  destruct (_channels (mux w) !! c) as [this|] eqn:Hc.
  - assert (Hl : lifted c (fun this that => onlyTrue this -> onlyTrue that)
                   w (snd (perform a w))).
    { apply lifted_perform.
      - done.
      - auto.
      - by intros this0 pending domain data _.
      - by intros this0 pending domain _.
      - intros _ this0 domain Hthis domain' b. simpl.
        intros Hb. apply lookup_insert_Some in Hb as [[_ <-]|[_ Hb]]; [done|].
        by apply (Hthis domain').
      - by intros _ this0 l.
      - by intros _ this0. }
    destruct (Hl this Hc) as (that' & Hthat' & Hrel).
    rewrite Hthat in Hthat'. injection Hthat' as <-.
    by apply Hrel, (Hall c).
  - destruct (perform_creates a w c that Hc Hthat) as [channelName ->].
    intros domain b Hb. simpl in Hb. by rewrite lookup_empty in Hb.
Qed.

(** X19: the code writes nothing but [true] into [_enabledDomains].  So in
    every world that a fresh multiplexor can reach, every own property of
    that dictionary is [true], and every name that it inherits from
    [Object.prototype] reads as an enabled domain on every channel, with or
    without an enable request: a domain that reads as not enabled is not
    such a name. *)
Theorem inherited_names_read_enabled noDebugger actions c this :
  _channels (mux (run actions (newWorld noDebugger))) !! c = Some this ->
  onlyTrue this /\
  (forall domain, inherited domain = true -> isEnabled this domain = true) /\
  (forall domain, isEnabled this domain = false -> inherited domain = false).
Proof.
  intros Hc.
  assert (Hrun : forall w,
            (forall c this, _channels (mux w) !! c = Some this ->
                            onlyTrue this) ->
            forall c this, _channels (mux (run actions w)) !! c = Some this ->
                           onlyTrue this).
  { clear. induction actions as [|a actions IH]; intros w Hall; [done|].
    simpl. apply IH. by apply onlyTrue_perform. }
  assert (Htrue : onlyTrue this).
  { apply (Hrun (newWorld noDebugger)) with c; [|done]. by intros c' this'. }
  assert (Hread : forall domain,
            inherited domain = true -> isEnabled this domain = true).
  { intros domain Hin. unfold isEnabled, get.
    destruct (_enabledDomains this !! domain) as [b|] eqn:Hb.
    - by apply (Htrue domain).
    - by rewrite Hin. }
  split; [done|]. split; [done|].
  intros domain Hoff. destruct (inherited domain) eqn:Hin; [|done].
  rewrite (Hread domain Hin) in Hoff. discriminate.
Qed.

Lemma inherited_names_read_enabled_witness :
  isEnabled bufferingDebugger "toString" = true.
Proof.
  assert (Hc : _channels (mux buffering) !! 0%nat = Some bufferingDebugger)
    by (vm_compute; reflexivity).
  exact (proj1 (proj2 (inherited_names_read_enabled (Some "tools") _ 0
                         bufferingDebugger Hc)) "toString" eq_refl).
Defined.
